(** * terraform-provider-debug: a shallow embedding of the provider's
    resources and data sources, and the properties of its specification.

    The Go sources are under [internal/provider].  Every resource and data
    source is a small adapter around the plugin framework: it decodes a typed
    model out of the request, calls the operating system or the Go standard
    library, and writes the model into the response state.  The embedding
    keeps that shape: a request and a response are records, an operation is a
    function from the response it is handed to the response it leaves, and
    every call that leaves the program (the file system, the network, the
    clock, the framework's own encoders) is answered by an [Oracle]. *)

From Stdlib Require Import ZArith NArith Lia List Bool Ascii String.
From Stdlib Require Import Strings.Byte.
From stdpp Require Import base option list strings gmap.

Local Open Scope Z_scope.

(** ** Machine integers and bytes *)

(** Go's [int64] (and [int] on the 64-bit targets the provider is built for)
    wraps around; [wrap64] is the value a 64-bit signed register holds. *)
Definition wrap64 (z : Z) : Z := (z + 2 ^ 63) mod 2 ^ 64 - 2 ^ 63.

Definition wrap32 (z : Z) : Z := (z + 2 ^ 31) mod 2 ^ 32 - 2 ^ 31.

Definition int64_range (z : Z) : Prop := - 2 ^ 63 <= z < 2 ^ 63.

Definition int32_range (z : Z) : Prop := - 2 ^ 31 <= z < 2 ^ 31.

(** The conversion [byte(x)]: the low eight bits. *)
Definition byte_of_N (n : N) : byte :=
  match Byte.of_N (N.land n 255) with
  | Some b => b
  | None => x00
  end.

Definition byte_of_Z (z : Z) : byte := byte_of_N (Z.to_N (z mod 256)).

(** A Go [string] is a sequence of bytes; [string(b)] and [[]byte(s)] copy
    the bytes unchanged. *)
Definition string_of_bytes (b : list byte) : string := string_of_list_byte b.

Definition bytes_of_string (s : string) : list byte := list_byte_of_string s.

(** ** encoding/hex *)

Definition hextable : list byte := bytes_of_string "0123456789abcdef".

Definition hexdigit (n : N) : byte := nth (N.to_nat n) hextable x00.

(** [hex.Encode]: [dst[j] = hextable[v>>4]; dst[j+1] = hextable[v&0x0f]]. *)
Fixpoint hex_Encode (src : list byte) : list byte :=
  match src with
  | [] => []
  | v :: rest =>
      hexdigit (N.shiftr (Byte.to_N v) 4)
        :: hexdigit (N.land (Byte.to_N v) 15) :: hex_Encode rest
  end.

Definition hex_EncodeToString (src : list byte) : string :=
  string_of_bytes (hex_Encode src).

Definition is_lower_hex (b : byte) : bool :=
  let n := Byte.to_N b in
  ((48 <=? n) && (n <=? 57) || (97 <=? n) && (n <=? 102))%N.

(** ** encoding/base64, the standard alphabet with padding *)

Definition encodeStd : list byte :=
  bytes_of_string
    "ABCDEFGHIJKLMNOPQRSTUVWXYZabcdefghijklmnopqrstuvwxyz0123456789+/".

Definition StdPadding : byte := "="%byte.

Definition enc64 (n : N) : byte := nth (N.to_nat (N.land n 63)) encodeStd x00.

(** [Encoding.Encode]: three source bytes are packed into a 24-bit value
    and cut into four 6-bit digits; a remainder of one or two bytes is
    encoded with padding. *)
Fixpoint base64_Encode (src : list byte) : list byte :=
  match src with
  | [] => []
  | [b0] =>
      let val := N.shiftl (Byte.to_N b0) 16 in
      [enc64 (N.shiftr val 18); enc64 (N.shiftr val 12); StdPadding; StdPadding]
  | [b0; b1] =>
      let val := N.lor (N.shiftl (Byte.to_N b0) 16) (N.shiftl (Byte.to_N b1) 8) in
      [enc64 (N.shiftr val 18); enc64 (N.shiftr val 12); enc64 (N.shiftr val 6);
       StdPadding]
  | b0 :: b1 :: b2 :: rest =>
      let val :=
        N.lor (N.lor (N.shiftl (Byte.to_N b0) 16) (N.shiftl (Byte.to_N b1) 8))
          (Byte.to_N b2) in
      enc64 (N.shiftr val 18) :: enc64 (N.shiftr val 12)
        :: enc64 (N.shiftr val 6) :: enc64 val :: base64_Encode rest
  end.

Definition base64_EncodeToString (src : list byte) : string :=
  string_of_bytes (base64_Encode src).

(** The decode map of the alphabet: the position of a character in
    [encodeStd], when it has one. *)
Fixpoint index_of (c : byte) (l : list byte) (i : N) : option N :=
  match l with
  | [] => None
  | x :: rest => if Byte.eqb c x then Some i else index_of c rest (N.succ i)
  end.

Definition dec64 (c : byte) : option N := index_of c encodeStd 0.

(** [Encoding.Decode] on a padded input: every quantum is four characters;
    only the last one may end in one or two padding characters. *)
Fixpoint base64_Decode (src : list byte) : option (list byte) :=
  match src with
  | [] => Some []
  | c0 :: c1 :: c2 :: c3 :: rest =>
      match dec64 c0, dec64 c1 with
      | Some d0, Some d1 =>
          if Byte.eqb c3 StdPadding && match rest with [] => true | _ => false end
          then
            if Byte.eqb c2 StdPadding then
              let val := N.lor (N.shiftl d0 18) (N.shiftl d1 12) in
              Some [byte_of_N (N.shiftr val 16)]
            else
              match dec64 c2 with
              | Some d2 =>
                  let val :=
                    N.lor (N.lor (N.shiftl d0 18) (N.shiftl d1 12)) (N.shiftl d2 6) in
                  Some [byte_of_N (N.shiftr val 16); byte_of_N (N.shiftr val 8)]
              | None => None
              end
          else
            match dec64 c2, dec64 c3, base64_Decode rest with
            | Some d2, Some d3, Some out =>
                let val :=
                  N.lor (N.lor (N.lor (N.shiftl d0 18) (N.shiftl d1 12))
                           (N.shiftl d2 6)) d3 in
                Some (byte_of_N (N.shiftr val 16) :: byte_of_N (N.shiftr val 8)
                        :: byte_of_N val :: out)
            | _, _, _ => None
            end
      | _, _ => None
      end
  | _ => None
  end.

Definition base64_DecodeString (s : string) : option (list byte) :=
  base64_Decode (bytes_of_string s).

(** ** Go values the adapters pass around *)

(** A Go call that returns [(value, error)]: [Err e] carries [e.Error()]. *)
Inductive result (A : Type) : Type :=
| Ok (a : A)
| Err (e : string).
Arguments Ok {A} a.
Arguments Err {A} e.

(** The arguments of a [fmt.Sprintf] call. *)
Inductive FmtArg : Type :=
| AStr (s : string)
| AInt (z : Z)
| AErr (e : string).

(** [strings.Join]. *)
Fixpoint strings_Join (elems : list string) (sep : string) : string :=
  match elems with
  | [] => ""
  | [s] => s
  | s :: rest => s +:+ sep +:+ strings_Join rest sep
  end.

(** [strings.SplitN(s, "=", 2)]: cut at the first ["="], if there is one. *)
Fixpoint cut_at_eq (s : string) : option (string * string) :=
  match s with
  | EmptyString => None
  | String c rest =>
      if Ascii.eqb c "="%char then Some (EmptyString, rest)
      else match cut_at_eq rest with
           | Some (k, v) => Some (String c k, v)
           | None => None
           end
  end.

Definition strings_SplitN_eq_2 (s : string) : list string :=
  match cut_at_eq s with
  | Some (k, v) => [k; v]
  | None => [s]
  end.

(** ** The plugin framework, as far as the adapters use it *)

Module diag.

Inductive Severity : Type := SeverityError | SeverityWarning.

Record Diagnostic : Type :=
  { Severity_ : Severity; Summary : string; Detail : string }.

#[global] Instance Severity_eq_dec : EqDecision Severity.
Proof. solve_decision. Defined.

#[global] Instance Diagnostic_eq_dec : EqDecision Diagnostic.
Proof. solve_decision. Defined.

Definition NewErrorDiagnostic (summary detail : string) : Diagnostic :=
  {| Severity_ := SeverityError; Summary := summary; Detail := detail |}.

Definition NewWarningDiagnostic (summary detail : string) : Diagnostic :=
  {| Severity_ := SeverityWarning; Summary := summary; Detail := detail |}.

Definition is_error (d : Diagnostic) : bool :=
  match Severity_ d with SeverityError => true | SeverityWarning => false end.

Definition Diagnostics : Type := list Diagnostic.

(** [Diagnostics.HasError]. *)
Definition HasError (ds : Diagnostics) : bool := existsb is_error ds.

(** [Diagnostics.Contains]. *)
Definition Contains (ds : Diagnostics) (d : Diagnostic) : bool :=
  existsb (fun x => bool_decide (x = d)) ds.

(** [Diagnostics.Append]: a diagnostic the collection already holds is
    skipped, the others are added at the end, in order. *)
Fixpoint Append (ds new : Diagnostics) : Diagnostics :=
  match new with
  | [] => ds
  | d :: rest => Append (if Contains ds d then ds else ds ++ [d]) rest
  end.

Definition AddError (summary detail : string) (ds : Diagnostics) : Diagnostics :=
  Append ds [NewErrorDiagnostic summary detail].

Definition AddWarning (summary detail : string) (ds : Diagnostics) : Diagnostics :=
  Append ds [NewWarningDiagnostic summary detail].

End diag.

Module types.

(** A framework value is null, unknown or known; null is the zero value of
    the Go struct. *)
Inductive Value (A : Type) : Type :=
| Null
| Unknown
| Known (a : A).
Arguments Null {A}.
Arguments Unknown {A}.
Arguments Known {A} a.

Definition IsNull {A} (v : Value A) : bool :=
  match v with Null => true | _ => false end.

Definition IsUnknown {A} (v : Value A) : bool :=
  match v with Unknown => true | _ => false end.

Definition String : Type := Value string.
Definition Bool : Type := Value bool.
Definition Int64 : Type := Value Z.
Definition Int32 : Type := Value Z.
Definition List : Type := Value (list String).
Definition Map : Type := Value (gmap string String).

(** The [Value...] accessors return the zero value of the Go type for a
    null or unknown value. *)
Definition ValueString (v : String) : string :=
  match v with Known s => s | _ => "" end.

Definition ValueBool (v : Bool) : bool :=
  match v with Known b => b | _ => false end.

Definition ValueInt64 (v : Int64) : Z :=
  match v with Known z => z | _ => 0 end.

Definition ValueInt32 (v : Int32) : Z :=
  match v with Known z => z | _ => 0 end.

Definition Elements {A} (v : Value (list A)) : list A :=
  match v with Known l => l | _ => [] end.

Definition MapElements (v : Map) : gmap string String :=
  match v with Known m => m | _ => ∅ end.

Definition StringValue (s : string) : String := Known s.
Definition StringNull : String := Null.
Definition BoolValue (b : bool) : Bool := Known b.
Definition Int64Value (z : Z) : Int64 := Known z.
Definition Int32Value (z : Z) : Int32 := Known z.

End types.

Module tfsdk.

(** [tfsdk.Config], [tfsdk.Plan] and the request's [tfsdk.State]: the
    typed value the framework holds and the diagnostics its decoding gives. *)
Record Source (M : Type) : Type :=
  { Raw : M; GetDiags : diag.Diagnostics }.
Arguments Raw {M} s.
Arguments GetDiags {M} s.

(** [Get(ctx, &data)]: the target is assigned only when decoding reported
    no error; otherwise it keeps the zero value it was declared with. *)
Definition Get {M} (zero : M) (s : Source M) : diag.Diagnostics * M :=
  (GetDiags s, if diag.HasError (GetDiags s) then zero else Raw s).

(** A request: the configuration, the plan and the prior state.  A data
    source's [ReadRequest] has the configuration only, a resource's
    [ReadRequest] and [DeleteRequest] the state only. *)
Record Request (M : Type) : Type :=
  { req_Config : Source M; req_Plan : Source M; req_State : Source M }.
Arguments req_Config {M} r.
Arguments req_Plan {M} r.
Arguments req_State {M} r.

(** A response: the state the operation leaves ([None] is the null state)
    and the diagnostics.  The Go methods mutate the response they are
    handed, so an operation is a function from response to response. *)
Record Response (M : Type) : Type :=
  { resp_State : option M; resp_Diagnostics : diag.Diagnostics }.
Arguments resp_State {M} r.
Arguments resp_Diagnostics {M} r.

Definition Append {M} (ds : diag.Diagnostics) (resp : Response M) : Response M :=
  {| resp_State := resp_State resp;
     resp_Diagnostics := diag.Append (resp_Diagnostics resp) ds |}.

Definition AddError {M} (summary detail : string) (resp : Response M) : Response M :=
  {| resp_State := resp_State resp;
     resp_Diagnostics := diag.AddError summary detail (resp_Diagnostics resp) |}.

Definition AddWarning {M} (summary detail : string) (resp : Response M) : Response M :=
  {| resp_State := resp_State resp;
     resp_Diagnostics := diag.AddWarning summary detail (resp_Diagnostics resp) |}.

Definition HasError {M} (resp : Response M) : bool :=
  diag.HasError (resp_Diagnostics resp).

(** [resp.Diagnostics.Append(resp.State.Set(ctx, &data)...)]: [State.Set]
    replaces the raw state only when encoding [data] reported no error;
    [setDiags] is what the encoding reports. *)
Definition State_Set {M} (setDiags : diag.Diagnostics) (data : M)
    (resp : Response M) : Response M :=
  Append setDiags
    {| resp_State := if diag.HasError setDiags then resp_State resp else Some data;
       resp_Diagnostics := resp_Diagnostics resp |}.

End tfsdk.

Import tfsdk.

(** ** The world outside the program *)

(** A path of the file system names a regular file or a directory. *)
Inductive node : Type :=
| File (content : list byte)
| Dir.

(** What an operation can change outside its response: the file system, the
    runtime's GOMAXPROCS setting, and the [Write] calls issued so far (the
    file name and the bytes handed to each call, oldest first). *)
Record World : Type :=
  { fs : gmap string node;
    GOMAXPROCS : Z;
    writes : list (string * list byte) }.

(** [Write] on an [os.File] keeps the [io.Writer] contract: it returns
    [len(p), nil], or an error together with the count [n < len(p)] of
    bytes it did write. *)
Inductive WriteResult : Type :=
| WriteOk
| WriteErr (n : Z) (e : string).

(** [host.InfoStat], the fields the provider reads. *)
Record InfoStat : Type :=
  { info_Hostname : string; info_OS : string; info_Platform : string;
    info_PlatformFamily : string; info_PlatformVersion : string;
    info_KernelVersion : string; info_KernelArch : string }.

(** [disk.UsageStat], the fields the provider reads. *)
Record UsageStat : Type :=
  { usage_Total : Z; usage_Used : Z; usage_Free : Z }.

(** What [exec.Cmd.Run] leaves behind. *)
Record CmdResult : Type :=
  { cmd_Stdout : string; cmd_Stderr : string; cmd_ExitCode : Z;
    cmd_Err : option string }.

(** An [http.Response]: status code, header, and what [io.ReadAll] on the
    body returns. *)
Record HTTPResponse : Type :=
  { StatusCode : Z; Header : gmap string (list string);
    Body : result (list byte) }.

(** The answers of everything the provider calls and does not implement:
    the Go standard library, the operating system, gopsutil, and the
    framework's value conversions.  Theorems quantify over the oracle. *)
Record Oracle : Type :=
  { (* fmt, strconv, path/filepath, net *)
    fmt_Sprintf : string -> list FmtArg -> string;
    strconv_Itoa : Z -> string;
    filepath_Base : string -> string;
    net_JoinHostPort : string -> string -> string;
    String_String : types.String -> string;
    (* time and context *)
    time_ParseDuration : string -> result Z;
    ctx_Err_within : Z -> option string;
    time_Now_UTC : string;
    (* crypto *)
    sha256_Sum256 : list byte -> list byte;
    rand_Read_err : nat -> option string;
    rand_byte : nat -> nat -> byte;
    (* os *)
    os_Stat_err : string -> option string;
    os_basename : string -> string;
    dir_Size : string -> Z;
    os_Open_err : string -> option string;
    os_Create_err : string -> option string;
    os_ReadFile_err : string -> option string;
    fh_Write : nat -> list byte -> WriteResult;
    fh_Seek_err : option string;
    io_Copy_err : option string;
    os_LookupEnv : string -> option string;
    os_Environ : list string;
    os_Getwd : result string;
    os_UserHomeDir : result string;
    os_Getuid : Z; os_Getgid : Z; os_Getpid : Z; os_Getppid : Z;
    runtime_NumCPU : Z;
    (* net, net/http, os/exec *)
    net_LookupIP : string -> result (list (list byte));
    IP_String : list byte -> string;
    net_Dial : Z -> string -> string -> option string;
    http_NewRequest_err : string -> option string;
    CanonicalMIMEHeaderKey : string -> string;
    http_Do : Z -> string -> gmap string string -> result HTTPResponse;
    exec_Run : list string -> CmdResult;
    (* gopsutil *)
    host_Info : result InfoStat;
    cpu_Counts : result Z;
    mem_Total : result Z;
    disk_Usage : string -> result UsageStat;
    (* the framework's conversions *)
    StateSetDiags : diag.Diagnostics;
    ListValueFromDiags : diag.Diagnostics;
    MapValueFromDiags : diag.Diagnostics;
    ObjectValueFromDiags : nat -> diag.Diagnostics;
    ToListValueDiags : diag.Diagnostics;
    ElementsAsDiags : diag.Diagnostics }.

(** [os.Stat]. *)
Inductive StatResult : Type :=
| StatNotExist
| StatErr (e : string)
| StatInfo (Name : string) (Size : Z) (IsDir : bool).

Definition os_Stat (o : Oracle) (w : World) (name : string) : StatResult :=
  match os_Stat_err o name with
  | Some e => StatErr e
  | None =>
      match fs w !! name with
      | None => StatNotExist
      | Some (File c) => StatInfo (os_basename o name) (Z.of_nat (length c)) false
      | Some Dir => StatInfo (os_basename o name) (dir_Size o name) true
      end
  end.

(** [os.Open]: the node the name leads to. *)
Definition os_Open (o : Oracle) (w : World) (name : string) : result node :=
  match os_Open_err o name with
  | Some e => Err e
  | None =>
      match fs w !! name with
      | None => Err ("open " +:+ name +:+ ": no such file or directory")
      | Some n => Ok n
      end
  end.

(** [os.ReadFile]. *)
Definition os_ReadFile (o : Oracle) (w : World) (name : string) : result (list byte) :=
  match os_ReadFile_err o name with
  | Some e => Err e
  | None =>
      match fs w !! name with
      | Some (File c) => Ok c
      | Some Dir => Err ("read " +:+ name +:+ ": is a directory")
      | None => Err ("open " +:+ name +:+ ": no such file or directory")
      end
  end.

(** [sleep] of sleep_resource.go: the context's error when the context is
    done before the timer fires, [nil] otherwise. *)
Definition sleep (o : Oracle) (duration : Z) : option string :=
  ctx_Err_within o duration.

(** [hashFile] of the plan-artifact source, on the bytes the handle still
    has to read: [fmt.Sprintf("%x", hasher.Sum(nil))] prints the digest in
    lowercase hexadecimal. *)
Definition hashFile (o : Oracle) (n : node) : result string :=
  match io_Copy_err o with
  | Some e => Err e
  | None =>
      match n with
      | File c => Ok (hex_EncodeToString (sha256_Sum256 o c))
      | Dir => Err "read: is a directory"
      end
  end.

(** ** Resources *)

(** Calls to [tflog] only write to the log and are left out of the
    embedding. *)

(** *** failure_resource.go *)
Module FailureResource.

Record Model : Type :=
  { FailOnCreate : types.Bool;
    FailOnUpdate : types.Bool;
    FailOnDestroy : types.Bool;
    Id : types.String }.

Definition zero : Model :=
  {| FailOnCreate := types.Null; FailOnUpdate := types.Null;
     FailOnDestroy := types.Null; Id := types.Null |}.

Definition Metadata (ProviderTypeName : string) : string :=
  ProviderTypeName +:+ "_failure".

Definition Create (o : Oracle) (req : Request Model) (resp : Response Model)
    : Response Model :=
  let '(diags, data) := Get zero (req_Plan req) in
  let resp := Append diags resp in
  if HasError resp then resp
  else if types.ValueBool (FailOnCreate data) then
    AddError "Create Failed" "An error occurred while creating the resource." resp
  else State_Set (StateSetDiags o) data resp.

Definition Read (o : Oracle) (req : Request Model) (resp : Response Model)
    : Response Model :=
  let '(diags, data) := Get zero (req_State req) in
  let resp := Append diags resp in
  if HasError resp then resp
  else State_Set (StateSetDiags o) data resp.

Definition Update (o : Oracle) (req : Request Model) (resp : Response Model)
    : Response Model :=
  let '(diags, data) := Get zero (req_Plan req) in
  let resp := Append diags resp in
  if HasError resp then resp
  else if types.ValueBool (FailOnUpdate data) then
    AddError "Update Failed" "An error occurred while updating the resource." resp
  else State_Set (StateSetDiags o) data resp.

Definition Delete (o : Oracle) (req : Request Model) (resp : Response Model)
    : Response Model :=
  let '(diags, data) := Get zero (req_State req) in
  let resp := Append diags resp in
  if HasError resp then resp
  else if types.ValueBool (FailOnDestroy data) then
    AddError "Delete Failed" "An error occurred while deleting the resource." resp
  else resp.

End FailureResource.

(** *** sleep_resource.go *)
Module SleepResource.

Record Model : Type :=
  { Id : types.String;  (* timetypes.RFC3339 *)
    Duration : types.String;
    UpdateDuration : types.String;
    DestroyDuration : types.String }.

Definition zero : Model :=
  {| Id := types.Null; Duration := types.Null; UpdateDuration := types.Null;
     DestroyDuration := types.Null |}.

Definition Metadata (ProviderTypeName : string) : string :=
  ProviderTypeName +:+ "_sleep".

Definition Create (o : Oracle) (req : Request Model) (resp : Response Model)
    : Response Model :=
  let '(diags, data) := Get zero (req_Plan req) in
  let resp := Append diags resp in
  if HasError resp then resp
  else
    let durString := types.ValueString (Duration data) in
    match time_ParseDuration o durString with
    | Err e => AddError "Invalid Duration" ("Could not parse duration: " +:+ e) resp
    | Ok duration =>
        match sleep o duration with
        | Some e =>
            AddError "Sleep Failed" ("An error occurred while sleeping: " +:+ e) resp
        | None =>
            let data :=
              {| Id := types.StringValue (time_Now_UTC o);
                 Duration := Duration data;
                 UpdateDuration := UpdateDuration data;
                 DestroyDuration := DestroyDuration data |} in
            State_Set (StateSetDiags o) data resp
        end
    end.

Definition Read (o : Oracle) (req : Request Model) (resp : Response Model)
    : Response Model := resp.

Definition Update (o : Oracle) (req : Request Model) (resp : Response Model)
    : Response Model :=
  let '(diags, plan) := Get zero (req_Plan req) in
  let resp := Append diags resp in
  if HasError resp then resp
  else
    let '(diags, state) := Get zero (req_State req) in
    let resp := Append diags resp in
    if HasError resp then resp
    else
      let durString := types.ValueString (UpdateDuration state) in
      if negb (String.eqb durString "") then
        match time_ParseDuration o durString with
        | Err e =>
            AddError "Invalid Update Duration"
              ("Could not parse update_duration: " +:+ e) resp
        | Ok duration =>
            match sleep o duration with
            | Some e =>
                AddError "Sleep Failed"
                  ("An error occurred while sleeping: " +:+ e) resp
            | None => State_Set (StateSetDiags o) plan resp
            end
        end
      else State_Set (StateSetDiags o) plan resp.

Definition Delete (o : Oracle) (req : Request Model) (resp : Response Model)
    : Response Model :=
  let '(diags, data) := Get zero (req_State req) in
  let resp := Append diags resp in
  if HasError resp then resp
  else
    let durString := types.ValueString (DestroyDuration data) in
    if String.eqb durString "" then resp
    else
      match time_ParseDuration o durString with
      | Err e => AddError "Invalid Duration" ("Could not parse duration: " +:+ e) resp
      | Ok duration =>
          match sleep o duration with
          | Some e =>
              AddError "Sleep Failed" ("An error occurred while sleeping: " +:+ e) resp
          | None => resp
          end
      end.

End SleepResource.

(** *** The command resource (second file of system_info_data_source.go) *)
Module CommandResource.

Record Model : Type :=
  { Id : types.String;
    CreateCommand : types.List;
    Stderr : types.String;
    Stdout : types.String;
    ExitCode : types.Int32 }.

Definition zero : Model :=
  {| Id := types.Null; CreateCommand := types.Null; Stderr := types.Null;
     Stdout := types.Null; ExitCode := types.Null |}.

Definition Metadata (ProviderTypeName : string) : string :=
  ProviderTypeName +:+ "_command".

Definition NUL : string := String "000"%char EmptyString.

(** [Create] indexes [cmd[0]]: on an empty command the Go code panics,
    which is the [None] here. *)
Definition Create (o : Oracle) (req : Request Model) (resp : Response Model)
    : option (Response Model) :=
  let '(diags, data) := Get zero (req_Plan req) in
  let resp := Append diags resp in
  if HasError resp then Some resp
  else
    let cmd := CreateCommand data in
    let diags := ToListValueDiags o in
    if diag.HasError diags then Some (Append diags resp)
    else if negb (types.IsNull cmd) && negb (types.IsUnknown cmd) then
      let parts := types.Elements (CreateCommand data) in
      let diags := diag.Append diags (ElementsAsDiags o) in
      if diag.HasError diags then Some (Append diags resp)
      else
        let cmd := map types.ValueString parts in
        let idString := strings_Join cmd NUL in
        let hash := sha256_Sum256 o (bytes_of_string idString) in
        let id := types.StringValue (hex_EncodeToString hash) in
        match cmd with
        | [] => None
        | _ :: _ =>
            let r := exec_Run o cmd in
            match cmd_Err r with
            | Some e =>
                Some (AddError "Create Command Failed"
                        ("An error occurred while executing the create command: "
                           +:+ e) resp)
            | None =>
                let data :=
                  {| Id := id; CreateCommand := CreateCommand data;
                     Stderr := types.StringValue (cmd_Stderr r);
                     Stdout := types.StringValue (cmd_Stdout r);
                     ExitCode := types.Int32Value (wrap32 (cmd_ExitCode r)) |} in
                Some (State_Set (StateSetDiags o) data resp)
            end
        end
    else Some (State_Set (StateSetDiags o) data resp).

Definition Read (o : Oracle) (req : Request Model) (resp : Response Model)
    : Response Model := resp.

Definition Update (o : Oracle) (req : Request Model) (resp : Response Model)
    : Response Model := resp.

Definition Delete (o : Oracle) (req : Request Model) (resp : Response Model)
    : Response Model := resp.

End CommandResource.

(** *** http_get_resource.go *)
Module HTTPGetResource.

Record Model : Type :=
  { URL : types.String;
    Headers : types.Map;
    Timeout : types.Int64;
    ResponseBody : types.String;
    ResponseStatusCode : types.Int64;
    ResponseHeaders : types.Map }.

Definition zero : Model :=
  {| URL := types.Null; Headers := types.Null; Timeout := types.Null;
     ResponseBody := types.Null; ResponseStatusCode := types.Null;
     ResponseHeaders := types.Null |}.

Definition Metadata (ProviderTypeName : string) : string :=
  ProviderTypeName +:+ "_http_get".

Definition Second : Z := 1000000000.

(** The request header: every known element of [headers], set under its
    canonical key. *)
Definition request_header (o : Oracle) (headers : types.Map) : gmap string string :=
  if negb (types.IsNull headers) && negb (types.IsUnknown headers) then
    foldr
      (fun kv h =>
         match snd kv with
         | types.Known v => <[CanonicalMIMEHeaderKey o (fst kv) := v]> h
         | _ => h
         end)
      ∅ (map_to_list (types.MapElements headers))
  else ∅.

(** [headerElements]: the first value of every header that has one. *)
Definition headerElements (h : gmap string (list string)) : gmap string string :=
  omap head h.

Definition Create (o : Oracle) (req : Request Model) (resp : Response Model)
    : Response Model :=
  let '(diags, data) := Get zero (req_Plan req) in
  let resp := Append diags resp in
  if HasError resp then resp
  else
    let timeout := wrap64 (types.ValueInt64 (Timeout data) * Second) in
    match http_NewRequest_err o (types.ValueString (URL data)) with
    | Some e =>
        AddError "HTTP Request Creation Failed"
          ("An error occurred while creating the HTTP request: " +:+ e) resp
    | None =>
        let header := request_header o (Headers data) in
        match http_Do o timeout (types.ValueString (URL data)) header with
        | Err e =>
            AddError "HTTP Request Failed"
              ("An error occurred while performing the HTTP GET request: " +:+ e)
              resp
        | Ok respHTTP =>
            let statusCode := types.Int64Value (StatusCode respHTTP) in
            let diags := MapValueFromDiags o in
            if diag.HasError diags then Append diags resp
            else
              let headers : types.Map :=
                types.Known (types.StringValue <$> headerElements (Header respHTTP)) in
              match Body respHTTP with
              | Err e =>
                  AddError "HTTP Response Read Failed"
                    ("An error occurred while reading the HTTP response body: "
                       +:+ e) resp
              | Ok bodyBytes =>
                  let body :=
                    if (length bodyBytes =? 0)%nat then types.StringNull
                    else types.StringValue (string_of_bytes bodyBytes) in
                  let data :=
                    {| URL := URL data; Headers := Headers data;
                       Timeout := Timeout data; ResponseBody := body;
                       ResponseStatusCode := statusCode;
                       ResponseHeaders := headers |} in
                  State_Set (StateSetDiags o) data resp
              end
        end
    end.

Definition Read (o : Oracle) (req : Request Model) (resp : Response Model)
    : Response Model :=
  let '(diags, data) := Get zero (req_State req) in
  let resp := Append diags resp in
  if HasError resp then resp
  else State_Set (StateSetDiags o) data resp.

Definition Update (o : Oracle) (req : Request Model) (resp : Response Model)
    : Response Model :=
  let '(diags, data) := Get zero (req_Plan req) in
  let resp := Append diags resp in
  if HasError resp then resp
  else State_Set (StateSetDiags o) data resp.

Definition Delete (o : Oracle) (req : Request Model) (resp : Response Model)
    : Response Model := resp.

End HTTPGetResource.

(** ** Data sources *)

(** A data source's [Read] is handed the world as well: it returns the
    world and the response it leaves, or [None] when the fuel did not
    suffice for its loop to come to an end. *)

(** *** sleep_data_source.go *)
Module SleepDataSource.

Record Model : Type := { Duration : types.String }.

Definition zero : Model := {| Duration := types.Null |}.

Definition Metadata (ProviderTypeName : string) : string :=
  ProviderTypeName +:+ "_sleep".

Definition Read (o : Oracle) (fuel : nat) (w : World) (req : Request Model)
    (resp : Response Model) : option (World * Response Model) :=
  let '(diags, data) := Get zero (req_Config req) in
  let resp := Append diags resp in
  if HasError resp then Some (w, resp)
  else
    match time_ParseDuration o (types.ValueString (Duration data)) with
    | Err e =>
        Some (w, AddError "Invalid Duration" ("Could not parse duration: " +:+ e) resp)
    | Ok duration =>
        match sleep o duration with
        | Some e =>
            Some (w, AddError "Sleep Error"
                       ("An error occurred while sleeping: " +:+ e) resp)
        | None => Some (w, resp)
        end
    end.

End SleepDataSource.

(** *** failure_data_source.go *)
Module FailureDataSource.

Record Model : Type := Build_Model { }.

Definition zero : Model := Build_Model.

Definition Metadata (ProviderTypeName : string) : string :=
  ProviderTypeName +:+ "_failure".

Definition Read (o : Oracle) (fuel : nat) (w : World) (req : Request Model)
    (resp : Response Model) : option (World * Response Model) :=
  let '(diags, data) := Get zero (req_Config req) in
  let resp := Append diags resp in
  if HasError resp then Some (w, resp)
  else
    Some (w, AddError "Failure Data Source Error"
               "An error occurred while reading the failure data source." resp).

End FailureDataSource.

(** *** The plan-artifact data source (second file of http_get_resource.go) *)
Module PlanArtifactDataSource.

Record Model : Type :=
  { FileSize : types.Int64;
    FileName : types.String;
    Id : types.String }.

Definition zero : Model :=
  {| FileSize := types.Null; FileName := types.Null; Id := types.Null |}.

Definition Metadata (ProviderTypeName : string) : string :=
  ProviderTypeName +:+ "_plan_artifact".

Definition chunkSize : Z := 64 * 1024.

Definition file_content (w : World) (name : string) : list byte :=
  match fs w !! name with
  | Some (File c) => c
  | _ => []
  end.

(** [os.Create]: the file exists and is empty afterwards. *)
Definition os_Create (name : string) (w : World) : World :=
  {| fs := <[name := File []]> (fs w); GOMAXPROCS := GOMAXPROCS w;
     writes := writes w |}.

(** One [fh.Write(p)] that writes the first [n] bytes of [p] at the end of
    the file. *)
Definition write_file (name : string) (p : list byte) (n : nat) (w : World) : World :=
  {| fs := <[name := File (file_content w name ++ take n p)]> (fs w);
     GOMAXPROCS := GOMAXPROCS w;
     writes := writes w ++ [(name, p)] |}.

(** How the write loop is left: by its condition, with the count of bytes
    written, or by a [return] after [AddError]. *)
Inductive LoopExit : Type :=
| Completed (written : Z)
| Returned (summary detail : string).

(** [for written < fileSize { ... }], iteration [k] onwards. *)
Fixpoint write_loop (o : Oracle) (name : string) (fileSize : Z) (fuel : nat)
    (k : nat) (written : Z) (w : World) : option (World * LoopExit) :=
  match fuel with
  | O => None
  | S fuel' =>
      if written <? fileSize then
        let bytes :=
          if wrap64 (fileSize - written) <? chunkSize
          then wrap64 (fileSize - written) else chunkSize in
        match rand_Read_err o k with
        | Some e =>
            Some (w, Returned "Unable to generate random data"
                       (fmt_Sprintf o
                          "An error occurred while generating random data: %s"
                          [AErr e]))
        | None =>
            let chunk := map (rand_byte o k) (seq 0 (Z.to_nat bytes)) in
            match fh_Write o k chunk with
            | WriteErr n e =>
                Some (write_file name chunk (Z.to_nat n) w,
                      Returned "Unable to write to file"
                        (fmt_Sprintf o
                           "An error occurred while writing to the file: %s"
                           [AErr e]))
            | WriteOk =>
                let n := Z.of_nat (length chunk) in
                write_loop o name fileSize fuel' (S k) (wrap64 (written + n))
                  (write_file name chunk (length chunk) w)
            end
        end
      else Some (w, Completed written)
  end.

Definition Read (o : Oracle) (fuel : nat) (w : World) (req : Request Model)
    (resp : Response Model) : option (World * Response Model) :=
  let '(diags, data) := Get zero (req_Config req) in
  let resp := Append diags resp in
  if HasError resp then Some (w, resp)
  else
    let name := types.ValueString (FileName data) in
    match os_Stat o w name with
    | StatErr e =>
        Some (w, AddError "Unable to read existing file"
                   (fmt_Sprintf o
                      "An error occurred while checking the existing file: %s"
                      [AErr e]) resp)
    | StatInfo existingName existingSize _ =>
        match os_Open o w existingName with
        | Err e =>
            Some (w, AddError "Unable to open existing file"
                       (fmt_Sprintf o
                          "An error occurred while opening the existing file: %s"
                          [AErr e]) resp)
        | Ok fh =>
            match hashFile o fh with
            | Err e =>
                Some (w, AddError "Unable to hash existing file"
                           (fmt_Sprintf o
                              "An error occurred while hashing the existing file: %s"
                              [AErr e]) resp)
            | Ok hash =>
                let data :=
                  {| FileSize := types.Int64Value existingSize;
                     FileName := types.StringValue (filepath_Base o existingName);
                     Id := types.StringValue hash |} in
                Some (w, State_Set (StateSetDiags o) data resp)
            end
        end
    | StatNotExist =>
        let fileSize := types.ValueInt64 (FileSize data) in
        if fileSize <=? 0 then
          Some (w, AddError "Invalid File Size" "File size must be greater than zero."
                     resp)
        else
          match os_Create_err o name with
          | Some e =>
              Some (w, AddError "Unable to create file"
                         (fmt_Sprintf o
                            "An error occurred while creating the file: %s"
                            [AErr e]) resp)
          | None =>
              match write_loop o name fileSize fuel 0 0 (os_Create name w) with
              | None => None
              | Some (w, Returned summary detail) =>
                  Some (w, AddError summary detail resp)
              | Some (w, Completed written) =>
                  match fh_Seek_err o with
                  | Some e =>
                      Some (w, AddError "Unable to seek file"
                                 (fmt_Sprintf o
                                    "An error occurred while seeking the file before hashing: %s"
                                    [AErr e]) resp)
                  | None =>
                      match hashFile o (File (file_content w name)) with
                      | Err e =>
                          Some (w, AddError "Unable to hash file"
                                     (fmt_Sprintf o
                                        "An error occurred while hashing the file: %s"
                                        [AErr e]) resp)
                      | Ok hash =>
                          let data :=
                            {| FileSize := types.Int64Value written;
                               FileName := types.StringValue (filepath_Base o name);
                               Id := types.StringValue hash |} in
                          Some (w, State_Set (StateSetDiags o) data resp)
                      end
                  end
              end
          end
    end.

End PlanArtifactDataSource.

(** *** oom_kill_data_source.go *)
Module OOMKillDataSource.

Record Model : Type :=
  { Memory : types.Int64;
    BlockSize : types.Int64 }.

Definition zero : Model := {| Memory := types.Null; BlockSize := types.Null |}.

Definition Metadata (ProviderTypeName : string) : string :=
  ProviderTypeName +:+ "_oom_kill".

(** [block := make([]byte, n); for j := range block { block[j] = byte(j % 256) }]. *)
Definition make_block (n : Z) : list byte :=
  map (fun j => byte_of_Z (Z.rem (Z.of_nat j) 256)) (seq 0 (Z.to_nat n)).

(** The block count and the size of the last block, as [Read] computes
    them before the loop; [/] and [%] are Go's truncated division. *)
Definition numBlocksToAllocate (totalBytes blockSize : Z) : Z :=
  if negb (totalBytes =? -1) then
    if Z.rem totalBytes blockSize >? 0
    then wrap64 (Z.quot totalBytes blockSize + 1)
    else Z.quot totalBytes blockSize
  else -1.

Definition lastBlockSize (totalBytes blockSize : Z) : Z :=
  if negb (totalBytes =? -1) && (Z.rem totalBytes blockSize >? 0)
  then Z.rem totalBytes blockSize
  else blockSize.

(** [for i := 0; ; i++ { ... }] from iteration [i] onwards: the total of
    bytes allocated and the blocks held when the loop breaks. *)
Fixpoint alloc_loop (numBlocks blockSize lastBlock : Z) (fuel : nat) (i : Z)
    (totalAllocatedBytes : Z) (memoryHog : list (list byte))
    : option (Z * list (list byte)) :=
  match fuel with
  | O => None
  | S fuel' =>
      if negb (numBlocks =? -1) && (i >=? numBlocks) then
        Some (totalAllocatedBytes, memoryHog)
      else
        let currBlockSize :=
          if negb (numBlocks =? -1) && (i =? wrap64 (numBlocks - 1))
          then lastBlock else blockSize in
        let block := make_block currBlockSize in
        alloc_loop numBlocks blockSize lastBlock fuel' (wrap64 (i + 1))
          (wrap64 (totalAllocatedBytes + Z.of_nat (length block)))
          (memoryHog ++ [block])
  end.

(** The allocation [Read] performs for a memory and a block size that
    passed its checks. *)
Definition allocate (fuel : nat) (totalBytes blockSize : Z)
    : option (Z * list (list byte)) :=
  let blockSize := if blockSize <=? 0 then 100 * 1024 * 1024 else blockSize in
  alloc_loop (numBlocksToAllocate totalBytes blockSize) blockSize
    (lastBlockSize totalBytes blockSize) fuel 0 0 [].

Definition Read (o : Oracle) (fuel : nat) (w : World) (req : Request Model)
    (resp : Response Model) : option (World * Response Model) :=
  let '(diags, data) := Get zero (req_Config req) in
  let resp := Append diags resp in
  if HasError resp then Some (w, resp)
  else
    let totalBytes := types.ValueInt64 (Memory data) in
    if (totalBytes <=? 0) && negb (totalBytes =? -1) then
      Some (w, AddError "Invalid Memory Size"
                 "Memory size must be greater than zero or -1 (infinite)." resp)
    else
      let blockSize := types.ValueInt64 (BlockSize data) in
      if blockSize <? 0 then
        Some (w, AddError "Invalid Block Size" "Block size must be greater than zero."
                   resp)
      else
        match allocate fuel totalBytes blockSize with
        | None => None
        | Some _ => Some (w, resp)
        end.

End OOMKillDataSource.

(** *** cpu_hog_data_source.go *)
Module CPUHogDataSource.

Record Model : Type :=
  { NumCores : types.Int32;
    Duration : types.String }.

Definition zero : Model := {| NumCores := types.Null; Duration := types.Null |}.

Definition Metadata (ProviderTypeName : string) : string :=
  ProviderTypeName +:+ "_cpu_hog".

(** [runtime.GOMAXPROCS(n)] changes the setting when [n >= 1]. *)
Definition runtime_GOMAXPROCS (n : Z) (w : World) : World :=
  if n <? 1 then w
  else {| fs := fs w; GOMAXPROCS := n; writes := writes w |}.

(** [Read] up to the fan-out.  The workers and the [select] that follows
    touch neither the response nor the world; their protocol is the
    transition system of [CPUHogFanOut] below. *)
Definition Read (o : Oracle) (fuel : nat) (w : World) (req : Request Model)
    (resp : Response Model) : option (World * Response Model) :=
  let '(diags, data) := Get zero (req_Config req) in
  let resp := Append diags resp in
  if HasError resp then Some (w, resp)
  else
    let numCores := types.ValueInt32 (NumCores data) in
    if numCores <? 0 then
      Some (w, AddError "Invalid Number of Cores"
                 (fmt_Sprintf o
                    "The number of cores must be greater than zero, got %d"
                    [AInt numCores]) resp)
    else
      let numCores :=
        if numCores =? 0 then wrap32 (runtime_NumCPU o) else numCores in
      if numCores >? wrap32 (runtime_NumCPU o) then
        Some (w, AddError "Invalid Number of Cores"
                   (fmt_Sprintf o
                      "The number of cores %d exceeds the available CPU cores %d"
                      [AInt numCores; AInt (runtime_NumCPU o)]) resp)
      else
        let durationStr := types.ValueString (Duration data) in
        match time_ParseDuration o durationStr with
        | Err e =>
            Some (w, AddError "Invalid Duration"
                       (fmt_Sprintf o "Failed to parse duration '%s': %v"
                          [AStr durationStr; AErr e]) resp)
        | Ok duration => Some (runtime_GOMAXPROCS numCores w, resp)
        end.

End CPUHogDataSource.

(** *** environment_variables_data_source.go *)
Module EnvDataSource.

Record Model : Type :=
  { EnvironmentVariables : list string;
    Result : gmap string string }.

Definition zero : Model := {| EnvironmentVariables := []; Result := ∅ |}.

Definition Metadata (ProviderTypeName : string) : string :=
  ProviderTypeName +:+ "_environment_variables".

(** The loop over the requested names. *)
Definition lookup_step (o : Oracle) (acc : Response Model * gmap string string)
    (v : string) : Response Model * gmap string string :=
  match os_LookupEnv o v with
  | None =>
      (AddWarning "Environment Variable Not Found"
         (fmt_Sprintf o
            "Environment variable '%s' is not set in the current environment."
            [AStr v]) (fst acc),
       snd acc)
  | Some val => (fst acc, <[v := val]> (snd acc))
  end.

(** The loop over [os.Environ()]. *)
Definition environ_step (acc : Response Model * gmap string string)
    (env : string) : Response Model * gmap string string :=
  match strings_SplitN_eq_2 env with
  | [k; v] => (fst acc, <[k := v]> (snd acc))
  | _ =>
      (AddWarning "Invalid Environment Variable"
         ("Environment variable does not contain a '=' separator: " +:+ env)
         (fst acc),
       snd acc)
  end.

Definition Read (o : Oracle) (fuel : nat) (w : World) (req : Request Model)
    (resp : Response Model) : option (World * Response Model) :=
  let '(diags, data) := Get zero (req_Config req) in
  let resp := Append diags resp in
  if HasError resp then Some (w, resp)
  else
    let '(resp, envVars) :=
      if (0 <? length (EnvironmentVariables data))%nat then
        fold_left (lookup_step o) (EnvironmentVariables data) (resp, ∅)
      else fold_left environ_step (os_Environ o) (resp, ∅) in
    let data :=
      {| EnvironmentVariables := EnvironmentVariables data; Result := envVars |} in
    Some (w, State_Set (StateSetDiags o) data resp).

End EnvDataSource.

(** *** The DNS lookup data source *)
Module DNSLookupDataSource.

Record Model : Type :=
  { Hostname : types.String;
    Result : types.List }.

Definition zero : Model := {| Hostname := types.Null; Result := types.Null |}.

Definition Metadata (ProviderTypeName : string) : string :=
  ProviderTypeName +:+ "_dns_lookup".

(** [Read] goes on to the lookup without asking whether decoding the
    configuration reported an error. *)
Definition Read (o : Oracle) (fuel : nat) (w : World) (req : Request Model)
    (resp : Response Model) : option (World * Response Model) :=
  let '(diags, data) := Get zero (req_Config req) in
  let resp := Append diags resp in
  match net_LookupIP o (types.ValueString (Hostname data)) with
  | Err e =>
      Some (w, AddError "Failed to look up IP addresses"
                 (fmt_Sprintf o
                    "Could not look up IP addresses for hostname %s: %s"
                    [AStr (String_String o (Hostname data)); AErr e]) resp)
  | Ok ips =>
      let res := map (IP_String o) ips in
      let elements := map types.StringValue res in
      let diags := ListValueFromDiags o in
      if diag.HasError diags then Some (w, Append diags resp)
      else
        let data :=
          {| Hostname := Hostname data; Result := types.Known elements |} in
        Some (w, State_Set (StateSetDiags o) data resp)
  end.

End DNSLookupDataSource.

(** *** The TCP probe data source (second file of oom_kill_data_source.go) *)
Module TCPProbeDataSource.

Record Model : Type :=
  { Host : types.String;
    Port : types.Int32;
    Timeout : types.Int32;
    UseIPv4 : types.Bool;
    UseIP6 : types.Bool;
    Reachable : types.Bool }.

Definition zero : Model :=
  {| Host := types.Null; Port := types.Null; Timeout := types.Null;
     UseIPv4 := types.Null; UseIP6 := types.Null; Reachable := types.Null |}.

Definition Metadata (ProviderTypeName : string) : string :=
  ProviderTypeName +:+ "_tcp_probe".

Definition Second : Z := 1000000000.

Definition set_Reachable (v : types.Bool) (data : Model) : Model :=
  {| Host := Host data; Port := Port data; Timeout := Timeout data;
     UseIPv4 := UseIPv4 data; UseIP6 := UseIP6 data; Reachable := v |}.

(** After a failed dial [Read] adds the error, sets [reachable] to false
    and still falls through to [State.Set]. *)
Definition Read (o : Oracle) (fuel : nat) (w : World) (req : Request Model)
    (resp : Response Model) : option (World * Response Model) :=
  let '(diags, data) := Get zero (req_Config req) in
  let resp := Append diags resp in
  if HasError resp then Some (w, resp)
  else
    let timeout := types.ValueInt32 (Timeout data) in
    let timeout := if timeout <=? 0 then 5 else timeout in
    let port := strconv_Itoa o (types.ValueInt32 (Port data)) in
    let remoteAddr := net_JoinHostPort o (types.ValueString (Host data)) port in
    let network := "tcp" in
    let network :=
      if types.ValueBool (UseIPv4 data) then network +:+ "4" else network in
    let network :=
      if types.ValueBool (UseIP6 data) then network +:+ "6" else network in
    let data := set_Reachable (types.BoolValue true) data in
    match net_Dial o (wrap64 (timeout * Second)) network remoteAddr with
    | Some e =>
        let resp :=
          AddError "TCP Probe Failed"
            ("Failed to connect to " +:+ types.ValueString (Host data) +:+ ":"
               +:+ port +:+ " - " +:+ e) resp in
        let data := set_Reachable (types.BoolValue false) data in
        Some (w, State_Set (StateSetDiags o) data resp)
    | None => Some (w, State_Set (StateSetDiags o) data resp)
    end.

End TCPProbeDataSource.

(** *** file_content_data_source.go *)
Module FileContentDataSource.

Record Model : Type :=
  { Filename : types.String;
    Content : types.String;
    ContentBase64 : types.String;
    ContentSHA256 : types.String }.

Definition zero : Model :=
  {| Filename := types.Null; Content := types.Null; ContentBase64 := types.Null;
     ContentSHA256 := types.Null |}.

Definition Metadata (ProviderTypeName : string) : string :=
  ProviderTypeName +:+ "_file_content".

Definition Read (o : Oracle) (fuel : nat) (w : World) (req : Request Model)
    (resp : Response Model) : option (World * Response Model) :=
  let '(diags, data) := Get zero (req_Config req) in
  let resp := Append diags resp in
  if HasError resp then Some (w, resp)
  else
    let name := types.ValueString (Filename data) in
    match os_Stat o w name with
    | StatNotExist =>
        Some (w, AddError "File Not Found"
                   ("The file specified does not exist: " +:+ name) resp)
    | StatErr e =>
        Some (w, AddError "Error Reading File"
                   ("An error occurred while reading the file: " +:+ e) resp)
    | StatInfo _ _ true =>
        Some (w, AddError "Invalid File Type"
                   ("The specified path is a directory, not a file: " +:+ name)
                   resp)
    | StatInfo _ _ false =>
        match os_ReadFile o w name with
        | Err e =>
            Some (w, AddError "Error Reading File"
                       ("An error occurred while reading the file: " +:+ e) resp)
        | Ok content =>
            let hash := sha256_Sum256 o content in
            let b64Content := base64_EncodeToString content in
            let data :=
              {| Filename := Filename data;
                 Content := types.StringValue (string_of_bytes content);
                 ContentBase64 := types.StringValue b64Content;
                 ContentSHA256 := types.StringValue (hex_EncodeToString hash) |} in
            Some (w, State_Set (StateSetDiags o) data resp)
        end
    end.

End FileContentDataSource.

(** *** system_info_data_source.go *)
Module SystemInfoDataSource.

Record ProcInfo : Type :=
  { Uid : types.Int64; Gid : types.Int64; PID : types.Int64; PPID : types.Int64 }.

Record DiskInfo : Type :=
  { Total : types.Int64; Used : types.Int64; Free : types.Int64 }.

Record PlatformInfo : Type :=
  { Platform : string; PlatformFamily : string; PlatformVersion : string;
    KernelVersion : string; KernelArch : string }.

(** The three [types.Object] fields hold the nested structs. *)
Record Model : Type :=
  { Hostname : types.String;
    OS : types.String;
    PlatformInfo_ : types.Value PlatformInfo;
    NumCPUs : types.Int64;
    MemoryTotal : types.Int64;
    DiskInfo_ : types.Value DiskInfo;
    ProcInfo_ : types.Value ProcInfo;
    Home : types.String;
    Path : types.String;
    WorkingDir : types.String }.

Definition zero : Model :=
  {| Hostname := types.Null; OS := types.Null; PlatformInfo_ := types.Null;
     NumCPUs := types.Null; MemoryTotal := types.Null; DiskInfo_ := types.Null;
     ProcInfo_ := types.Null; Home := types.Null; Path := types.Null;
     WorkingDir := types.Null |}.

Definition Metadata (ProviderTypeName : string) : string :=
  ProviderTypeName +:+ "_system_info".

Definition unexpected (what e : string) : string :=
  "An unexpected error occurred while getting " +:+ what +:+ ": " +:+ e.

Definition Read (o : Oracle) (fuel : nat) (w : World) (req : Request Model)
    (resp : Response Model) : option (World * Response Model) :=
  let '(diags, data) := Get zero (req_Config req) in
  let resp := Append diags resp in
  if HasError resp then Some (w, resp)
  else
  match host_Info o with
  | Err e =>
      Some (w, AddError "Unable to get system info"
                 (unexpected "system information" e) resp)
  | Ok info =>
  let platformInfo :=
    {| Platform := info_Platform info;
       PlatformFamily := info_PlatformFamily info;
       PlatformVersion := info_PlatformVersion info;
       KernelVersion := info_KernelVersion info;
       KernelArch := info_KernelArch info |} in
  if diag.HasError (ObjectValueFromDiags o 0)
  then Some (w, Append (ObjectValueFromDiags o 0) resp)
  else
  match cpu_Counts o with
  | Err e =>
      Some (w, AddError "Unable to get CPU counts" (unexpected "CPU counts" e) resp)
  | Ok counts =>
  match mem_Total o with
  | Err e =>
      Some (w, AddError "Unable to get memory info"
                 (unexpected "memory information" e) resp)
  | Ok memTotal =>
  match os_Getwd o with
  | Err e =>
      Some (w, AddError "Unable to get working directory"
                 (unexpected "the working directory" e) resp)
  | Ok workingDir =>
  match disk_Usage o workingDir with
  | Err e =>
      Some (w, AddError "Unable to get disk info"
                 (unexpected "disk information" e) resp)
  | Ok diskInfo =>
  let diskData :=
    {| Total := types.Int64Value (wrap64 (usage_Total diskInfo));
       Used := types.Int64Value (wrap64 (usage_Used diskInfo));
       Free := types.Int64Value (wrap64 (usage_Free diskInfo)) |} in
  if diag.HasError (ObjectValueFromDiags o 1)
  then Some (w, Append (ObjectValueFromDiags o 1) resp)
  else
  match os_LookupEnv o "PATH" with
  | None =>
      Some (w, AddError "Unable to get PATH"
                 "Failed to retrieve the PATH environment variable." resp)
  | Some path =>
  let procInfo :=
    {| Uid := types.Int64Value (os_Getuid o);
       Gid := types.Int64Value (os_Getgid o);
       PID := types.Int64Value (os_Getpid o);
       PPID := types.Int64Value (os_Getppid o) |} in
  if diag.HasError (ObjectValueFromDiags o 2)
  then Some (w, Append (ObjectValueFromDiags o 2) resp)
  else
  match os_UserHomeDir o with
  | Err e =>
      Some (w, AddError "Unable to get home directory"
                 (unexpected "the home directory" e) resp)
  | Ok homeDir =>
  let data :=
    {| Hostname := types.StringValue (info_Hostname info);
       OS := types.StringValue (info_OS info);
       PlatformInfo_ := types.Known platformInfo;
       NumCPUs := types.Int64Value counts;
       MemoryTotal := types.Int64Value (wrap64 memTotal);
       DiskInfo_ := types.Known diskData;
       ProcInfo_ := types.Known procInfo;
       Home := types.StringValue homeDir;
       Path := types.StringValue path;
       WorkingDir := types.StringValue workingDir |} in
  Some (w, State_Set (StateSetDiags o) data resp)
  end end end end end end end.

End SystemInfoDataSource.

(** ** The provider *)

Module DebugProvider.

Record MetadataResponse : Type := { TypeName : string; Version : string }.

Definition Metadata (version : string) : MetadataResponse :=
  {| TypeName := "debug"; Version := version |}.

End DebugProvider.

(** The constructors the repository declares, named as in the source. *)
Inductive Resource : Type :=
| NewFailureResource
| NewSleepResource
| NewCommandResource
| NewHTTPGetResource.

Inductive DataSource : Type :=
| NewPlanArtifactDataSource
| NewOOMKillDataSource
| NewCPUHogDataSource
| NewEnvDataSource
| NewDNSLookupDataSource
| NewTCPProbeDataSource
| NewFileContentDataSource
| NewFailureDataSource
| NewSystemInfoDataSource
| NewSleepDataSource.

(** [DebugProvider.Resources] and [DebugProvider.DataSources]; the sleep
    data source is declared but not registered. *)
Definition Resources : list Resource :=
  [NewFailureResource; NewSleepResource; NewCommandResource; NewHTTPGetResource].

Definition DataSources : list DataSource :=
  [NewPlanArtifactDataSource; NewOOMKillDataSource; NewCPUHogDataSource;
   NewEnvDataSource; NewDNSLookupDataSource; NewTCPProbeDataSource;
   NewFileContentDataSource; NewFailureDataSource; NewSystemInfoDataSource].

Inductive Component : Type :=
| AResource (r : Resource)
| ADataSource (d : DataSource).

#[global] Instance Resource_eq_dec : EqDecision Resource.
Proof. solve_decision. Defined.

#[global] Instance DataSource_eq_dec : EqDecision DataSource.
Proof. solve_decision. Defined.

#[global] Instance Component_eq_dec : EqDecision Component.
Proof. solve_decision. Defined.

Definition all_resources : list Resource := Resources.

Definition all_data_sources : list DataSource := DataSources ++ [NewSleepDataSource].

Definition all_components : list Component :=
  map AResource all_resources ++ map ADataSource all_data_sources.

(** The [Metadata] method of each component: the type name it sets for the
    provider type name of the request. *)
Definition Metadata (c : Component) (ProviderTypeName : string) : string :=
  match c with
  | AResource NewFailureResource => FailureResource.Metadata ProviderTypeName
  | AResource NewSleepResource => SleepResource.Metadata ProviderTypeName
  | AResource NewCommandResource => CommandResource.Metadata ProviderTypeName
  | AResource NewHTTPGetResource => HTTPGetResource.Metadata ProviderTypeName
  | ADataSource NewPlanArtifactDataSource =>
      PlanArtifactDataSource.Metadata ProviderTypeName
  | ADataSource NewOOMKillDataSource => OOMKillDataSource.Metadata ProviderTypeName
  | ADataSource NewCPUHogDataSource => CPUHogDataSource.Metadata ProviderTypeName
  | ADataSource NewEnvDataSource => EnvDataSource.Metadata ProviderTypeName
  | ADataSource NewDNSLookupDataSource =>
      DNSLookupDataSource.Metadata ProviderTypeName
  | ADataSource NewTCPProbeDataSource => TCPProbeDataSource.Metadata ProviderTypeName
  | ADataSource NewFileContentDataSource =>
      FileContentDataSource.Metadata ProviderTypeName
  | ADataSource NewFailureDataSource => FailureDataSource.Metadata ProviderTypeName
  | ADataSource NewSystemInfoDataSource =>
      SystemInfoDataSource.Metadata ProviderTypeName
  | ADataSource NewSleepDataSource => SleepDataSource.Metadata ProviderTypeName
  end.

(** The model struct of each component. *)
Definition ds_Model (d : DataSource) : Type :=
  match d with
  | NewPlanArtifactDataSource => PlanArtifactDataSource.Model
  | NewOOMKillDataSource => OOMKillDataSource.Model
  | NewCPUHogDataSource => CPUHogDataSource.Model
  | NewEnvDataSource => EnvDataSource.Model
  | NewDNSLookupDataSource => DNSLookupDataSource.Model
  | NewTCPProbeDataSource => TCPProbeDataSource.Model
  | NewFileContentDataSource => FileContentDataSource.Model
  | NewFailureDataSource => FailureDataSource.Model
  | NewSystemInfoDataSource => SystemInfoDataSource.Model
  | NewSleepDataSource => SleepDataSource.Model
  end.

Definition res_Model (r : Resource) : Type :=
  match r with
  | NewFailureResource => FailureResource.Model
  | NewSleepResource => SleepResource.Model
  | NewCommandResource => CommandResource.Model
  | NewHTTPGetResource => HTTPGetResource.Model
  end.

(** [Read] of each data source. *)
Definition ds_Read (d : DataSource) (o : Oracle) (fuel : nat) (w : World)
    : Request (ds_Model d) -> Response (ds_Model d)
      -> option (World * Response (ds_Model d)) :=
  match d with
  | NewPlanArtifactDataSource => PlanArtifactDataSource.Read o fuel w
  | NewOOMKillDataSource => OOMKillDataSource.Read o fuel w
  | NewCPUHogDataSource => CPUHogDataSource.Read o fuel w
  | NewEnvDataSource => EnvDataSource.Read o fuel w
  | NewDNSLookupDataSource => DNSLookupDataSource.Read o fuel w
  | NewTCPProbeDataSource => TCPProbeDataSource.Read o fuel w
  | NewFileContentDataSource => FileContentDataSource.Read o fuel w
  | NewFailureDataSource => FailureDataSource.Read o fuel w
  | NewSystemInfoDataSource => SystemInfoDataSource.Read o fuel w
  | NewSleepDataSource => SleepDataSource.Read o fuel w
  end.

Inductive Method : Type := Create | Read | Update | Delete.

(** The four methods of each resource; [None] is a panic. *)
Definition res_call (r : Resource) (m : Method) (o : Oracle)
    : Request (res_Model r) -> Response (res_Model r)
      -> option (Response (res_Model r)) :=
  match r, m with
  | NewFailureResource, Create => fun q p => Some (FailureResource.Create o q p)
  | NewFailureResource, Read => fun q p => Some (FailureResource.Read o q p)
  | NewFailureResource, Update => fun q p => Some (FailureResource.Update o q p)
  | NewFailureResource, Delete => fun q p => Some (FailureResource.Delete o q p)
  | NewSleepResource, Create => fun q p => Some (SleepResource.Create o q p)
  | NewSleepResource, Read => fun q p => Some (SleepResource.Read o q p)
  | NewSleepResource, Update => fun q p => Some (SleepResource.Update o q p)
  | NewSleepResource, Delete => fun q p => Some (SleepResource.Delete o q p)
  | NewCommandResource, Create => fun q p => CommandResource.Create o q p
  | NewCommandResource, Read => fun q p => Some (CommandResource.Read o q p)
  | NewCommandResource, Update => fun q p => Some (CommandResource.Update o q p)
  | NewCommandResource, Delete => fun q p => Some (CommandResource.Delete o q p)
  | NewHTTPGetResource, Create => fun q p => Some (HTTPGetResource.Create o q p)
  | NewHTTPGetResource, Read => fun q p => Some (HTTPGetResource.Read o q p)
  | NewHTTPGetResource, Update => fun q p => Some (HTTPGetResource.Update o q p)
  | NewHTTPGetResource, Delete => fun q p => Some (HTTPGetResource.Delete o q p)
  end.

(** Every operation of the provider: a resource's Create, Read, Update or
    Delete, or a data source's Read. *)
Inductive Operation : Type :=
| ResourceOp (r : Resource) (m : Method)
| DataSourceRead (d : DataSource).

Definition op_Model (op : Operation) : Type :=
  match op with
  | ResourceOp r _ => res_Model r
  | DataSourceRead d => ds_Model d
  end.

(** The response an operation leaves, when it returns. *)
Definition run (op : Operation) (o : Oracle) (fuel : nat) (w : World)
    : Request (op_Model op) -> Response (op_Model op)
      -> option (Response (op_Model op)) :=
  match op with
  | ResourceOp r m => res_call r m o
  | DataSourceRead d => fun q p => snd <$> ds_Read d o fuel w q p
  end.

(** The error path: the operation returned and its response holds an
    error diagnostic.  Atomicity on error: on that path the response state
    is the one the operation was handed. *)
Definition atomic_on_error (op : Operation) : Prop :=
  forall o fuel w req resp resp',
    run op o fuel w req resp = Some resp' ->
    HasError resp' = true ->
    resp_State resp' = resp_State resp.

(** ** The declared schemas and model structs *)

Module schema.

(** How an attribute is declared.  Descriptions, validators, defaults and
    plan modifiers carry no structure and are left out. *)
Inductive Presence : Type :=
| Required
| Optional
| Computed
| OptionalComputed.

Inductive ElementType : Type := StringType.

#[warnings="-register-all"]
Inductive Attribute : Type :=
| StringAttribute (p : Presence)
| BoolAttribute (p : Presence)
| Int64Attribute (p : Presence)
| Int32Attribute (p : Presence)
| ListAttribute (e : ElementType) (p : Presence)
| MapAttribute (e : ElementType) (p : Presence)
| SingleNestedAttribute (p : Presence) (Attributes : list (string * Attribute)).

Definition Schema : Type := list (string * Attribute).

(** An attribute is flat when it is a scalar, a list or a map. *)
Definition flat_attribute (a : Attribute) : bool :=
  match a with
  | SingleNestedAttribute _ _ => false
  | _ => true
  end.

Definition flat (s : Schema) : bool := forallb (fun kv => flat_attribute (snd kv)) s.

(** The depth of nesting: 0 for a flat attribute. *)
Fixpoint depth (a : Attribute) : nat :=
  match a with
  | SingleNestedAttribute _ attrs =>
      S (fold_right (fun kv m => Nat.max (depth (snd kv)) m) O attrs)
  | _ => O
  end.

Definition nested_names (s : Schema) : list string :=
  map fst (filter (fun kv => negb (flat_attribute (snd kv))) s).




End schema.

Import schema.

(** The [Schema] method of each component, attribute by attribute. *)
Definition Schema_of (c : Component) : Schema :=
  match c with
  | AResource NewFailureResource =>
      [("id", StringAttribute Required);
       ("fail_on_create", BoolAttribute OptionalComputed);
       ("fail_on_update", BoolAttribute OptionalComputed);
       ("fail_on_destroy", BoolAttribute OptionalComputed)]
  | AResource NewSleepResource =>
      [("duration", StringAttribute Required);
       ("update_duration", StringAttribute Optional);
       ("destroy_duration", StringAttribute Optional);
       ("id", StringAttribute Computed)]
  | AResource NewCommandResource =>
      [("id", StringAttribute Computed);
       ("create_command", ListAttribute StringType Optional);
       ("stderr", StringAttribute Computed);
       ("stdout", StringAttribute Computed);
       ("exit_code", Int32Attribute Computed)]
  | AResource NewHTTPGetResource =>
      [("url", StringAttribute Required);
       ("headers", MapAttribute StringType Optional);
       ("timeout", Int64Attribute OptionalComputed);
       ("response_body", StringAttribute Computed);
       ("response_status_code", Int64Attribute Computed);
       ("response_headers", MapAttribute StringType Computed)]
  | ADataSource NewPlanArtifactDataSource =>
      [("file_size", Int64Attribute Required);
       ("file_name", StringAttribute Required);
       ("id", StringAttribute Computed)]
  | ADataSource NewOOMKillDataSource =>
      [("memory", Int64Attribute Required);
       ("block_size", Int64Attribute Optional)]
  | ADataSource NewCPUHogDataSource =>
      [("num_cores", Int32Attribute Optional);
       ("duration", StringAttribute Optional)]
  | ADataSource NewEnvDataSource =>
      [("environment_variables", ListAttribute StringType Optional);
       ("result", MapAttribute StringType Computed)]
  | ADataSource NewDNSLookupDataSource =>
      [("hostname", StringAttribute Required);
       ("result", ListAttribute StringType Computed)]
  | ADataSource NewTCPProbeDataSource =>
      [("host", StringAttribute Required);
       ("port", Int32Attribute Required);
       ("timeout", Int32Attribute Optional);
       ("use_ipv4", BoolAttribute Optional);
       ("use_ipv6", BoolAttribute Optional);
       ("reachable", BoolAttribute Computed)]
  | ADataSource NewFileContentDataSource =>
      [("filename", StringAttribute Required);
       ("content", StringAttribute Computed);
       ("content_base64", StringAttribute Computed);
       ("content_sha256", StringAttribute Computed)]
  | ADataSource NewFailureDataSource => []
  | ADataSource NewSystemInfoDataSource =>
      [("hostname", StringAttribute Computed);
       ("os", StringAttribute Computed);
       ("platform_info",
         SingleNestedAttribute Computed
           [("platform", StringAttribute Computed);
            ("platform_family", StringAttribute Computed);
            ("platform_version", StringAttribute Computed);
            ("kernel_version", StringAttribute Computed);
            ("kernel_arch", StringAttribute Computed)]);
       ("proc_info",
         SingleNestedAttribute Computed
           [("uid", Int64Attribute Computed);
            ("gid", Int64Attribute Computed);
            ("pid", Int64Attribute Computed);
            ("ppid", Int64Attribute Computed)]);
       ("num_cpus", Int64Attribute Computed);
       ("memory_total", Int64Attribute Computed);
       ("disk_info",
         SingleNestedAttribute Computed
           [("total", Int64Attribute Computed);
            ("used", Int64Attribute Computed);
            ("free", Int64Attribute Computed)]);
       ("home", StringAttribute Computed);
       ("path", StringAttribute Computed);
       ("working_dir", StringAttribute Computed)]
  | ADataSource NewSleepDataSource => [("duration", StringAttribute Required)]
  end.

(** The Go type of a model struct's field. *)
Inductive FieldType : Type :=
| types_String
| types_Bool
| types_Int64
| types_Int32
| types_List
| types_Map
| types_Object
| timetypes_RFC3339
| slice_of_string
| map_of_string.

(** A field is flat when it holds a scalar, a list or a map, and not an
    object with attributes of its own. *)
Definition flat_field (t : FieldType) : bool :=
  match t with
  | types_Object => false
  | _ => true
  end.

(** The fields of each model struct, by [tfsdk] tag. *)
Definition Model_fields (c : Component) : list (string * FieldType) :=
  match c with
  | AResource NewFailureResource =>
      [("fail_on_create", types_Bool); ("fail_on_update", types_Bool);
       ("fail_on_destroy", types_Bool); ("id", types_String)]
  | AResource NewSleepResource =>
      [("id", timetypes_RFC3339); ("duration", types_String);
       ("update_duration", types_String); ("destroy_duration", types_String)]
  | AResource NewCommandResource =>
      [("id", types_String); ("create_command", types_List);
       ("stderr", types_String); ("stdout", types_String);
       ("exit_code", types_Int32)]
  | AResource NewHTTPGetResource =>
      [("url", types_String); ("headers", types_Map); ("timeout", types_Int64);
       ("response_body", types_String); ("response_status_code", types_Int64);
       ("response_headers", types_Map)]
  | ADataSource NewPlanArtifactDataSource =>
      [("file_size", types_Int64); ("file_name", types_String);
       ("id", types_String)]
  | ADataSource NewOOMKillDataSource =>
      [("memory", types_Int64); ("block_size", types_Int64)]
  | ADataSource NewCPUHogDataSource =>
      [("num_cores", types_Int32); ("duration", types_String)]
  | ADataSource NewEnvDataSource =>
      [("environment_variables", slice_of_string); ("result", map_of_string)]
  | ADataSource NewDNSLookupDataSource =>
      [("hostname", types_String); ("result", types_List)]
  | ADataSource NewTCPProbeDataSource =>
      [("host", types_String); ("port", types_Int32); ("timeout", types_Int32);
       ("use_ipv4", types_Bool); ("use_ipv6", types_Bool);
       ("reachable", types_Bool)]
  | ADataSource NewFileContentDataSource =>
      [("filename", types_String); ("content", types_String);
       ("content_base64", types_String); ("content_sha256", types_String)]
  | ADataSource NewFailureDataSource => []
  | ADataSource NewSystemInfoDataSource =>
      [("hostname", types_String); ("os", types_String);
       ("platform_info", types_Object); ("num_cpus", types_Int64);
       ("memory_total", types_Int64); ("disk_info", types_Object);
       ("proc_info", types_Object); ("home", types_String);
       ("path", types_String); ("working_dir", types_String)]
  | ADataSource NewSleepDataSource => [("duration", types_String)]
  end.

Definition flat_model (c : Component) : bool :=
  forallb (fun kv => flat_field (snd kv)) (Model_fields c).

Definition object_fields (c : Component) : list string :=
  map fst (filter (fun kv => negb (flat_field (snd kv))) (Model_fields c)).

(** ** The CPU-hog fan-out as a transition system *)

(** [CPUHogDataSource.Read] from [quit := make(chan struct{})] to its end,
    together with the goroutines it starts.  A state holds the program
    point of [Read], whether [quit] is closed, the counter of the wait
    group, and the program point of every worker started so far, indexed
    by core.  One step is one action of one goroutine; a schedule is the
    order in which the Go scheduler lets them act. *)
Module CPUHogFanOut.

(** Where [Read] stands. *)
Inductive MainPC : Type :=
| MLoop (i : nat)   (* at the head of [for i := range numCores] *)
| MGo (i : nat)     (* after [wg.Add(1)], before the [go] statement *)
| MSelect           (* blocked in the [select] *)
| MWait             (* after [close(quit)], in [wg.Wait()] *)
| MReturned.

(** Where a worker stands. *)
Inductive WorkerPC : Type :=
| WStart      (* started, before [hogCPU(quit)] *)
| WHog        (* in the [for] loop of [hogCPU] *)
| WDeferred   (* [hogCPU] returned, [wg.Done()] still deferred *)
| WDone.      (* the goroutine has ended *)

#[global] Instance MainPC_eq_dec : EqDecision MainPC.
Proof. solve_decision. Defined.

#[global] Instance WorkerPC_eq_dec : EqDecision WorkerPC.
Proof. solve_decision. Defined.

Record State : Type :=
  { main : MainPC;
    quit_closed : bool;
    wg : Z;
    workers : list WorkerPC }.

(** The two channels the [select] of [Read] receives from. *)
Inductive Event : Type :=
| TimerFired   (* [<-time.After(duration)] *)
| CtxDone.     (* [<-ctx.Done()] *)

Inductive Action : Type :=
| AMain                (* [Read] takes a step of its own *)
| AReceive (e : Event) (* the [select] of [Read] receives [e] *)
| AWorker (j : nat).   (* worker [j] takes a step *)

Definition init : State :=
  {| main := MLoop 0; quit_closed := false; wg := 0; workers := [] |}.

(** A step of [Read] that needs no event. *)
Definition step_main (numCores : nat) (s : State) : option State :=
  match main s with
  | MLoop i =>
      if (i <? numCores)%nat then
        Some {| main := MGo i; quit_closed := quit_closed s; wg := wg s + 1;
                workers := workers s |}
      else
        Some {| main := MSelect; quit_closed := quit_closed s; wg := wg s;
                workers := workers s |}
  | MGo i =>
      Some {| main := MLoop (S i); quit_closed := quit_closed s; wg := wg s;
              workers := workers s ++ [WStart] |}
  | MSelect => None
  | MWait =>
      if wg s =? 0 then
        Some {| main := MReturned; quit_closed := quit_closed s; wg := wg s;
                workers := workers s |}
      else None
  | MReturned => None
  end.

(** Either case of the [select] closes [quit]. *)
Definition step_receive (e : Event) (s : State) : option State :=
  match main s with
  | MSelect =>
      Some {| main := MWait; quit_closed := true; wg := wg s;
              workers := workers s |}
  | _ => None
  end.

(** A step of worker [j]: in [hogCPU] the [select] takes [<-stop] when
    [quit] is closed and the [default] case, back to the loop head,
    otherwise. *)
Definition step_worker (j : nat) (s : State) : option State :=
  match workers s !! j with
  | Some WStart =>
      Some {| main := main s; quit_closed := quit_closed s; wg := wg s;
              workers := <[j := WHog]> (workers s) |}
  | Some WHog =>
      if quit_closed s then
        Some {| main := main s; quit_closed := quit_closed s; wg := wg s;
                workers := <[j := WDeferred]> (workers s) |}
      else Some s
  | Some WDeferred =>
      Some {| main := main s; quit_closed := quit_closed s; wg := wg s - 1;
              workers := <[j := WDone]> (workers s) |}
  | Some WDone => None
  | None => None
  end.

Definition step (numCores : nat) (a : Action) (s : State) : option State :=
  match a with
  | AMain => step_main numCores s
  | AReceive e => step_receive e s
  | AWorker j => step_worker j s
  end.

(** A schedule, run from a state: [None] when one of its actions is not
    enabled. *)
Fixpoint exec (numCores : nat) (sched : list Action) (s : State) : option State :=
  match sched with
  | [] => Some s
  | a :: rest =>
      match step numCores a s with
      | Some s' => exec numCores rest s'
      | None => None
      end
  end.

Definition is_receive (a : Action) : bool :=
  match a with AReceive _ => true | _ => false end.

(** A worker that has left [hogCPU]. *)
Definition returned (p : WorkerPC) : bool :=
  match p with WDeferred | WDone => true | _ => false end.

(** The steps a worker, and [Read], still have ahead once [quit] is
    closed. *)
Definition worker_steps_left (p : WorkerPC) : nat :=
  match p with WStart => 3 | WHog => 2 | WDeferred => 1 | WDone => 0 end.

Definition main_steps_left (p : MainPC) : nat :=
  match p with MWait => 1 | _ => 0 end.

Definition steps_left (s : State) : nat :=
  main_steps_left (main s) + sum_list (map worker_steps_left (workers s)).

(** A worker the wait group still counts. *)
Definition live (p : WorkerPC) : nat :=
  match p with WDone => 0 | _ => 1 end.


(** What holds of every state a schedule reaches from [init]. *)
Record Inv (numCores : nat) (s : State) : Prop :=
  { inv_closed :
      quit_closed s
      = match main s with MWait | MReturned => true | _ => false end;
    inv_returned :
      forall j p, workers s !! j = Some p -> returned p = true -> quit_closed s = true;
    inv_wg :
      wg s
      = Z.of_nat (sum_list (map live (workers s)))
        + match main s with MGo _ => 1 | _ => 0 end;
    inv_started :
      length (workers s)
      = match main s with MLoop i | MGo i => i | _ => numCores end;
    inv_index :
      match main s with
      | MLoop i => (i <= numCores)%nat
      | MGo i => (i < numCores)%nat
      | _ => True
      end;
    inv_done : main s = MReturned -> Forall (fun p => p = WDone) (workers s) }.

End CPUHogFanOut.

(** ** The properties the specification states of every data source *)


(** A data source is read-only: [Read] leaves the world outside its
    response as it found it. *)
Definition read_only (d : DataSource) : Prop :=
  forall o fuel w req resp w' resp',
    ds_Read d o fuel w req resp = Some (w', resp') -> w' = w.


(** ** Sample inputs *)

(** An oracle under which every call succeeds, but for the dial, the
    creation of a file and the seek, whose outcomes are the arguments. *)
Definition sample_oracle_with (dial create seek : option string) : Oracle :=
  {| fmt_Sprintf := fun f _ => f;
     strconv_Itoa := fun _ => "80";
     filepath_Base := fun p => p;
     net_JoinHostPort := fun h p => h +:+ ":" +:+ p;
     String_String := types.ValueString;
     time_ParseDuration := fun _ => Ok 1000000000;
     ctx_Err_within := fun _ => None;
     time_Now_UTC := "2025-01-01T00:00:00Z";
     sha256_Sum256 := fun b => take 32 (b ++ repeat x00 32);
     rand_Read_err := fun _ => None;
     rand_byte := fun _ _ => "r"%byte;
     os_Stat_err := fun _ => None;
     os_basename := fun p => p;
     dir_Size := fun _ => 4096;
     os_Open_err := fun _ => None;
     os_Create_err := fun _ => create;
     os_ReadFile_err := fun _ => None;
     fh_Write := fun _ _ => WriteOk;
     fh_Seek_err := seek;
     io_Copy_err := None;
     os_LookupEnv := fun _ => Some "/usr/bin";
     os_Environ := ["HOME=/root"];
     os_Getwd := Ok "/work";
     os_UserHomeDir := Ok "/root";
     os_Getuid := 0; os_Getgid := 0; os_Getpid := 42; os_Getppid := 1;
     runtime_NumCPU := 4;
     net_LookupIP := fun _ => Ok [];
     IP_String := string_of_bytes;
     net_Dial := fun _ _ _ => dial;
     http_NewRequest_err := fun _ => None;
     CanonicalMIMEHeaderKey := fun k => k;
     http_Do := fun _ _ _ => Err "no network";
     exec_Run := fun _ =>
       {| cmd_Stdout := ""; cmd_Stderr := ""; cmd_ExitCode := 0; cmd_Err := None |};
     host_Info := Err "unsupported";
     cpu_Counts := Ok 4;
     mem_Total := Ok 1024;
     disk_Usage := fun _ => Err "unsupported";
     StateSetDiags := [];
     ListValueFromDiags := [];
     MapValueFromDiags := [];
     ObjectValueFromDiags := fun _ => [];
     ToListValueDiags := [];
     ElementsAsDiags := [] |}.

Definition sample_oracle (dial : option string) : Oracle :=
  sample_oracle_with dial None None.

Definition empty_world : World := {| fs := ∅; GOMAXPROCS := 8; writes := [] |}.

(** A response with the null state and no diagnostics, as a resource's
    [Create] is handed; a data source's [Read] is handed a state that
    holds its configuration. *)
Definition fresh {M} : Response M := {| resp_State := None; resp_Diagnostics := [] |}.

(** A request whose configuration, plan and state all decode to [m]. *)
Definition request_of {M} (m : M) : Request M :=
  {| req_Config := {| Raw := m; GetDiags := [] |};
     req_Plan := {| Raw := m; GetDiags := [] |};
     req_State := {| Raw := m; GetDiags := [] |} |}.

Definition sample_probe : TCPProbeDataSource.Model :=
  {| TCPProbeDataSource.Host := types.Known "example.com";
     TCPProbeDataSource.Port := types.Known 80;
     TCPProbeDataSource.Timeout := types.Null;
     TCPProbeDataSource.UseIPv4 := types.Null;
     TCPProbeDataSource.UseIP6 := types.Null;
     TCPProbeDataSource.Reachable := types.Null |}.

Definition sample_failure (create update destroy : bool) : FailureResource.Model :=
  {| FailureResource.FailOnCreate := types.Known create;
     FailureResource.FailOnUpdate := types.Known update;
     FailureResource.FailOnDestroy := types.Known destroy;
     FailureResource.Id := types.Known "0123456789" |}.



Definition sample_artifact (size : Z) : PlanArtifactDataSource.Model :=
  {| PlanArtifactDataSource.FileSize := types.Known size;
     PlanArtifactDataSource.FileName := types.Known "artifact";
     PlanArtifactDataSource.Id := types.Null |}.

Definition sample_hog : CPUHogDataSource.Model :=
  {| CPUHogDataSource.NumCores := types.Known 2;
     CPUHogDataSource.Duration := types.Known "1s" |}.


(** The blocks an allocation of [n] blocks ends with: full blocks of
    [blockSize] bytes and then the last block. *)
Definition blocks_tail (blockSize lastBlock : Z) (n : nat) : list (list byte) :=
  match n with
  | O => []
  | S n' =>
      replicate n' (OOMKillDataSource.make_block blockSize)
        ++ [OOMKillDataSource.make_block lastBlock]
  end.

Definition sample_file : FileContentDataSource.Model :=
  {| FileContentDataSource.Filename := types.Known "motd";
     FileContentDataSource.Content := types.Null;
     FileContentDataSource.ContentBase64 := types.Null;
     FileContentDataSource.ContentSHA256 := types.Null |}.

Definition world_with_motd : World :=
  {| fs := {["motd" := File (bytes_of_string "hello")]}; GOMAXPROCS := 8;
     writes := [] |}.

(** A run of the fan-out on two cores: both workers are started and
    hog, the timer fires, both workers leave and [Read] returns. *)
Definition sample_schedule : list CPUHogFanOut.Action :=
  [CPUHogFanOut.AMain; CPUHogFanOut.AMain; CPUHogFanOut.AWorker 0;
   CPUHogFanOut.AMain; CPUHogFanOut.AMain; CPUHogFanOut.AWorker 1;
   CPUHogFanOut.AWorker 0; CPUHogFanOut.AMain;
   CPUHogFanOut.AReceive CPUHogFanOut.TimerFired; CPUHogFanOut.AWorker 0;
   CPUHogFanOut.AWorker 1; CPUHogFanOut.AWorker 1; CPUHogFanOut.AWorker 0;
   CPUHogFanOut.AMain].

Definition sample_final : CPUHogFanOut.State :=
  {| CPUHogFanOut.main := CPUHogFanOut.MReturned;
     CPUHogFanOut.quit_closed := true; CPUHogFanOut.wg := 0;
     CPUHogFanOut.workers := [CPUHogFanOut.WDone; CPUHogFanOut.WDone] |}.

(** ** Further sample inputs *)

(** An oracle under which every call succeeds, with the answers of the
    duration parser, the context, the HTTP client, gopsutil's host and
    disk queries and the command runner as arguments. *)
Definition sample_oracle_full (parse : string -> result Z)
    (ctx : Z -> option string) (http : result HTTPResponse)
    (host : result InfoStat) (disk : result UsageStat) (run : CmdResult)
    : Oracle :=
  {| fmt_Sprintf := fun f _ => f;
     strconv_Itoa := fun _ => "80";
     filepath_Base := fun p => p;
     net_JoinHostPort := fun h p => h +:+ ":" +:+ p;
     String_String := types.ValueString;
     time_ParseDuration := parse;
     ctx_Err_within := ctx;
     time_Now_UTC := "2025-01-01T00:00:00Z";
     sha256_Sum256 := fun b => take 32 (b ++ repeat x00 32);
     rand_Read_err := fun _ => None;
     rand_byte := fun _ _ => "r"%byte;
     os_Stat_err := fun _ => None;
     os_basename := fun p => p;
     dir_Size := fun _ => 4096;
     os_Open_err := fun _ => None;
     os_Create_err := fun _ => None;
     os_ReadFile_err := fun _ => None;
     fh_Write := fun k _ => if (k =? 0)%nat then WriteOk else WriteErr 2 "disk full";
     fh_Seek_err := None;
     io_Copy_err := None;
     os_LookupEnv := fun k => if String.eqb k "HOME" then Some "/root" else None;
     os_Environ := ["HOME=/root"; "novalue"; "A=1"; "A=2=3"];
     os_Getwd := Ok "/work";
     os_UserHomeDir := Ok "/root";
     os_Getuid := 0; os_Getgid := 0; os_Getpid := 42; os_Getppid := 1;
     runtime_NumCPU := 4;
     net_LookupIP := fun _ => Ok [bytes_of_string "10.0.0.1"; bytes_of_string "::1"];
     IP_String := string_of_bytes;
     net_Dial := fun _ _ _ => None;
     http_NewRequest_err := fun _ => None;
     CanonicalMIMEHeaderKey := fun k => k;
     http_Do := fun _ _ _ => http;
     exec_Run := fun _ => run;
     host_Info := host;
     cpu_Counts := Ok 4;
     mem_Total := Ok 1024;
     disk_Usage := fun _ => disk;
     StateSetDiags := [];
     ListValueFromDiags := [];
     MapValueFromDiags := [];
     ObjectValueFromDiags := fun _ => [];
     ToListValueDiags := [];
     ElementsAsDiags := [] |}.

(** [time.ParseDuration] on the two strings the samples use: "1s" parses,
    everything else, the empty string included, is rejected. *)
Definition sample_parse (s : string) : result Z :=
  if String.eqb s "1s" then Ok 1000000000
  else Err ("time: invalid duration " +:+ s).

Definition sample_run : CmdResult :=
  {| cmd_Stdout := "out"; cmd_Stderr := ""; cmd_ExitCode := 0; cmd_Err := None |}.

Definition sample_http_response : HTTPResponse :=
  {| StatusCode := 200;
     Header := {["Content-Type" := ["text/plain"; "x"]]} ∪ {["Empty" := []]};
     Body := Ok [] |}.

Definition sample_info : InfoStat :=
  {| info_Hostname := "host"; info_OS := "linux"; info_Platform := "debian";
     info_PlatformFamily := "debian"; info_PlatformVersion := "12";
     info_KernelVersion := "6.1"; info_KernelArch := "x86_64" |}.

Definition sample_usage : UsageStat :=
  {| usage_Total := 100; usage_Used := 40; usage_Free := 60 |}.

Definition sample_oracle_ok : Oracle :=
  sample_oracle_full sample_parse (fun _ => None) (Ok sample_http_response)
    (Ok sample_info) (Ok sample_usage) sample_run.

Definition sample_sleep_resource (update destroy : types.String) : SleepResource.Model :=
  {| SleepResource.Id := types.Null;
     SleepResource.Duration := types.Known "1s";
     SleepResource.UpdateDuration := update;
     SleepResource.DestroyDuration := destroy |}.


Definition sample_http : HTTPGetResource.Model :=
  {| HTTPGetResource.URL := types.Known "http://example.com";
     HTTPGetResource.Headers := types.Null;
     HTTPGetResource.Timeout := types.Known 5;
     HTTPGetResource.ResponseBody := types.Null;
     HTTPGetResource.ResponseStatusCode := types.Null;
     HTTPGetResource.ResponseHeaders := types.Null |}.

(** A string without the byte 0. *)
Fixpoint NUL_free (s : string) : bool :=
  match s with
  | EmptyString => true
  | String c rest => negb (Ascii.eqb c "000"%char) && NUL_free rest
  end.

(** A request whose plan decodes to [plan] and whose prior state decodes
    to [state]. *)
Definition request_with {M} (plan state : M) : Request M :=
  {| req_Config := {| Raw := plan; GetDiags := [] |};
     req_Plan := {| Raw := plan; GetDiags := [] |};
     req_State := {| Raw := state; GetDiags := [] |} |}.

Definition sample_env (names : list string) : EnvDataSource.Model :=
  {| EnvDataSource.EnvironmentVariables := names; EnvDataSource.Result := ∅ |}.

(** A CPU hog on two cores with no duration. *)
Definition sample_hog_forever : CPUHogDataSource.Model :=
  {| CPUHogDataSource.NumCores := types.Known 2;
     CPUHogDataSource.Duration := types.Null |}.

Definition sample_dns : DNSLookupDataSource.Model :=
  {| DNSLookupDataSource.Hostname := types.Known "example.com";
     DNSLookupDataSource.Result := types.Null |}.

(** A plan artifact of 7 bytes under the name of a file that exists in
    [world_with_motd]. *)
Definition sample_existing : PlanArtifactDataSource.Model :=
  {| PlanArtifactDataSource.FileSize := types.Known 7;
     PlanArtifactDataSource.FileName := types.Known "motd";
     PlanArtifactDataSource.Id := types.Null |}.


(** ** Diagnostics and responses *)

Lemma Contains_error (ds : diag.Diagnostics) (d : diag.Diagnostic) :
  diag.Contains ds d = true -> diag.is_error d = true -> diag.HasError ds = true.
Proof.
  unfold diag.Contains, diag.HasError. intros Hc He.
  apply existsb_exists in Hc as (x & Hin & Hx).
  apply bool_decide_eq_true in Hx. subst x.
  apply existsb_exists. eauto.
Qed.

Lemma HasError_app (ds new : diag.Diagnostics) :
  diag.HasError (ds ++ new) = diag.HasError ds || diag.HasError new.
Proof. unfold diag.HasError. apply existsb_app. Qed.

Lemma HasError_Append (ds new : diag.Diagnostics) :
  diag.HasError (diag.Append ds new) = diag.HasError ds || diag.HasError new.
Proof.
  revert ds. induction new as [|d rest IH]; intros ds; simpl.
  - by rewrite orb_false_r.
  - rewrite IH. destruct (diag.Contains ds d) eqn:Hc.
    + destruct (diag.is_error d) eqn:He; [|done].
      rewrite (Contains_error _ _ Hc He). done.
    + rewrite HasError_app. simpl. by rewrite orb_false_r, orb_assoc.
Qed.

Lemma HasError_resp_Append {M} (ds : diag.Diagnostics) (resp : Response M) :
  HasError (Append ds resp) = HasError resp || diag.HasError ds.
Proof. unfold HasError, Append. cbn [resp_Diagnostics]. apply HasError_Append. Qed.

Lemma HasError_AddError {M} (s d : string) (resp : Response M) :
  HasError (AddError s d resp) = true.
Proof.
  unfold HasError, AddError, diag.AddError. cbn [resp_Diagnostics].
  rewrite HasError_Append. simpl. apply orb_true_r.
Qed.

Lemma HasError_AddWarning {M} (s d : string) (resp : Response M) :
  HasError (AddWarning s d resp) = HasError resp.
Proof.
  unfold HasError, AddWarning, diag.AddWarning. cbn [resp_Diagnostics].
  rewrite HasError_Append. simpl. apply orb_false_r.
Qed.

Lemma State_Append {M} (ds : diag.Diagnostics) (resp : Response M) :
  resp_State (Append ds resp) = resp_State resp.
Proof. reflexivity. Qed.

Lemma State_AddError {M} (s d : string) (resp : Response M) :
  resp_State (AddError s d resp) = resp_State resp.
Proof. reflexivity. Qed.

Lemma State_AddWarning {M} (s d : string) (resp : Response M) :
  resp_State (AddWarning s d resp) = resp_State resp.
Proof. reflexivity. Qed.

Lemma HasError_State_Set {M} (ds : diag.Diagnostics) (data : M) (resp : Response M) :
  HasError (State_Set ds data resp) = HasError resp || diag.HasError ds.
Proof. unfold State_Set. rewrite HasError_resp_Append. reflexivity. Qed.

Lemma State_State_Set {M} (ds : diag.Diagnostics) (data : M) (resp : Response M) :
  resp_State (State_Set ds data resp)
  = if diag.HasError ds then resp_State resp else Some data.
Proof. reflexivity. Qed.

(** [State.Set] after a clean response: an error afterwards means the
    encoding failed, and then the state was not replaced. *)
Lemma State_Set_atomic {M} (ds : diag.Diagnostics) (data : M) (resp : Response M) :
  HasError resp = false ->
  HasError (State_Set ds data resp) = true ->
  resp_State (State_Set ds data resp) = resp_State resp.
Proof.
  intros Hclean. rewrite HasError_State_Set, Hclean, State_State_Set. simpl.
  by intros ->.
Qed.

Lemma State_Set_written {M} (ds : diag.Diagnostics) (data : M) (resp : Response M) :
  HasError (State_Set ds data resp) = false ->
  resp_State (State_Set ds data resp) = Some data.
Proof.
  rewrite HasError_State_Set, State_State_Set.
  intros [_ ->]%orb_false_iff. reflexivity.
Qed.

Lemma Get_clean {M} (zero : M) (s : Source M) :
  diag.HasError (GetDiags s) = false -> Get zero s = (GetDiags s, Raw s).
Proof. unfold Get. by intros ->. Qed.

(** Unfolding one operation and following every branch of it. *)
Ltac break_match :=
  match goal with
  | |- context [match ?x with _ => _ end] => destruct x eqn:?
  end.

Ltac branches := cbv beta iota zeta; repeat (break_match; cbv beta iota zeta).

(** The end of an error path: the response is the one handed in with
    diagnostics added, or [State.Set] was reached with a clean response. *)
Ltac error_path :=
  intros; simplify_eq;
  first
    [ reflexivity
    | discriminate
    | etrans; [apply State_Set_atomic; assumption | reflexivity] ].

(** ** Atomicity on error, operation by operation *)

Lemma lookup_step_keeps o (acc : Response EnvDataSource.Model * gmap string string) v :
  HasError (fst (EnvDataSource.lookup_step o acc v)) = HasError (fst acc)
  /\ resp_State (fst (EnvDataSource.lookup_step o acc v)) = resp_State (fst acc).
Proof.
  unfold EnvDataSource.lookup_step. destruct (os_LookupEnv o v); simpl.
  - done.
  - by rewrite HasError_AddWarning.
Qed.

Lemma environ_step_keeps (acc : Response EnvDataSource.Model * gmap string string) env :
  HasError (fst (EnvDataSource.environ_step acc env)) = HasError (fst acc)
  /\ resp_State (fst (EnvDataSource.environ_step acc env)) = resp_State (fst acc).
Proof.
  unfold EnvDataSource.environ_step.
  destruct (strings_SplitN_eq_2 env) as [|k [|v [|? ?]]]; simpl;
    rewrite ?HasError_AddWarning; done.
Qed.

(** The two loops of the environment data source add warnings only. *)
Lemma fold_keeps {A} (f : Response EnvDataSource.Model * gmap string string -> A
                          -> Response EnvDataSource.Model * gmap string string)
    (l : list A) acc :
  (forall acc x, HasError (fst (f acc x)) = HasError (fst acc)
                 /\ resp_State (fst (f acc x)) = resp_State (fst acc)) ->
  HasError (fst (fold_left f l acc)) = HasError (fst acc)
  /\ resp_State (fst (fold_left f l acc)) = resp_State (fst acc).
Proof.
  intros Hf. revert acc. induction l as [|x l IH]; intros acc; simpl; [done|].
  destruct (IH (f acc x)) as [-> ->]. apply Hf.
Qed.

Lemma EnvDataSource_loops_keep o (data : EnvDataSource.Model) resp r m :
  (if (0 <? length (EnvDataSource.EnvironmentVariables data))%nat
   then fold_left (EnvDataSource.lookup_step o)
          (EnvDataSource.EnvironmentVariables data) (resp, ∅)
   else fold_left EnvDataSource.environ_step (os_Environ o) (resp, ∅)) = (r, m) ->
  HasError r = HasError resp /\ resp_State r = resp_State resp.
Proof.
  destruct (0 <? _)%nat; intros H.
  - pose proof (fold_keeps (EnvDataSource.lookup_step o)
                  (EnvDataSource.EnvironmentVariables data) (resp, ∅)
                  (lookup_step_keeps o)) as K.
    rewrite H in K. exact K.
  - pose proof (fold_keeps EnvDataSource.environ_step (os_Environ o) (resp, ∅)
                  environ_step_keeps) as K.
    rewrite H in K. exact K.
Qed.

Lemma EnvDataSource_Read_atomic o fuel w req resp w' resp' :
  EnvDataSource.Read o fuel w req resp = Some (w', resp') ->
  HasError resp' = true ->
  resp_State resp' = resp_State resp.
Proof.
  unfold EnvDataSource.Read, Get. cbv beta iota zeta.
  destruct (HasError (Append _ resp)) eqn:Hclean; [error_path|].
  match goal with |- context [let '(_, _) := ?x in _] => destruct x as [r m] eqn:Hloop end.
  apply EnvDataSource_loops_keep in Hloop as [He Hs].
  intros [= <- <-] Herr.
  rewrite State_Set_atomic; [by rewrite Hs | congruence | done].
Qed.

(** Every resource method keeps the state it was handed when it leaves an
    error diagnostic. *)
Lemma resource_atomic r m o req resp resp' :
  res_call r m o req resp = Some resp' ->
  HasError resp' = true ->
  resp_State resp' = resp_State resp.
Proof.
  destruct r, m; cbn [res_call];
    unfold FailureResource.Create, FailureResource.Read, FailureResource.Update,
      FailureResource.Delete, SleepResource.Create, SleepResource.Read,
      SleepResource.Update, SleepResource.Delete, CommandResource.Create,
      CommandResource.Read, CommandResource.Update, CommandResource.Delete,
      HTTPGetResource.Create, HTTPGetResource.Read, HTTPGetResource.Update,
      HTTPGetResource.Delete, Get;
    branches; error_path.
Qed.

(** Every data source but the TCP probe and the DNS lookup does. *)
Lemma data_source_atomic d o fuel w req resp w' resp' :
  d <> NewTCPProbeDataSource ->
  d <> NewDNSLookupDataSource ->
  ds_Read d o fuel w req resp = Some (w', resp') ->
  HasError resp' = true ->
  resp_State resp' = resp_State resp.
Proof.
  intros Htcp Hdns. destruct d; try done; cbn [ds_Read ds_Model] in *;
    try apply EnvDataSource_Read_atomic;
    unfold PlanArtifactDataSource.Read, OOMKillDataSource.Read,
      CPUHogDataSource.Read, FileContentDataSource.Read, FailureDataSource.Read,
      SystemInfoDataSource.Read, SleepDataSource.Read, Get;
    branches; error_path.
Qed.

(** The DNS lookup does once decoding the configuration left the response
    clean. *)
Lemma DNSLookupDataSource_Read_atomic o fuel w req resp w' resp' :
  HasError (Append (GetDiags (req_Config req)) resp) = false ->
  DNSLookupDataSource.Read o fuel w req resp = Some (w', resp') ->
  HasError resp' = true ->
  resp_State resp' = resp_State resp.
Proof.
  intros Hclean. unfold DNSLookupDataSource.Read, Get. branches; error_path.
Qed.

Lemma In_Append_old (ds new : diag.Diagnostics) d :
  In d ds -> In d (diag.Append ds new).
Proof.
  revert ds. induction new as [|x rest IH]; intros ds Hin; simpl; [done|].
  apply IH. destruct (diag.Contains ds x); [done|]. apply in_or_app. by left.
Qed.

Lemma In_Append_new (ds new : diag.Diagnostics) d :
  In d new -> In d (diag.Append ds new).
Proof.
  revert ds. induction new as [|x rest IH]; intros ds Hin; simpl; [done|].
  destruct Hin as [->|Hin]; [|by apply IH].
  apply In_Append_old. destruct (diag.Contains ds d) eqn:Hc.
  - unfold diag.Contains in Hc. apply existsb_exists in Hc as (y & Hy & Heq).
    apply bool_decide_eq_true in Heq. by subst.
  - apply in_or_app. right. by left.
Qed.

(** The TCP probe after a failed dial: the error is added and the model,
    with [reachable] false, still goes to [State.Set]. *)
Lemma TCPProbeDataSource_Read_error o fuel w req resp w' resp' :
  TCPProbeDataSource.Read o fuel w req resp = Some (w', resp') ->
  HasError resp' = true ->
  resp_State resp' = resp_State resp
  \/ exists data detail,
       resp_State resp' = Some data
       /\ TCPProbeDataSource.Reachable data = types.BoolValue false
       /\ In (diag.NewErrorDiagnostic "TCP Probe Failed" detail)
            (resp_Diagnostics resp').
Proof.
  unfold TCPProbeDataSource.Read, Get. cbv beta iota zeta.
  destruct (HasError (Append _ resp)) eqn:Hclean; [left; error_path|].
  match goal with |- context [net_Dial ?a ?b ?c ?d] => destruct (net_Dial a b c d) eqn:Hdial end.
  - intros [= <- <-] _. rewrite State_State_Set.
    destruct (diag.HasError (StateSetDiags o)); [by left|]. right.
    eexists _, _. split; [reflexivity|]. split; [reflexivity|].
    unfold State_Set, Append, AddError. cbn [resp_Diagnostics].
    apply In_Append_old. unfold diag.AddError. apply In_Append_new. by left.
  - left. error_path.
Qed.

(** ** C1: the error path and the response state *)

(** C1, counterexample.  The TCP probe is configured for example.com:80 and
    the dial fails with "connection refused".  [Read] adds the error
    "TCP Probe Failed", sets [reachable] to false and goes on to
    [State.Set]: it returns with an error diagnostic and with a state it
    has written, where the response it was handed had the null state.  So
    not every operation is atomic on error. *)
Lemma tcp_probe_error_path_writes_state :
  (exists resp',
      run (DataSourceRead NewTCPProbeDataSource)
        (sample_oracle (Some "connection refused")) 0 empty_world
        (request_of sample_probe) fresh = Some resp'
      /\ HasError resp' = true
      /\ resp_State resp'
         = Some (TCPProbeDataSource.set_Reachable (types.BoolValue false) sample_probe)
      /\ resp_State (@fresh TCPProbeDataSource.Model) = None)
  /\ ~ (forall op, atomic_on_error op).
Proof.
  split.
  - eexists. split; [vm_compute; reflexivity|]. by vm_compute.
  - intros H.
    specialize (H (DataSourceRead NewTCPProbeDataSource)
                  (sample_oracle (Some "connection refused")) 0%nat empty_world
                  (request_of sample_probe) fresh _ eq_refl).
    vm_compute in H. specialize (H eq_refl). discriminate.
Qed.

(** C1, amended.  Every operation other than the TCP probe's [Read] is
    atomic on error: when it returns with an error diagnostic in its
    response, the response state is the one it was handed (for the DNS
    lookup, whose [Read] does not ask whether decoding failed, this is
    stated for a configuration that decoded without error).  The TCP
    probe's [Read] keeps the state on the error paths of decoding and
    encoding; after a failed dial it adds the error "TCP Probe Failed" and
    still writes the model, with [reachable] false, into the state. *)
Theorem error_path_keeps_state :
  (forall op o fuel w req resp resp',
      op <> DataSourceRead NewTCPProbeDataSource ->
      (op = DataSourceRead NewDNSLookupDataSource ->
       HasError (Append (GetDiags (req_Config req)) resp) = false) ->
      run op o fuel w req resp = Some resp' ->
      HasError resp' = true ->
      resp_State resp' = resp_State resp)
  /\
  (forall o fuel w req resp resp',
      run (DataSourceRead NewTCPProbeDataSource) o fuel w req resp = Some resp' ->
      HasError resp' = true ->
      resp_State resp' = resp_State resp
      \/ exists data detail,
           resp_State resp' = Some data
           /\ TCPProbeDataSource.Reachable data = types.BoolValue false
           /\ In (diag.NewErrorDiagnostic "TCP Probe Failed" detail)
                (resp_Diagnostics resp')).
Proof.
  split.
  - intros [r m|d] o fuel w req resp resp' Htcp Hdns Hrun Herr.
    + exact (resource_atomic r m o req resp resp' Hrun Herr).
    + cbn [run] in Hrun. apply fmap_Some in Hrun as ([w' r'] & Hrun & ->).
      destruct (decide (d = NewDNSLookupDataSource)) as [->|Hd].
      * eapply DNSLookupDataSource_Read_atomic; eauto.
      * eapply data_source_atomic; eauto. congruence.
  - intros o fuel w req resp resp' Hrun Herr.
    cbn [run] in Hrun. apply fmap_Some in Hrun as ([w' r'] & Hrun & ->).
    eapply TCPProbeDataSource_Read_error; eauto.
Qed.

(** The failure resource asked to fail on create: [Create] returns with
    the error and the null state it was handed. *)
Lemma error_path_keeps_state_witness :
  resp_State
    (FailureResource.Create (sample_oracle None)
       (request_of (sample_failure true false false)) fresh) = None.
Proof.
  apply (proj1 error_path_keeps_state (ResourceOp NewFailureResource Create)
           (sample_oracle None) 0%nat empty_world
           (request_of (sample_failure true false false)) fresh
           (FailureResource.Create (sample_oracle None)
              (request_of (sample_failure true false false)) fresh)).
  - discriminate.
  - discriminate.
  - reflexivity.
  - by vm_compute.
Defined.

(** ** C7: type names *)

(** C7.  The provider's [Metadata] sets the type name "debug", whatever the
    version; the [Metadata] of every resource and data source sets the
    provider type name of its request followed by an underscore and a
    suffix of its own, so under the provider's name the sleep, CPU-hog and
    failure components are "debug_sleep", "debug_cpu_hog" and
    "debug_failure". *)
Theorem type_names_follow_provider :
  forall version c,
    DebugProvider.TypeName (DebugProvider.Metadata version) = "debug"
    /\ (exists suffix,
          suffix <> ""
          /\ (forall p, Metadata c p = p +:+ "_" +:+ suffix)
          /\ Metadata c (DebugProvider.TypeName (DebugProvider.Metadata version))
             = "debug_" +:+ suffix)
    /\ map (fun c => Metadata c (DebugProvider.TypeName (DebugProvider.Metadata version)))
         all_components
       = ["debug_failure"; "debug_sleep"; "debug_command"; "debug_http_get";
          "debug_plan_artifact"; "debug_oom_kill"; "debug_cpu_hog";
          "debug_environment_variables"; "debug_dns_lookup"; "debug_tcp_probe";
          "debug_file_content"; "debug_failure"; "debug_system_info";
          "debug_sleep"].
Proof.
  intros version c. split; [reflexivity|]. split; [|reflexivity].
  destruct c as [[]|[]]; cbn [Metadata];
    unfold FailureResource.Metadata, SleepResource.Metadata,
      CommandResource.Metadata, HTTPGetResource.Metadata,
      PlanArtifactDataSource.Metadata, OOMKillDataSource.Metadata,
      CPUHogDataSource.Metadata, EnvDataSource.Metadata,
      DNSLookupDataSource.Metadata, TCPProbeDataSource.Metadata,
      FileContentDataSource.Metadata, FailureDataSource.Metadata,
      SystemInfoDataSource.Metadata, SleepDataSource.Metadata;
    (refine (ex_intro _ _ (conj _ (conj (fun p => eq_refl) eq_refl)));
     discriminate).
Qed.

(** ** C4: the shape of the schemas and of the model structs *)

(** C4, counterexample.  The schema of the system-info data source
    declares "platform_info", "proc_info" and "disk_info" as single nested
    attributes, each with attributes of its own, and its model struct
    holds the three as [types.Object] fields: neither is flat. *)
Lemma system_info_is_nested :
  flat (Schema_of (ADataSource NewSystemInfoDataSource)) = false
  /\ flat_model (ADataSource NewSystemInfoDataSource) = false
  /\ ~ (forall c, flat (Schema_of c) = true /\ flat_model c = true).
Proof.
  split; [reflexivity|]. split; [reflexivity|].
  intros H. destruct (H (ADataSource NewSystemInfoDataSource)) as [Hs _].
  discriminate Hs.
Qed.

(** C4, amended.  The schema and the model struct of every component other
    than the system-info data source are flat: scalar, list and map
    attributes only.  The system-info data source nests one level and no
    deeper: its schema has exactly the single nested attributes
    "platform_info", "proc_info" and "disk_info", whose own attributes are
    scalars, and its model struct holds exactly these three as objects. *)
Theorem schemas_flat_but_system_info :
  forall c,
    flat (Schema_of c) = bool_decide (c <> ADataSource NewSystemInfoDataSource)
    /\ flat_model c = bool_decide (c <> ADataSource NewSystemInfoDataSource)
    /\ Forall (fun kv => (depth (snd kv) <= 1)%nat) (Schema_of c)
    /\ nested_names (Schema_of (ADataSource NewSystemInfoDataSource))
       = ["platform_info"; "proc_info"; "disk_info"]
    /\ object_fields (ADataSource NewSystemInfoDataSource)
       = ["platform_info"; "disk_info"; "proc_info"].
Proof.
  intros c. split; [|split; [|split; [|split]]]; try reflexivity.
  - by destruct c as [[]|[]].
  - by destruct c as [[]|[]].
  - destruct c as [[]|[]]; cbn [Schema_of]; repeat constructor.
Qed.

(** ** C3: the failure resource fails on demand *)

(** C3.  Let the framework decode the plan and the prior state without
    error into a clean response, and encode the state without error.  Then
    [Create] leaves an error diagnostic and the state untouched exactly
    when [fail_on_create] is true, the diagnostic being "Create Failed",
    and copies the planned data into the state when it is false; [Update]
    does the same on [fail_on_update] with "Update Failed"; [Delete]
    leaves an error diagnostic, "Delete Failed", exactly when
    [fail_on_destroy] is true and otherwise returns without one. *)
Theorem failure_resource_fails_on_demand :
  forall o req resp,
    HasError (Append (GetDiags (req_Plan req)) resp) = false ->
    HasError (Append (GetDiags (req_State req)) resp) = false ->
    diag.HasError (StateSetDiags o) = false ->
    let plan := Raw (req_Plan req) in
    let state := Raw (req_State req) in
    let created := FailureResource.Create o req resp in
    let updated := FailureResource.Update o req resp in
    let deleted := FailureResource.Delete o req resp in
    ((HasError created = true /\ resp_State created = resp_State resp)
       <-> types.ValueBool (FailureResource.FailOnCreate plan) = true)
    /\ (types.ValueBool (FailureResource.FailOnCreate plan) = true ->
        In (diag.NewErrorDiagnostic "Create Failed"
              "An error occurred while creating the resource.")
          (resp_Diagnostics created))
    /\ (types.ValueBool (FailureResource.FailOnCreate plan) = false ->
        HasError created = false /\ resp_State created = Some plan)
    /\ ((HasError updated = true /\ resp_State updated = resp_State resp)
          <-> types.ValueBool (FailureResource.FailOnUpdate plan) = true)
    /\ (types.ValueBool (FailureResource.FailOnUpdate plan) = true ->
        In (diag.NewErrorDiagnostic "Update Failed"
              "An error occurred while updating the resource.")
          (resp_Diagnostics updated))
    /\ (types.ValueBool (FailureResource.FailOnUpdate plan) = false ->
        HasError updated = false /\ resp_State updated = Some plan)
    /\ (HasError deleted = true
          <-> types.ValueBool (FailureResource.FailOnDestroy state) = true)
    /\ (types.ValueBool (FailureResource.FailOnDestroy state) = true ->
        In (diag.NewErrorDiagnostic "Delete Failed"
              "An error occurred while deleting the resource.")
          (resp_Diagnostics deleted))
    /\ (types.ValueBool (FailureResource.FailOnDestroy state) = false ->
        HasError deleted = false /\ resp_State deleted = resp_State resp).
Proof.
  intros o req resp Hplan Hstate Hset plan state created updated deleted.
  assert (Hp : diag.HasError (GetDiags (req_Plan req)) = false).
  { rewrite HasError_resp_Append in Hplan. by apply orb_false_iff in Hplan as [_ ?]. }
  assert (Hs : diag.HasError (GetDiags (req_State req)) = false).
  { rewrite HasError_resp_Append in Hstate. by apply orb_false_iff in Hstate as [_ ?]. }
  assert (Hin : forall (r : Response FailureResource.Model) summary detail,
             In (diag.NewErrorDiagnostic summary detail)
               (resp_Diagnostics (AddError summary detail r))).
  { intros r summary detail. apply In_Append_new. by left. }
  subst created updated deleted.
  unfold FailureResource.Create, FailureResource.Update, FailureResource.Delete.
  rewrite !(Get_clean _ _ Hp), !(Get_clean _ _ Hs). cbv beta iota zeta.
  rewrite Hplan, Hstate. fold plan state.
  destruct (types.ValueBool (FailureResource.FailOnCreate plan)),
    (types.ValueBool (FailureResource.FailOnUpdate plan)),
    (types.ValueBool (FailureResource.FailOnDestroy state));
    rewrite ?HasError_AddError, ?HasError_State_Set, ?State_State_Set, ?Hset,
      ?Hplan, ?Hstate, ?State_AddError, ?State_Append;
    cbn [orb]; intuition (try discriminate; try reflexivity; try apply Hin).
Qed.

(** The failure resource with [fail_on_create] set, on the sample oracle:
    the hypotheses hold and [Create] fails. *)
Lemma failure_resource_fails_on_demand_witness :
  HasError
    (FailureResource.Create (sample_oracle None)
       (request_of (sample_failure true false false)) fresh) = true
  /\ resp_State
       (FailureResource.Update (sample_oracle None)
          (request_of (sample_failure true false false)) fresh)
     = Some (sample_failure true false false).
Proof.
  pose proof (failure_resource_fails_on_demand (sample_oracle None)
                (request_of (sample_failure true false false)) fresh
                eq_refl eq_refl eq_refl) as (Hc & _ & _ & _ & _ & Hu & _).
  split.
  - apply Hc. reflexivity.
  - apply Hu. reflexivity.
Defined.

(** ** C2: which data sources write a result *)

Ltac success_path :=
  intros; simplify_eq;
  repeat match goal with
         | H : HasError (AddError _ _ _) = false |- _ =>
             rewrite HasError_AddError in H; discriminate H
         | H : HasError (State_Set _ _ (AddError _ _ _)) = false |- _ =>
             rewrite HasError_State_Set, HasError_AddError in H; discriminate H
         | H : HasError (Append ?ds _) = false, E : diag.HasError ?ds = true |- _ =>
             rewrite HasError_resp_Append, E, orb_true_r in H; discriminate H
         end;
  first
    [ reflexivity
    | congruence
    | eexists; apply State_Set_written; assumption ].





(** ** C6: what a data source changes outside its response *)

(** The write loop touches the named file only. *)
Lemma write_loop_frame o name fileSize fuel k written w w' e :
  PlanArtifactDataSource.write_loop o name fileSize fuel k written w = Some (w', e) ->
  GOMAXPROCS w' = GOMAXPROCS w
  /\ forall p, p <> name -> fs w' !! p = fs w !! p.
Proof.
  revert k written w. induction fuel as [|fuel IH]; intros k written w; simpl; [done|].
  destruct (written <? fileSize); [|by intros [= <- <-]].
  destruct (rand_Read_err o k); [by intros [= <- <-]|].
  destruct (fh_Write o k _) eqn:Hw.
  - intros H. apply IH in H as [Hg Hf]. split; [exact Hg|].
    intros p Hp. rewrite (Hf p Hp). simpl. by rewrite lookup_insert_ne.
  - intros [= <- <-]. split; [done|]. intros p Hp. simpl. by rewrite lookup_insert_ne.
Qed.

Lemma PlanArtifactDataSource_Read_frame o fuel w req resp w' resp' :
  PlanArtifactDataSource.Read o fuel w req resp = Some (w', resp') ->
  GOMAXPROCS w' = GOMAXPROCS w
  /\ (forall p,
        p <> types.ValueString (PlanArtifactDataSource.FileName (Raw (req_Config req))) ->
        fs w' !! p = fs w !! p)
  /\ (fs w !! types.ValueString (PlanArtifactDataSource.FileName (Raw (req_Config req)))
        <> None -> w' = w).
Proof.
  unfold PlanArtifactDataSource.Read, Get. cbv beta iota zeta.
  destruct (HasError (Append _ resp)) eqn:Hclean; [by intros [= <- <-]|].
  rewrite HasError_resp_Append in Hclean. apply orb_false_iff in Hclean as [_ ->].
  set (name := types.ValueString _).
  unfold os_Stat. destruct (os_Stat_err o name); [by intros [= <- <-]|].
  destruct (fs w !! name) as [[c|]|] eqn:Hname.
  - branches; by intros [= <- <-].
  - branches; by intros [= <- <-].
  - destruct (_ <=? 0); [by intros [= <- <-]|].
    destruct (os_Create_err o name); [by intros [= <- <-]|].
    destruct (PlanArtifactDataSource.write_loop _ _ _ _ _ _ _) as [[w1 e]|] eqn:Hloop;
      [|done].
    apply write_loop_frame in Hloop as [Hg Hf]. simpl in Hg.
    assert (Hw : GOMAXPROCS w1 = GOMAXPROCS w
                 /\ (forall p, p <> name -> fs w1 !! p = fs w !! p)
                 /\ (@None node <> None -> w1 = w)).
    { split; [exact Hg|]. split; [|done].
      intros p Hp. rewrite (Hf p Hp). simpl. by rewrite lookup_insert_ne. }
    branches; by intros [= <- <-].
Qed.

Lemma CPUHogDataSource_Read_frame o fuel w req resp w' resp' :
  CPUHogDataSource.Read o fuel w req resp = Some (w', resp') ->
  fs w' = fs w /\ writes w' = writes w.
Proof.
  unfold CPUHogDataSource.Read, CPUHogDataSource.runtime_GOMAXPROCS, Get.
  branches; by intros [= <- <-].
Qed.

Lemma other_data_sources_read_only d :
  d <> NewPlanArtifactDataSource -> d <> NewCPUHogDataSource -> read_only d.
Proof.
  intros Hp Hc o fuel w req resp w' resp'.
  destruct d; try done; cbn [ds_Read ds_Model];
    unfold OOMKillDataSource.Read, EnvDataSource.Read, FileContentDataSource.Read,
      FailureDataSource.Read, SystemInfoDataSource.Read, SleepDataSource.Read,
      DNSLookupDataSource.Read, TCPProbeDataSource.Read, Get;
    branches; by intros [= <- <-].
Qed.

(** C6, counterexample.  On a file system without the file "artifact" the
    plan-artifact data source is read with [file_size] 3: [Read] returns
    without an error and the file "artifact" now exists and holds three
    bytes.  The CPU-hog data source read with [num_cores] 2 on a machine
    with 4 CPUs leaves GOMAXPROCS at 2, where it was 8.  So not every data
    source is read-only. *)
Lemma plan_artifact_creates_a_file :
  (exists w' resp' content,
      ds_Read NewPlanArtifactDataSource (sample_oracle None) 5 empty_world
        (request_of (sample_artifact 3)) fresh = Some (w', resp')
      /\ HasError resp' = false
      /\ fs empty_world !! "artifact" = None
      /\ fs w' !! "artifact" = Some (File content)
      /\ length content = 3%nat)
  /\ (exists w' resp',
        ds_Read NewCPUHogDataSource (sample_oracle None) 0 empty_world
          (request_of sample_hog) fresh = Some (w', resp')
        /\ GOMAXPROCS empty_world = 8
        /\ GOMAXPROCS w' = 2)
  /\ ~ (forall d, read_only d).
Proof.
  split; [|split].
  - eexists _, _, _. split; [vm_compute; reflexivity|]. by vm_compute.
  - eexists _, _. split; [vm_compute; reflexivity|]. by vm_compute.
  - intros H.
    specialize (H NewCPUHogDataSource (sample_oracle None) 0%nat empty_world
                  (request_of sample_hog) fresh _ _ eq_refl).
    discriminate H.
Qed.

(** C6, amended.  Every data source other than the plan artifact and the
    CPU hog is read-only: its [Read] leaves the file system, GOMAXPROCS and
    the log of writes as they were.  The plan artifact's [Read] changes no
    file but the one named by [file_name], which it creates and fills when
    it does not exist, and leaves the world alone when the file exists;
    the CPU hog's [Read] changes GOMAXPROCS and nothing else. *)
Theorem data_sources_read_only_but_two :
  (forall d,
      d <> NewPlanArtifactDataSource -> d <> NewCPUHogDataSource -> read_only d)
  /\ (forall o fuel w req resp w' resp',
        ds_Read NewPlanArtifactDataSource o fuel w req resp = Some (w', resp') ->
        GOMAXPROCS w' = GOMAXPROCS w
        /\ (forall p,
              p <> types.ValueString
                     (PlanArtifactDataSource.FileName (Raw (req_Config req))) ->
              fs w' !! p = fs w !! p)
        /\ (fs w !! types.ValueString
                      (PlanArtifactDataSource.FileName (Raw (req_Config req)))
              <> None -> w' = w))
  /\ (forall o fuel w req resp w' resp',
        ds_Read NewCPUHogDataSource o fuel w req resp = Some (w', resp') ->
        fs w' = fs w /\ writes w' = writes w).
Proof.
  split; [|split].
  - exact other_data_sources_read_only.
  - intros o fuel w req resp w' resp'. apply PlanArtifactDataSource_Read_frame.
  - intros o fuel w req resp w' resp'. apply CPUHogDataSource_Read_frame.
Qed.

(** The TCP probe on the sample world: the world it returns is the world
    it was handed. *)
Lemma data_sources_read_only_but_two_witness :
  exists w' resp',
    ds_Read NewTCPProbeDataSource (sample_oracle None) 0 empty_world
      (request_of sample_probe) fresh = Some (w', resp')
    /\ w' = empty_world.
Proof.
  eexists _, _. split; [vm_compute; reflexivity|].
  refine (proj1 data_sources_read_only_but_two NewTCPProbeDataSource _ _
            (sample_oracle None) 0%nat empty_world (request_of sample_probe) fresh
            _ _ eq_refl); discriminate.
Defined.

(** ** C8: the OOM-kill allocation loop *)

Example allocate_10_by_4 :
  option_map (fun r => (fst r, map length (snd r))) (OOMKillDataSource.allocate 4 10 4)
  = Some (10, [4; 4; 2]%nat).
Proof. reflexivity. Qed.

Example allocate_8_by_4_needs_fuel :
  option_map (fun r => map length (snd r)) (OOMKillDataSource.allocate 3 8 4)
  = Some [4; 4]%nat
  /\ OOMKillDataSource.allocate 2 8 4 = None.
Proof. split; reflexivity. Qed.

Example allocate_forever : OOMKillDataSource.allocate 50 (-1) 1 = None.
Proof. reflexivity. Qed.

Lemma wrap64_small z : int64_range z -> wrap64 z = z.
Proof.
  unfold int64_range, wrap64. intros H.
  rewrite Z.mod_small; lia.
Qed.


Lemma blocks_tail_cons b l n :
  OOMKillDataSource.make_block b :: blocks_tail b l (S n) = blocks_tail b l (S (S n)).
Proof. reflexivity. Qed.



Lemma sum_list_app (l1 l2 : list nat) :
  sum_list (l1 ++ l2) = (sum_list l1 + sum_list l2)%nat.
Proof. induction l1 as [|x l1 IH]; simpl; lia. Qed.


Lemma sum_list_cons (x : nat) (l : list nat) :
  sum_list (x :: l) = (x + sum_list l)%nat.
Proof. reflexivity. Qed.






(** ** C9: the chunked write of the plan artifact *)

Example plan_artifact_65537 :
  match
    PlanArtifactDataSource.Read (sample_oracle None) 3 empty_world
      (request_of (sample_artifact 65537)) fresh
  with
  | Some (w', resp') =>
      (map (fun e => Z.of_nat (length (snd e))) (writes w'),
       Z.of_nat (length (PlanArtifactDataSource.file_content w' "artifact")),
       PlanArtifactDataSource.FileSize <$> resp_State resp',
       HasError resp')
  | None => ([], 0, None, true)
  end
  = ([65536; 1], 65537, Some (types.Known 65537), false).
Proof. vm_compute. reflexivity. Qed.

Lemma file_content_write_file name p n w :
  PlanArtifactDataSource.file_content (PlanArtifactDataSource.write_file name p n w) name
  = PlanArtifactDataSource.file_content w name ++ take n p.
Proof.
  unfold PlanArtifactDataSource.file_content at 1, PlanArtifactDataSource.write_file.
  cbn [fs]. by rewrite lookup_insert_eq.
Qed.

Lemma is_file_write_file name p n w :
  fs (PlanArtifactDataSource.write_file name p n w) !! name
  = Some (File (PlanArtifactDataSource.file_content
                  (PlanArtifactDataSource.write_file name p n w) name)).
Proof.
  rewrite file_content_write_file. unfold PlanArtifactDataSource.write_file.
  cbn [fs]. by rewrite lookup_insert_eq.
Qed.


(** The loop comes to an end: every iteration that does not return writes
    at least one byte. *)
Lemma write_loop_terminates o name fileSize :
  fileSize < 2 ^ 63 ->
  forall fuel k written w,
    0 <= written ->
    (Z.to_nat (fileSize - written) < fuel)%nat ->
    exists r, PlanArtifactDataSource.write_loop o name fileSize fuel k written w = Some r.
Proof.
  intros Hsize. induction fuel as [|fuel IH]; intros k written w Hw Hfuel; [lia|].
  cbn [PlanArtifactDataSource.write_loop].
  destruct (Z.ltb_spec written fileSize) as [Hlt|Hge]; [|eauto].
  rewrite (wrap64_small (fileSize - written)) by (unfold int64_range; lia).
  set (bytes := if fileSize - written <? PlanArtifactDataSource.chunkSize
                then fileSize - written else PlanArtifactDataSource.chunkSize).
  assert (Hbytes : 0 < bytes <= fileSize - written).
  { subst bytes. unfold PlanArtifactDataSource.chunkSize.
    destruct (Z.ltb_spec (fileSize - written) (64 * 1024)); lia. }
  destruct (rand_Read_err o k); [eauto|].
  set (chunk := map (rand_byte o k) (seq 0 (Z.to_nat bytes))).
  assert (Hchunk : Z.of_nat (length chunk) = bytes).
  { subst chunk. rewrite length_map, length_seq. lia. }
  destruct (fh_Write o k chunk); [|eauto].
  rewrite Hchunk, (wrap64_small (written + bytes)) by (unfold int64_range; lia).
  apply IH; lia.
Qed.




(** ** C10: the three views of a file's content *)

Example base64_hello :
  base64_EncodeToString (bytes_of_string "hello") = "aGVsbG8="
  /\ base64_EncodeToString (bytes_of_string "hell") = "aGVsbA=="
  /\ base64_EncodeToString (bytes_of_string "hel") = "aGVs"
  /\ base64_DecodeString "aGVsbG8=" = Some (bytes_of_string "hello")
  /\ base64_DecodeString "aGVsbG8" = None
  /\ hex_EncodeToString (bytes_of_string "hi~") = "68697e".
Proof. repeat split; reflexivity. Qed.

Section Base64.

Local Open Scope N_scope.

Lemma testbit_shiftl a n i :
  N.testbit (N.shiftl a n) i = (n <=? i) && N.testbit a (i - n).
Proof.
  destruct (N.leb_spec n i) as [H|H]; simpl.
  - apply N.shiftl_spec_high'. exact H.
  - apply N.shiftl_spec_low. exact H.
Qed.

Lemma testbit_ones n i : N.testbit (N.ones n) i = (i <? n).
Proof.
  destruct (N.ltb_spec i n) as [H|H].
  - apply N.ones_spec_low. exact H.
  - apply N.ones_spec_high. exact H.
Qed.

Lemma testbit_byte (b : byte) i : 8 <= i -> N.testbit (Byte.to_N b) i = false.
Proof.
  intros H. pose proof (Byte.to_N_bounded b) as Hb.
  rewrite <- (N.mod_small (Byte.to_N b) (2 ^ 8)) by (simpl; lia).
  apply N.mod_pow2_bits_high. exact H.
Qed.

(** Equality of two numbers built from shifts and masks of bytes, bit by
    bit. *)
Ltac bits i :=
  apply N.bits_inj; intros i;
  change 63 with (N.ones 6); change 255 with (N.ones 8);
  repeat first
    [ rewrite N.lor_spec | rewrite N.land_spec | rewrite N.shiftr_spec'
    | rewrite testbit_shiftl | rewrite testbit_ones ];
  repeat match goal with
         | |- context [N.leb ?a ?b] => destruct (N.leb_spec a b); try lia
         | |- context [N.ltb ?a ?b] => destruct (N.ltb_spec a b); try lia
         end;
  cbn [andb orb];
  rewrite ?andb_true_r, ?andb_false_r, ?orb_false_r, ?orb_true_r;
  repeat match goal with
         | |- context [N.testbit (Byte.to_N ?b) ?e] =>
             rewrite (testbit_byte b e) by lia
         end;
  cbn [andb orb];
  rewrite ?andb_true_r, ?andb_false_r, ?orb_false_r, ?orb_true_r;
  try reflexivity;
  try (f_equal; lia).

Lemma byte_of_N_to_N (b : byte) (n : N) :
  N.land n 255 = Byte.to_N b -> byte_of_N n = b.
Proof. unfold byte_of_N. intros ->. by rewrite Byte.of_to_N. Qed.

(** A full quantum: the three bytes come back. *)
Lemma quantum3 (b0 b1 b2 : byte) :
  let v := N.lor (N.lor (N.shiftl (Byte.to_N b0) 16) (N.shiftl (Byte.to_N b1) 8))
             (Byte.to_N b2) in
  let v' := N.lor (N.lor (N.lor (N.shiftl (N.land (N.shiftr v 18) 63) 18)
                            (N.shiftl (N.land (N.shiftr v 12) 63) 12))
                     (N.shiftl (N.land (N.shiftr v 6) 63) 6)) (N.land v 63) in
  byte_of_N (N.shiftr v' 16) = b0 /\ byte_of_N (N.shiftr v' 8) = b1
  /\ byte_of_N v' = b2.
Proof.
  intros v v'. subst v' v.
  split; [|split]; apply byte_of_N_to_N; bits i.
Qed.

(** Two bytes and one padding character. *)
Lemma quantum2 (b0 b1 : byte) :
  let v := N.lor (N.shiftl (Byte.to_N b0) 16) (N.shiftl (Byte.to_N b1) 8) in
  let v' := N.lor (N.lor (N.shiftl (N.land (N.shiftr v 18) 63) 18)
                     (N.shiftl (N.land (N.shiftr v 12) 63) 12))
              (N.shiftl (N.land (N.shiftr v 6) 63) 6) in
  byte_of_N (N.shiftr v' 16) = b0 /\ byte_of_N (N.shiftr v' 8) = b1.
Proof.
  intros v v'. subst v' v.
  split; apply byte_of_N_to_N; bits i.
Qed.

(** One byte and two padding characters. *)
Lemma quantum1 (b0 : byte) :
  let v := N.shiftl (Byte.to_N b0) 16 in
  let v' := N.lor (N.shiftl (N.land (N.shiftr v 18) 63) 18)
              (N.shiftl (N.land (N.shiftr v 12) 63) 12) in
  byte_of_N (N.shiftr v' 16) = b0.
Proof.
  intros v v'. subst v' v.
  apply byte_of_N_to_N; bits i.
Qed.

(** The alphabet and its decode map, digit by digit. *)
Lemma alphabet_table :
  forallb
    (fun k =>
       match dec64 (enc64 (N.of_nat k)) with
       | Some d => N.eqb d (N.of_nat k)
       | None => false
       end && negb (Byte.eqb (enc64 (N.of_nat k)) StdPadding))
    (seq 0 64) = true.
Proof. vm_compute. reflexivity. Qed.

Lemma land_63_lt n : N.land n 63 < 64.
Proof.
  change 63 with (N.ones 6). rewrite N.land_ones.
  apply N.mod_upper_bound. discriminate.
Qed.

Lemma enc64_land n : enc64 (N.land n 63) = enc64 n.
Proof.
  unfold enc64. rewrite <- N.land_assoc. reflexivity.
Qed.

Lemma dec64_enc64 n : dec64 (enc64 n) = Some (N.land n 63).
Proof.
  pose proof (land_63_lt n) as Hlt. rewrite <- enc64_land.
  pose proof alphabet_table as T. rewrite forallb_forall in T.
  specialize (T (N.to_nat (N.land n 63))). rewrite N2Nat.id in T.
  assert (Hin : In (N.to_nat (N.land n 63)) (seq 0 64)) by (apply in_seq; lia).
  apply T in Hin. apply andb_true_iff in Hin as [Hin _].
  destruct (dec64 (enc64 (N.land n 63))) as [d|]; [|discriminate].
  apply N.eqb_eq in Hin. by subst.
Qed.

Lemma enc64_not_padding n : Byte.eqb (enc64 n) StdPadding = false.
Proof.
  pose proof (land_63_lt n) as Hlt. rewrite <- enc64_land.
  pose proof alphabet_table as T. rewrite forallb_forall in T.
  specialize (T (N.to_nat (N.land n 63))). rewrite N2Nat.id in T.
  assert (Hin : In (N.to_nat (N.land n 63)) (seq 0 64)) by (apply in_seq; lia).
  apply T in Hin. apply andb_true_iff in Hin as [_ Hin].
  by apply negb_true_iff in Hin.
Qed.

End Base64.

(** Induction on a list of bytes three elements at a time, as the encoder
    consumes it. *)
Lemma list_ind3 {A} (P : list A -> Prop) :
  P [] -> (forall a, P [a]) -> (forall a b, P [a; b]) ->
  (forall a b c l, P l -> P (a :: b :: c :: l)) ->
  forall l, P l.
Proof.
  intros H0 H1 H2 H3 l.
  assert (H : P l /\ (forall a, P (a :: l)) /\ (forall a b, P (a :: b :: l))).
  { induction l as [|x l (IH0 & IH1 & IH2)]; [by auto|].
    split; [apply IH1|]. split; [intros a; apply IH2|].
    intros a b. by apply H3. }
  apply H.
Qed.

(** Decoding what the encoder produced gives the bytes back. *)
Lemma base64_Decode_Encode (src : list byte) :
  base64_Decode (base64_Encode src) = Some src.
Proof.
  induction src as [|b0|b0 b1|b0 b1 b2 rest IH] using list_ind3.
  - reflexivity.
  - cbn [base64_Encode base64_Decode]. rewrite !dec64_enc64.
    change (Byte.eqb StdPadding StdPadding) with true. cbn [andb].
    by rewrite (quantum1 b0).
  - cbn [base64_Encode base64_Decode]. rewrite !dec64_enc64.
    change (Byte.eqb StdPadding StdPadding) with true. cbn [andb].
    rewrite enc64_not_padding.
    destruct (quantum2 b0 b1) as [-> ->]. reflexivity.
  - cbn [base64_Encode base64_Decode]. rewrite !dec64_enc64, IH.
    rewrite enc64_not_padding. cbn [andb].
    destruct (quantum3 b0 b1 b2) as (-> & -> & ->). reflexivity.
Qed.

Lemma base64_DecodeString_EncodeToString (src : list byte) :
  base64_DecodeString (base64_EncodeToString src) = Some src.
Proof.
  unfold base64_DecodeString, base64_EncodeToString, bytes_of_string, string_of_bytes.
  rewrite list_byte_of_string_of_list_byte. apply base64_Decode_Encode.
Qed.

Lemma hex_digits_lower (v : byte) :
  is_lower_hex (hexdigit (N.shiftr (Byte.to_N v) 4)) = true
  /\ is_lower_hex (hexdigit (N.land (Byte.to_N v) 15)) = true.
Proof. destruct v; split; reflexivity. Qed.

Lemma hex_Encode_lower (src : list byte) :
  Forall (fun b => is_lower_hex b = true) (hex_Encode src)
  /\ length (hex_Encode src) = (2 * length src)%nat.
Proof.
  induction src as [|v rest [IH IHl]]; cbn [hex_Encode]; [by split|].
  destruct (hex_digits_lower v). split; [by repeat constructor|].
  cbn [length]. lia.
Qed.

(** C10.  When [Read] of the file-content data source returns without an
    error diagnostic, the state holds the three computed attributes of one
    and the same byte sequence, the content of the file: [content] is
    these bytes as a string, base64-decoding [content_base64] gives
    exactly the bytes of [content], and [content_sha256] is the
    hexadecimal encoding, in lowercase digits, of the SHA-256 digest of
    the bytes of [content]. *)
Theorem file_content_views_agree :
  forall o fuel w req resp w' resp',
    FileContentDataSource.Read o fuel w req resp = Some (w', resp') ->
    HasError resp' = false ->
    exists data bytes,
      resp_State resp' = Some data
      /\ os_ReadFile o w (types.ValueString (FileContentDataSource.Filename data))
         = Ok bytes
      /\ FileContentDataSource.Content data = types.StringValue (string_of_bytes bytes)
      /\ bytes_of_string (types.ValueString (FileContentDataSource.Content data)) = bytes
      /\ base64_DecodeString
           (types.ValueString (FileContentDataSource.ContentBase64 data))
         = Some bytes
      /\ FileContentDataSource.ContentSHA256 data
         = types.StringValue (hex_EncodeToString (sha256_Sum256 o bytes))
      /\ Forall (fun b => is_lower_hex b = true)
           (bytes_of_string
              (types.ValueString (FileContentDataSource.ContentSHA256 data))).
Proof.
  intros o fuel w req resp w' resp'.
  unfold FileContentDataSource.Read, Get. cbv beta iota zeta.
  destruct (HasError (Append _ resp)) eqn:Hclean; [success_path|].
  destruct (os_Stat o w _) as [|e|? ? []]; try success_path.
  destruct (os_ReadFile o w _) as [content|e] eqn:Hread; [|success_path].
  intros [= <- <-] Hok. apply State_Set_written in Hok.
  eexists _, content. split; [exact Hok|].
  cbn [FileContentDataSource.Filename FileContentDataSource.Content
         FileContentDataSource.ContentBase64 FileContentDataSource.ContentSHA256
         types.ValueString types.StringValue].
  split; [exact Hread|]. split; [reflexivity|].
  split; [apply list_byte_of_string_of_list_byte|].
  split; [apply base64_DecodeString_EncodeToString|]. split; [reflexivity|].
  unfold hex_EncodeToString, bytes_of_string, string_of_bytes.
  rewrite list_byte_of_string_of_list_byte. apply hex_Encode_lower.
Qed.

(** The file "motd" with the content "hello": the state holds "hello" and
    its base64 encoding "aGVsbG8=". *)
Lemma file_content_views_agree_witness :
  exists data,
    resp_State
      (State_Set []
         {| FileContentDataSource.Filename := types.Known "motd";
            FileContentDataSource.Content := types.Known "hello";
            FileContentDataSource.ContentBase64 := types.Known "aGVsbG8=";
            FileContentDataSource.ContentSHA256 :=
              types.Known
                (hex_EncodeToString
                   (sha256_Sum256 (sample_oracle None) (bytes_of_string "hello"))) |}
         fresh) = Some data
    /\ base64_DecodeString
         (types.ValueString (FileContentDataSource.ContentBase64 data))
       = Some (bytes_of_string "hello").
Proof.
  destruct (file_content_views_agree (sample_oracle None) 0%nat world_with_motd
              (request_of sample_file) fresh world_with_motd _ eq_refl eq_refl)
    as (data & bytes & Hstate & Hread & _ & _ & Hb64 & _).
  exists data. split; [exact Hstate|].
  rewrite Hb64. injection Hstate as <-. injection Hread as <-. reflexivity.
Defined.

(** ** C5: the CPU-hog fan-out *)

Section FanOut.

Import CPUHogFanOut.

Context (numCores : nat).

Example two_cores_timer : exec 2 sample_schedule init = Some sample_final.
Proof. reflexivity. Qed.

Example wait_blocks_while_a_worker_runs :
  exec 1 [AMain; AMain; AMain; AReceive CtxDone; AMain] init = None.
Proof. reflexivity. Qed.

Lemma sum_map_insert {A} (f : A -> nat) (l : list A) j x y :
  l !! j = Some x ->
  (sum_list (map f (<[j := y]> l)) + f x = sum_list (map f l) + f y)%nat.
Proof.
  revert j. induction l as [|a l IH]; intros [|j] H; try done.
  - injection H as ->. change (<[0%nat := y]> (x :: l)) with (y :: l).
    cbn [map]. rewrite !sum_list_cons. lia.
  - change (<[S j := y]> (a :: l)) with (a :: <[j := y]> l).
    cbn [map]. rewrite !sum_list_cons. specialize (IH j H). lia.
Qed.

Lemma sum_live_zero (ws : list WorkerPC) :
  sum_list (map live ws) = 0%nat -> Forall (fun p => p = WDone) ws.
Proof.
  induction ws as [|p ws IH]; [constructor|].
  cbn [map]. rewrite sum_list_cons. intros H.
  constructor; [destruct p; simpl in H; (done || lia)|apply IH; lia].
Qed.

Lemma Forall_done_lookup (ws : list WorkerPC) j p :
  Forall (fun p => p = WDone) ws -> ws !! j = Some p -> p = WDone.
Proof.
  intros H Hj. rewrite Forall_forall in H. apply H.
  eapply list_elem_of_lookup_2. exact Hj.
Qed.

Lemma init_Inv : Inv numCores init.
Proof. split; simpl; try done. lia. Qed.

Lemma sum_live_snoc (ws : list WorkerPC) :
  sum_list (map live (ws ++ [WStart])) = S (sum_list (map live ws)).
Proof. rewrite map_app, sum_list_app. cbn [map live]. rewrite sum_list_cons. simpl. lia. Qed.

Lemma step_main_Inv s s' :
  Inv numCores s -> step_main numCores s = Some s' -> Inv numCores s'.
Proof.
  intros [Hc Hr Hw Hs Hi Hd]. unfold step_main.
  destruct (main s) as [i|i| | |] eqn:Hm; try done.
  - destruct (Nat.ltb_spec i numCores); intros [= <-];
      split; cbn [main quit_closed wg workers]; try done; lia.
  - intros [= <-]. split; cbn [main quit_closed wg workers]; try done.
    + intros j p Hj Hp. apply lookup_app_Some in Hj as [Hj|[_ Hj]]; [eauto|].
      destruct (j - length (workers s))%nat as [|k]; [|by destruct k].
      injection Hj as <-. done.
    + rewrite sum_live_snoc. lia.
    + rewrite length_app. simpl. lia.
  - destruct (Z.eqb_spec (wg s) 0) as [Hz|]; [|done]. intros [= <-].
    split; cbn [main quit_closed wg workers]; try done.
    intros _. apply sum_live_zero. lia.
Qed.

Lemma step_receive_Inv e s s' :
  Inv numCores s -> step_receive e s = Some s' ->
  Inv numCores s' /\ quit_closed s = false /\ quit_closed s' = true.
Proof.
  intros [Hc Hr Hw Hs Hi Hd]. unfold step_receive.
  destruct (main s) eqn:Hm; try done. intros [= <-].
  split; [|by split]. split; cbn [main quit_closed wg workers]; try done.
Qed.

Lemma step_worker_Inv j s s' :
  Inv numCores s -> step_worker j s = Some s' ->
  Inv numCores s' /\ quit_closed s' = quit_closed s /\ main s' = main s.
Proof.
  intros HI. pose proof HI as [Hc Hr Hw Hs Hi Hd]. unfold step_worker.
  destruct (workers s !! j) as [p|] eqn:Hj; [|done].
  assert (Hnot : p <> WDone -> main s <> MReturned).
  { intros Hp Hm. apply Hp. exact (Forall_done_lookup _ _ _ (Hd Hm) Hj). }
  assert (Hother : forall (q : WorkerPC) k p',
             (returned q = true -> quit_closed s = true) ->
             <[j := q]> (workers s) !! k = Some p' ->
             returned p' = true -> quit_closed s = true).
  { intros q k p' Hq Hk Hp'. destruct (decide (k = j)) as [->|Hne].
    - rewrite list_lookup_insert_eq in Hk by (eapply lookup_lt_Some; eauto).
      injection Hk as <-. auto.
    - rewrite list_lookup_insert_ne in Hk by done. eauto. }
  destruct p.
  - intros [= <-]. split; [|done].
    split; cbn [main quit_closed wg workers]; try done.
    + intros k p'. by apply Hother.
    + pose proof (sum_map_insert live _ j _ WHog Hj) as E. simpl in E. lia.
    + by rewrite length_insert.
    + intros Hm. by destruct (Hnot ltac:(discriminate) Hm).
  - destruct (quit_closed s) eqn:Hq.
    + intros [= <-]. split; [|done].
      split; cbn [main quit_closed wg workers]; try done.
      * pose proof (sum_map_insert live _ j _ WDeferred Hj) as E. simpl in E. lia.
      * by rewrite length_insert.
      * intros Hm. by destruct (Hnot ltac:(discriminate) Hm).
    + intros [= <-]. by rewrite Hq.
  - intros [= <-]. split; [|done].
    split; cbn [main quit_closed wg workers]; try done.
    + intros k p'. apply Hother. intros _. eapply Hr; [exact Hj|done].
    + pose proof (sum_map_insert live _ j _ WDone Hj) as E. simpl in E. lia.
    + by rewrite length_insert.
    + intros Hm. by destruct (Hnot ltac:(discriminate) Hm).
  - done.
Qed.

Lemma step_Inv a s s' :
  Inv numCores s -> step numCores a s = Some s' -> Inv numCores s'.
Proof.
  intros HI. destruct a as [|e|j]; cbn [step]; intros H.
  - eapply step_main_Inv; eauto.
  - eapply step_receive_Inv; eauto.
  - eapply step_worker_Inv; eauto.
Qed.

(** [quit] is closed by the receive of the [select] and by nothing else. *)
Lemma step_closed a s s' :
  Inv numCores s -> step numCores a s = Some s' ->
  quit_closed s' = quit_closed s || is_receive a.
Proof.
  intros HI. destruct a as [|e|j]; cbn [step is_receive]; intros H.
  - rewrite orb_false_r. pose proof (step_main_Inv _ _ HI H) as HI'.
    destruct HI as [Hc _ _ _ _ _], HI' as [Hc' _ _ _ _ _].
    rewrite Hc, Hc'. unfold step_main in H.
    destruct (main s); try done.
    + destruct (_ <? _)%nat; by injection H as <-.
    + by injection H as <-.
    + destruct (_ =? _); [|done]. by injection H as <-.
  - rewrite orb_true_r. by eapply step_receive_Inv.
  - rewrite orb_false_r. by eapply step_worker_Inv.
Qed.

Lemma exec_Inv sched s s' :
  Inv numCores s -> exec numCores sched s = Some s' ->
  Inv numCores s' /\ quit_closed s' = quit_closed s || existsb is_receive sched.
Proof.
  revert s. induction sched as [|a sched IH]; intros s HI; cbn [exec existsb].
  - intros [= <-]. by rewrite orb_false_r.
  - destruct (step numCores a s) as [s1|] eqn:Hstep; [|done]. intros Hexec.
    destruct (IH s1 (step_Inv _ _ _ HI Hstep) Hexec) as [HI' ->].
    split; [exact HI'|]. rewrite (step_closed _ _ _ HI Hstep). by rewrite orb_assoc.
Qed.

(** Once [quit] is closed every step brings the end one step nearer. *)
Lemma step_closed_decreases a s s' :
  Inv numCores s -> quit_closed s = true -> step numCores a s = Some s' ->
  S (steps_left s') = steps_left s.
Proof.
  intros HI Hq. pose proof HI as [Hc _ _ _ _ _]. rewrite Hq in Hc.
  destruct a as [|e|j]; cbn [step].
  - unfold step_main. destruct (main s) eqn:Hm; try done.
    destruct (_ =? _); [|done]. intros [= <-].
    unfold steps_left. cbn [main workers]. rewrite Hm. reflexivity.
  - unfold step_receive. destruct (main s); done.
  - unfold step_worker. destruct (workers s !! j) as [p|] eqn:Hj; [|done].
    rewrite Hq. unfold steps_left.
    destruct p; try done; intros [= <-]; cbn [main workers];
      match goal with
      | |- context [<[j := ?q]> _] =>
          pose proof (sum_map_insert worker_steps_left _ j _ q Hj) as E
      end; simpl in E; lia.
Qed.


Lemma sum_live_pos (ws : list WorkerPC) :
  (0 < sum_list (map live ws))%nat ->
  exists j p, ws !! j = Some p /\ p <> WDone.
Proof.
  induction ws as [|p ws IH]; cbn [map]; [simpl; lia|].
  rewrite sum_list_cons. intros H. destruct (decide (p = WDone)) as [->|Hp].
  - destruct IH as (j & q & Hj & Hq); [simpl in H; lia|]. by exists (S j), q.
  - by exists 0%nat, p.
Qed.

(** After the close nothing is stuck before [Read] has returned. *)
Lemma closed_progress s :
  Inv numCores s -> quit_closed s = true -> main s <> MReturned ->
  exists a s', step numCores a s = Some s'.
Proof.
  intros [Hc Hr Hw Hs Hi Hd] Hq Hm. rewrite Hq in Hc.
  destruct (main s) eqn:Hmain; try done.
  destruct (Z.eqb_spec (wg s) 0) as [Hz|Hnz].
  - exists AMain. cbn [step]. unfold step_main. rewrite Hmain.
    destruct (Z.eqb_spec (wg s) 0); [eauto|done].
  - destruct (sum_live_pos (workers s)) as (j & p & Hj & Hp); [lia|].
    exists (AWorker j). cbn [step]. unfold step_worker. rewrite Hj, Hq.
    destruct p; eauto. done.
Qed.


End FanOut.


(** ** Further properties of the resources *)

(** X1.  [Delete] of every resource returns (it cannot panic) and leaves
    the response state as it was handed: removing the state is left to
    the framework. *)
Theorem delete_never_writes_state :
  forall r o req resp,
    exists resp',
      res_call r Delete o req resp = Some resp'
      /\ resp_State resp' = resp_State resp.
Proof.
  intros r o req resp. destruct r; cbn [res_call]; eexists; (split; [reflexivity|]).
  - unfold FailureResource.Delete, Get. branches; reflexivity.
  - unfold SleepResource.Delete, Get. branches; reflexivity.
  - reflexivity.
  - reflexivity.
Qed.

Lemma Append_clean {M} (ds : diag.Diagnostics) (resp : Response M) :
  HasError resp = false -> diag.HasError ds = false ->
  HasError (Append ds resp) = false.
Proof. intros H1 H2. by rewrite HasError_resp_Append, H1, H2. Qed.

(** X2.  [Update] and [Delete] of the sleep resource take their duration
    from the prior state, never from the plan.  With the framework's
    decoding and encoding free of errors: [Update] succeeds, and writes
    the plan into the state, exactly when the state's [update_duration] is
    empty or parses and the sleep is not interrupted, and otherwise leaves
    an error and the state untouched; [Delete] returns without an error
    exactly when the state's [destroy_duration] is empty or parses and the
    sleep is not interrupted. *)
Theorem sleep_resource_durations_come_from_state :
  forall o (req : Request SleepResource.Model) resp,
    HasError resp = false ->
    diag.HasError (GetDiags (req_Plan req)) = false ->
    diag.HasError (GetDiags (req_State req)) = false ->
    diag.HasError (StateSetDiags o) = false ->
    let slept d :=
      d = "" \/ exists dur, time_ParseDuration o d = Ok dur /\ sleep o dur = None in
    let d_update :=
      types.ValueString (SleepResource.UpdateDuration (Raw (req_State req))) in
    let d_destroy :=
      types.ValueString (SleepResource.DestroyDuration (Raw (req_State req))) in
    let updated := SleepResource.Update o req resp in
    let deleted := SleepResource.Delete o req resp in
    (slept d_update ->
     HasError updated = false /\ resp_State updated = Some (Raw (req_Plan req)))
    /\ (~ slept d_update ->
        HasError updated = true /\ resp_State updated = resp_State resp)
    /\ (HasError deleted = false <-> slept d_destroy).
Proof.
  intros o req resp Hresp Hplan Hstate Hset slept d_update d_destroy updated deleted.
  pose proof (Append_clean _ _ Hresp Hplan) as Hp.
  pose proof (Append_clean _ _ Hp Hstate) as Hps.
  pose proof (Append_clean _ _ Hresp Hstate) as Hs.
  subst updated deleted. unfold SleepResource.Update, SleepResource.Delete.
  rewrite !(Get_clean _ _ Hplan), !(Get_clean _ _ Hstate). cbv beta iota zeta.
  rewrite Hp, Hps, Hs. fold d_update d_destroy.
  split; [|split].
  - intros [Hd|(dur & Hparse & Hsleep)].
    + rewrite Hd. cbn [String.eqb negb].
      by rewrite HasError_State_Set, State_State_Set, Hps, Hset.
    + destruct (String.eqb d_update ""); cbn [negb];
        rewrite ?Hparse, ?Hsleep;
        by rewrite HasError_State_Set, State_State_Set, Hps, Hset.
  - intros Hnot. destruct (String.eqb_spec d_update "") as [Hd|Hd].
    { destruct Hnot. by left. }
    cbn [negb]. destruct (time_ParseDuration o d_update) as [dur|e] eqn:Hparse.
    + destruct (sleep o dur) eqn:Hsleep.
      * by rewrite HasError_AddError.
      * destruct Hnot. right. eauto.
    + by rewrite HasError_AddError.
  - destruct (String.eqb_spec d_destroy "") as [Hd|Hd].
    { split; [by left|done]. }
    destruct (time_ParseDuration o d_destroy) as [dur|e] eqn:Hparse.
    + destruct (sleep o dur) eqn:Hsleep.
      * rewrite HasError_AddError. split; [done|].
        intros [?|(dur' & Hd' & Hs')]; [done|]. congruence.
      * split; [|done]. intros _. right. eauto.
    + rewrite HasError_AddError. split; [done|].
      intros [?|(dur' & Hd' & Hs')]; [done|]. congruence.
Qed.

(** The plan carries an [update_duration] that does not parse, the prior
    state carries none: [Update] sleeps for nothing and writes the plan. *)
Lemma sleep_resource_durations_come_from_state_witness :
  resp_State
    (SleepResource.Update sample_oracle_ok
       (request_with (sample_sleep_resource (types.Known "bogus") types.Null)
          (sample_sleep_resource types.Null types.Null)) fresh)
  = Some (sample_sleep_resource (types.Known "bogus") types.Null).
Proof.
  refine (proj2 (proj1 (sleep_resource_durations_come_from_state sample_oracle_ok
                          (request_with
                             (sample_sleep_resource (types.Known "bogus") types.Null)
                             (sample_sleep_resource types.Null types.Null))
                          fresh eq_refl eq_refl eq_refl eq_refl) _)).
  left. reflexivity.
Defined.

(** X3.  [Create] of the sleep resource, with the framework's decoding and
    encoding free of errors: when the planned [duration] parses and the
    sleep is not interrupted, the state is the plan with [id] set to the
    current time and the three durations as planned; otherwise [Create]
    leaves an error and the state untouched.  An interrupted sleep is
    reported as "Sleep Failed" with the context's error. *)
Theorem sleep_resource_create :
  forall o (req : Request SleepResource.Model) resp,
    HasError resp = false ->
    diag.HasError (GetDiags (req_Plan req)) = false ->
    diag.HasError (StateSetDiags o) = false ->
    let plan := Raw (req_Plan req) in
    let created := SleepResource.Create o req resp in
    (forall dur,
        time_ParseDuration o (types.ValueString (SleepResource.Duration plan)) = Ok dur ->
        sleep o dur = None ->
        HasError created = false
        /\ resp_State created
           = Some {| SleepResource.Id := types.Known (time_Now_UTC o);
                     SleepResource.Duration := SleepResource.Duration plan;
                     SleepResource.UpdateDuration := SleepResource.UpdateDuration plan;
                     SleepResource.DestroyDuration := SleepResource.DestroyDuration plan |})
    /\ (forall dur e,
          time_ParseDuration o (types.ValueString (SleepResource.Duration plan)) = Ok dur ->
          sleep o dur = Some e ->
          resp_State created = resp_State resp
          /\ In (diag.NewErrorDiagnostic "Sleep Failed"
                   ("An error occurred while sleeping: " +:+ e))
               (resp_Diagnostics created))
    /\ (forall e,
          time_ParseDuration o (types.ValueString (SleepResource.Duration plan)) = Err e ->
          resp_State created = resp_State resp
          /\ In (diag.NewErrorDiagnostic "Invalid Duration"
                   ("Could not parse duration: " +:+ e))
               (resp_Diagnostics created)).
Proof.
  intros o req resp Hresp Hplan Hset plan created.
  pose proof (Append_clean _ _ Hresp Hplan) as Hp.
  subst created. unfold SleepResource.Create.
  rewrite (Get_clean _ _ Hplan). cbv beta iota zeta. rewrite Hp. fold plan.
  split; [|split].
  - intros dur -> ->. by rewrite HasError_State_Set, State_State_Set, Hp, Hset.
  - intros dur e -> ->. split; [done|]. apply In_Append_new. by left.
  - intros e ->. split; [done|]. apply In_Append_new. by left.
Qed.

(** The sample plan sleeps for "1s": [Create] writes the plan with the
    id set. *)
Lemma sleep_resource_create_witness :
  HasError
    (SleepResource.Create sample_oracle_ok
       (request_of (sample_sleep_resource types.Null types.Null)) fresh) = false.
Proof.
  exact (proj1 (proj1 (sleep_resource_create sample_oracle_ok
                         (request_of (sample_sleep_resource types.Null types.Null))
                         fresh eq_refl eq_refl eq_refl) 1000000000 eq_refl eq_refl)).
Defined.



Lemma append_NUL_split (s1 s2 r1 r2 : string) :
  NUL_free s1 = true -> NUL_free s2 = true ->
  s1 +:+ String "000" r1 = s2 +:+ String "000" r2 ->
  s1 = s2 /\ r1 = r2.
Proof.
  revert s2. induction s1 as [|c s1 IH]; intros [|c' s2] H1 H2 H.
  - change (String "000" r1 = String "000" r2) in H. by injection H as ->.
  - change (String "000" r1 = String c' (s2 +:+ String "000" r2)) in H.
    injection H as Hc _. subst c'. by cbn in H2.
  - change (String c (s1 +:+ String "000" r1) = String "000" r2) in H.
    injection H as Hc _. subst c. by cbn in H1.
  - change (String c (s1 +:+ String "000" r1)
            = String c' (s2 +:+ String "000" r2)) in H.
    injection H as Hc H. subst c'. cbn [NUL_free] in H1, H2.
    apply andb_true_iff in H1 as [_ H1]. apply andb_true_iff in H2 as [_ H2].
    destruct (IH s2 H1 H2 H) as [-> ->]. done.
Qed.

Lemma NUL_free_no_NUL (s s2 r : string) :
  NUL_free s = true -> s = s2 +:+ String "000" r -> False.
Proof.
  revert s. induction s2 as [|c s2 IH]; intros s H1 H; subst s.
  - by cbn in H1.
  - change (NUL_free (String c (s2 +:+ String "000" r)) = true) in H1.
    cbn [NUL_free] in H1. apply andb_true_iff in H1 as [_ H1]. by eapply IH.
Qed.

Lemma strings_Join_cons (s t : string) (rest : list string) :
  strings_Join (s :: t :: rest) CommandResource.NUL
  = s +:+ String "000" (strings_Join (t :: rest) CommandResource.NUL).
Proof. reflexivity. Qed.

(** X5.  The string whose hash is the [id] of the command resource
    determines the command: two non-empty commands whose arguments hold no
    byte 0 and that join to the same string are the same command. *)
Theorem command_id_input_is_injective :
  forall cmd1 cmd2 : list string,
    cmd1 <> [] -> cmd2 <> [] ->
    Forall (fun s => NUL_free s = true) cmd1 ->
    Forall (fun s => NUL_free s = true) cmd2 ->
    strings_Join cmd1 CommandResource.NUL = strings_Join cmd2 CommandResource.NUL ->
    cmd1 = cmd2.
Proof.
  induction cmd1 as [|a [|a' l1] IH]; intros [|b [|b' l2]] Hn1 Hn2 F1 F2 H; try done.
  - cbn [strings_Join] in H. by subst.
  - rewrite strings_Join_cons in H.
    change (strings_Join [a] CommandResource.NUL) with a in H.
    apply Forall_inv in F1. by destruct (NUL_free_no_NUL _ _ _ F1 H).
  - rewrite strings_Join_cons in H.
    change (strings_Join [b] CommandResource.NUL) with b in H.
    apply Forall_inv in F2. symmetry in H.
    by destruct (NUL_free_no_NUL _ _ _ F2 H).
  - rewrite !strings_Join_cons in H.
    pose proof (Forall_inv F1) as Ha. pose proof (Forall_inv F2) as Hb.
    apply Forall_inv_tail in F1, F2.
    destruct (append_NUL_split _ _ _ _ Ha Hb H) as [-> Hrest].
    f_equal. by apply IH.
Qed.

(** Two arguments without a byte 0.  An argument that is the byte 0 joins
    to the same string as two empty arguments do, so the hypothesis is
    needed. *)
Lemma command_id_input_is_injective_witness :
  ["echo"; "a b"] = ["echo"; "a b"].
Proof.
  apply command_id_input_is_injective; try done; by repeat constructor.
Defined.

Example join_collides_on_NUL :
  strings_Join [CommandResource.NUL] CommandResource.NUL
  = strings_Join [""; ""] CommandResource.NUL.
Proof. reflexivity. Qed.

(** ** The HTTP GET resource *)





(** X7.  [Create] of the HTTP GET resource stores whatever response it
    got: once the request could be built and sent and the body read, the
    state holds the plan's arguments, the status code as it came (no
    status is an error), a null body for an empty one, and for every
    response header that has a value its first value; a header with no
    value is left out. *)
Theorem http_get_create_stores_any_response :
  forall o (req : Request HTTPGetResource.Model) resp r body,
    HasError resp = false ->
    diag.HasError (GetDiags (req_Plan req)) = false ->
    diag.HasError (MapValueFromDiags o) = false ->
    diag.HasError (StateSetDiags o) = false ->
    http_NewRequest_err o
      (types.ValueString (HTTPGetResource.URL (Raw (req_Plan req)))) = None ->
    http_Do o
      (wrap64 (types.ValueInt64 (HTTPGetResource.Timeout (Raw (req_Plan req)))
               * HTTPGetResource.Second))
      (types.ValueString (HTTPGetResource.URL (Raw (req_Plan req))))
      (HTTPGetResource.request_header o
         (HTTPGetResource.Headers (Raw (req_Plan req)))) = Ok r ->
    Body r = Ok body ->
    exists data headers,
      HasError (HTTPGetResource.Create o req resp) = false
      /\ resp_State (HTTPGetResource.Create o req resp) = Some data
      /\ HTTPGetResource.URL data = HTTPGetResource.URL (Raw (req_Plan req))
      /\ HTTPGetResource.Headers data = HTTPGetResource.Headers (Raw (req_Plan req))
      /\ HTTPGetResource.Timeout data = HTTPGetResource.Timeout (Raw (req_Plan req))
      /\ HTTPGetResource.ResponseStatusCode data = types.Known (StatusCode r)
      /\ HTTPGetResource.ResponseBody data
         = match body with
           | [] => types.Null
           | _ :: _ => types.Known (string_of_bytes body)
           end
      /\ HTTPGetResource.ResponseHeaders data = types.Known headers
      /\ forall k,
           headers !! k
           = match Header r !! k with
             | Some (v :: _) => Some (types.Known v)
             | _ => None
             end.
Proof.
  intros o req resp r body Hresp Hplan Hmap Hset Hnew Hdo Hbody.
  pose proof (Append_clean _ _ Hresp Hplan) as Hp.
  unfold HTTPGetResource.Create.
  rewrite (Get_clean _ _ Hplan). cbv beta iota zeta.
  rewrite Hp, Hnew, Hdo, Hmap, Hbody.
  rewrite HasError_State_Set, State_State_Set, Hp, Hset.
  eexists _, _. split; [done|]. split; [reflexivity|].
  cbn [HTTPGetResource.URL HTTPGetResource.Headers HTTPGetResource.Timeout
       HTTPGetResource.ResponseStatusCode HTTPGetResource.ResponseBody
       HTTPGetResource.ResponseHeaders].
  repeat (split; [reflexivity|]).
  split; [by destruct body|]. split; [reflexivity|].
  intros k. unfold HTTPGetResource.headerElements.
  rewrite lookup_fmap, lookup_omap.
  destruct (Header r !! k) as [[|v vs]|]; reflexivity.
Qed.

(** A response with status 200, an empty body, a header with two values
    and a header with none. *)
Lemma http_get_create_stores_any_response_witness :
  exists data headers,
    resp_State (HTTPGetResource.Create sample_oracle_ok (request_of sample_http) fresh)
    = Some data
    /\ HTTPGetResource.ResponseBody data = types.Null
    /\ HTTPGetResource.ResponseHeaders data = types.Known headers
    /\ headers !! "Content-Type" = Some (types.Known "text/plain")
    /\ headers !! "Empty" = None.
Proof.
  destruct (http_get_create_stores_any_response sample_oracle_ok
              (request_of sample_http) fresh sample_http_response []
              eq_refl eq_refl eq_refl eq_refl eq_refl eq_refl eq_refl)
    as (data & headers & _ & Hstate & _ & _ & _ & _ & Hbody & Hheaders & Hlookup).
  exists data, headers. split; [exact Hstate|]. split; [exact Hbody|].
  split; [exact Hheaders|]. split.
  - exact (Hlookup "Content-Type").
  - exact (Hlookup "Empty").
Defined.

(** ** The environment-variables data source *)

Lemma cut_at_eq_Some (s k v : string) :
  cut_at_eq s = Some (k, v) -> s = k +:+ String "=" v /\ cut_at_eq k = None.
Proof.
  revert k. induction s as [|c s IH]; intros k; cbn [cut_at_eq]; [done|].
  destruct (Ascii.eqb_spec c "="%char) as [->|Hc].
  - intros [= <- <-]. done.
  - destruct (cut_at_eq s) as [[k' v']|] eqn:Hs; [|done].
    intros [= <- <-]. destruct (IH k' eq_refl) as [-> Hk]. split; [done|].
    cbn [cut_at_eq]. destruct (Ascii.eqb_spec c "="%char); [done|]. by rewrite Hk.
Qed.

Lemma cut_at_eq_append (k v : string) :
  cut_at_eq k = None -> cut_at_eq (k +:+ String "=" v) = Some (k, v).
Proof.
  induction k as [|c k IH].
  - intros _. reflexivity.
  - change (String c k +:+ String "=" v) with (String c (k +:+ String "=" v)).
    cbn [cut_at_eq]. destruct (Ascii.eqb c "="%char); [done|].
    destruct (cut_at_eq k) as [[? ?]|]; [done|]. intros _. by rewrite IH.
Qed.

Lemma lookup_step_snd o (acc : Response EnvDataSource.Model * gmap string string)
    (x k : string) :
  snd (EnvDataSource.lookup_step o acc x) !! k
  = if decide (k = x)
    then match os_LookupEnv o k with Some v => Some v | None => snd acc !! k end
    else snd acc !! k.
Proof.
  unfold EnvDataSource.lookup_step.
  destruct (decide (k = x)) as [->|Hkx].
  - destruct (os_LookupEnv o x); cbn [snd]; [|done]. by rewrite lookup_insert_eq.
  - destruct (os_LookupEnv o x); cbn [snd]; [|done]. by rewrite lookup_insert_ne.
Qed.

Lemma lookup_fold_lookup_step o (l : list string)
    (acc : Response EnvDataSource.Model * gmap string string) (k : string) :
  snd (fold_left (EnvDataSource.lookup_step o) l acc) !! k
  = if decide (k ∈ l)
    then match os_LookupEnv o k with Some v => Some v | None => snd acc !! k end
    else snd acc !! k.
Proof.
  revert acc. induction l as [|x l IH]; intros acc; cbn [fold_left].
  { rewrite decide_False; [done|]. by intros ?%elem_of_nil. }
  rewrite IH, lookup_step_snd.
  destruct (decide (k = x)) as [->|Hkx].
  - rewrite (decide_True (P := x ∈ x :: l)) by (apply elem_of_cons; by left).
    destruct (decide (x ∈ l)); by destruct (os_LookupEnv o x).
  - destruct (decide (k ∈ l)) as [Hl|Hl].
    + rewrite decide_True by (apply elem_of_cons; by right). done.
    + rewrite decide_False; [done|]. by intros [?|?]%elem_of_cons.
Qed.

(** X8.  With a list of names, the environment data source looks up
    exactly those: the result maps every requested name that is set to
    its value and holds nothing else; a name that is not set gives a
    warning, never an error. *)
Theorem env_read_looks_up_requested_names :
  forall o fuel w (req : Request EnvDataSource.Model) resp,
    HasError resp = false ->
    diag.HasError (GetDiags (req_Config req)) = false ->
    diag.HasError (StateSetDiags o) = false ->
    EnvDataSource.EnvironmentVariables (Raw (req_Config req)) <> [] ->
    exists resp' data,
      EnvDataSource.Read o fuel w req resp = Some (w, resp')
      /\ HasError resp' = false
      /\ resp_State resp' = Some data
      /\ EnvDataSource.EnvironmentVariables data
         = EnvDataSource.EnvironmentVariables (Raw (req_Config req))
      /\ forall k,
           EnvDataSource.Result data !! k
           = if decide (k ∈ EnvDataSource.EnvironmentVariables (Raw (req_Config req)))
             then os_LookupEnv o k
             else None.
Proof.
  intros o fuel w req resp Hresp Hcfg Hset Hnames.
  pose proof (Append_clean _ _ Hresp Hcfg) as Hc.
  unfold EnvDataSource.Read. rewrite (Get_clean _ _ Hcfg). cbv beta iota zeta.
  rewrite Hc.
  destruct (EnvDataSource.EnvironmentVariables (Raw (req_Config req)))
    as [|n names] eqn:Hn; [done|].
  change (0 <? length (n :: names))%nat with true. cbv beta iota.
  destruct (fold_left (EnvDataSource.lookup_step o) (n :: names)
              (Append (GetDiags (req_Config req)) resp, ∅)) as [r m] eqn:Hfold.
  destruct (fold_keeps (EnvDataSource.lookup_step o) (n :: names)
              (Append (GetDiags (req_Config req)) resp, ∅)
              (lookup_step_keeps o)) as [He _].
  rewrite Hfold in He. cbn [fst] in He.
  eexists _, _. split; [reflexivity|].
  rewrite HasError_State_Set, State_State_Set, He, Hc, Hset.
  split; [done|]. split; [reflexivity|].
  cbn [EnvDataSource.EnvironmentVariables EnvDataSource.Result].
  split; [reflexivity|]. intros k.
  pose proof (lookup_fold_lookup_step o (n :: names)
                (Append (GetDiags (req_Config req)) resp, ∅) k) as Hk.
  rewrite Hfold in Hk. cbn [snd] in Hk. rewrite Hk, lookup_empty.
  destruct (decide (k ∈ n :: names)); [|done]. by destruct (os_LookupEnv o k).
Qed.

(** [HOME] is set and [MISSING] is not. *)
Lemma env_read_looks_up_requested_names_witness :
  exists resp' data,
    EnvDataSource.Read sample_oracle_ok 0 empty_world
      (request_of (sample_env ["HOME"; "MISSING"])) fresh = Some (empty_world, resp')
    /\ resp_State resp' = Some data
    /\ EnvDataSource.Result data !! "HOME" = Some "/root"
    /\ EnvDataSource.Result data !! "MISSING" = None
    /\ EnvDataSource.Result data !! "PATH" = None.
Proof.
  destruct (env_read_looks_up_requested_names sample_oracle_ok 0 empty_world
              (request_of (sample_env ["HOME"; "MISSING"])) fresh
              eq_refl eq_refl eq_refl)
    as (resp' & data & Hread & _ & Hstate & _ & Hlookup); [done|].
  exists resp', data. split; [exact Hread|]. split; [exact Hstate|].
  split; [exact (Hlookup "HOME")|]. split; [exact (Hlookup "MISSING")|].
  exact (Hlookup "PATH").
Defined.

Lemma fold_environ_step_sound (l : list string)
    (acc : Response EnvDataSource.Model * gmap string string) (k v : string) :
  snd (fold_left EnvDataSource.environ_step l acc) !! k = Some v ->
  snd acc !! k = Some v
  \/ ((k +:+ String "=" v) ∈ l /\ cut_at_eq k = None).
Proof.
  revert acc. induction l as [|x l IH]; intros acc; cbn [fold_left]; [by left|].
  intros H. apply IH in H as [H|[Hin Hk]].
  - unfold EnvDataSource.environ_step, strings_SplitN_eq_2 in H.
    destruct (cut_at_eq x) as [[k' v']|] eqn:Hx; cbn [snd] in H; [|by left].
    destruct (decide (k' = k)) as [->|Hne].
    + rewrite lookup_insert_eq in H. injection H as ->.
      apply cut_at_eq_Some in Hx as [-> Hk]. right.
      split; [apply elem_of_cons; by left|done].
    + rewrite lookup_insert_ne in H by done. by left.
  - right. split; [apply elem_of_cons; by right|done].
Qed.

Lemma fold_environ_step_complete (l : list string)
    (acc : Response EnvDataSource.Model * gmap string string) (k v : string) :
  is_Some (snd acc !! k)
  \/ ((k +:+ String "=" v) ∈ l /\ cut_at_eq k = None) ->
  is_Some (snd (fold_left EnvDataSource.environ_step l acc) !! k).
Proof.
  revert acc. induction l as [|x l IH]; intros acc; cbn [fold_left].
  { intros [H|[H _]]; [done|]. by apply elem_of_nil in H. }
  intros [H|[[Hx|Hin]%elem_of_cons Hk]]; [|subst x|]; apply IH.
  - left. unfold EnvDataSource.environ_step, strings_SplitN_eq_2.
    destruct (cut_at_eq x) as [[k' v']|]; cbn [snd]; [|done].
    destruct (decide (k' = k)) as [->|Hne].
    + rewrite lookup_insert_eq. by eexists.
    + by rewrite lookup_insert_ne.
  - left. unfold EnvDataSource.environ_step, strings_SplitN_eq_2.
    rewrite (cut_at_eq_append _ _ Hk). cbn [snd].
    rewrite lookup_insert_eq. by eexists.
  - by right.
Qed.

(** X9.  Without a list of names, the environment data source reads the
    whole environment, cutting every entry at its first ["="]: an entry
    of the result comes from a string [k=v] of the environment whose key
    [k] holds no ["="], every such string has its key in the result, and an
    entry without ["="] gives a warning, never an error. *)
Theorem env_read_splits_the_environment :
  forall o fuel w (req : Request EnvDataSource.Model) resp,
    HasError resp = false ->
    diag.HasError (GetDiags (req_Config req)) = false ->
    diag.HasError (StateSetDiags o) = false ->
    EnvDataSource.EnvironmentVariables (Raw (req_Config req)) = [] ->
    exists resp' data,
      EnvDataSource.Read o fuel w req resp = Some (w, resp')
      /\ HasError resp' = false
      /\ resp_State resp' = Some data
      /\ (forall k v,
            EnvDataSource.Result data !! k = Some v ->
            (k +:+ String "=" v) ∈ os_Environ o /\ cut_at_eq k = None)
      /\ (forall k v,
            (k +:+ String "=" v) ∈ os_Environ o -> cut_at_eq k = None ->
            is_Some (EnvDataSource.Result data !! k)).
Proof.
  intros o fuel w req resp Hresp Hcfg Hset Hnames.
  pose proof (Append_clean _ _ Hresp Hcfg) as Hc.
  unfold EnvDataSource.Read. rewrite (Get_clean _ _ Hcfg). cbv beta iota zeta.
  rewrite Hc, Hnames.
  change (0 <? length (@nil string))%nat with false. cbv beta iota.
  destruct (fold_left EnvDataSource.environ_step (os_Environ o)
              (Append (GetDiags (req_Config req)) resp, ∅)) as [r m] eqn:Hfold.
  destruct (fold_keeps EnvDataSource.environ_step (os_Environ o)
              (Append (GetDiags (req_Config req)) resp, ∅)
              environ_step_keeps) as [He _].
  rewrite Hfold in He. cbn [fst] in He.
  eexists _, _. split; [reflexivity|].
  rewrite HasError_State_Set, State_State_Set, He, Hc, Hset.
  split; [done|]. split; [reflexivity|].
  cbn [EnvDataSource.Result]. split.
  - intros k v Hk.
    pose proof (fold_environ_step_sound (os_Environ o)
                  (Append (GetDiags (req_Config req)) resp, ∅) k v) as Hs.
    rewrite Hfold in Hs. cbn [snd] in Hs.
    destruct (Hs Hk) as [H|H]; [by rewrite lookup_empty in H|done].
  - intros k v Hin Hk.
    pose proof (fold_environ_step_complete (os_Environ o)
                  (Append (GetDiags (req_Config req)) resp, ∅) k v) as Hs.
    rewrite Hfold in Hs. cbn [snd] in Hs. apply Hs. by right.
Qed.

(** The sample environment holds [A=1] and then [A=2=3], and an entry
    without ["="]. *)
Lemma env_read_splits_the_environment_witness :
  exists resp' data,
    EnvDataSource.Read sample_oracle_ok 0 empty_world
      (request_of (sample_env [])) fresh = Some (empty_world, resp')
    /\ resp_State resp' = Some data
    /\ is_Some (EnvDataSource.Result data !! "A")
    /\ EnvDataSource.Result data !! "novalue" = None.
Proof.
  destruct (env_read_splits_the_environment sample_oracle_ok 0 empty_world
              (request_of (sample_env [])) fresh eq_refl eq_refl eq_refl eq_refl)
    as (resp' & data & Hread & _ & Hstate & Hsound & Hcomplete).
  exists resp', data. split; [exact Hread|]. split; [exact Hstate|]. split.
  - apply (Hcomplete "A" "1"); [|reflexivity].
    apply elem_of_cons; right. apply elem_of_cons; right. apply elem_of_cons; by left.
  - destruct (EnvDataSource.Result data !! "novalue") as [v|] eqn:Hv; [|done].
    destruct (Hsound _ _ Hv) as [Hin _].
    repeat (apply elem_of_cons in Hin as [Hin|Hin]; [discriminate Hin|]).
    by apply elem_of_nil in Hin.
Defined.

(** ** The OOM-kill data source *)





(** ** The CPU-hog data source *)

(** X11.  [Read] of the CPU-hog data source always returns a response,
    never writes the state, and changes [GOMAXPROCS] only after every
    check has passed: with an error in the response the world is the one
    it was handed, and without one the setting is the number of cores
    asked for, or the number of CPUs when none was asked for, never more
    than the number of CPUs. *)
Theorem cpu_hog_sets_gomaxprocs_after_validation :
  forall o fuel w (req : Request CPUHogDataSource.Model) resp,
    exists w' resp',
      CPUHogDataSource.Read o fuel w req resp = Some (w', resp')
      /\ resp_State resp' = resp_State resp
      /\ (HasError resp' = true -> w' = w)
      /\ (HasError resp' = false ->
          let asked :=
            types.ValueInt32 (CPUHogDataSource.NumCores (Raw (req_Config req))) in
          let numCores := if asked =? 0 then wrap32 (runtime_NumCPU o) else asked in
          numCores <= wrap32 (runtime_NumCPU o)
          /\ w' = CPUHogDataSource.runtime_GOMAXPROCS numCores w
          /\ (1 <= numCores -> GOMAXPROCS w' = numCores)).
Proof.
  intros o fuel w req resp. unfold CPUHogDataSource.Read, Get.
  destruct (diag.HasError (GetDiags (req_Config req))) eqn:Hcfg.
  { cbv beta iota zeta.
    assert (He : HasError (Append (GetDiags (req_Config req)) resp) = true)
      by (by rewrite HasError_resp_Append, Hcfg, orb_true_r).
    rewrite He. eexists _, _. split; [reflexivity|]. rewrite He.
    split; [done|]. split; done. }
  cbv beta iota zeta.
  destruct (HasError (Append (GetDiags (req_Config req)) resp)) eqn:He.
  { eexists _, _. split; [reflexivity|]. rewrite He. split; [done|]. split; done. }
  set (asked := types.ValueInt32 (CPUHogDataSource.NumCores (Raw (req_Config req)))).
  destruct (Z.ltb_spec asked 0) as [Hneg|Hnonneg].
  { eexists _, _. split; [reflexivity|]. rewrite HasError_AddError.
    split; [done|]. split; done. }
  set (numCores := if asked =? 0 then wrap32 (runtime_NumCPU o) else asked).
  rewrite Z.gtb_ltb.
  destruct (Z.ltb_spec (wrap32 (runtime_NumCPU o)) numCores) as [Hmany|Hfew].
  { eexists _, _. split; [reflexivity|]. rewrite HasError_AddError.
    split; [done|]. split; done. }
  destruct (time_ParseDuration o _) as [duration|e].
  - eexists _, _. split; [reflexivity|]. rewrite He.
    split; [done|]. split; [done|]. intros _.
    split; [|split; [reflexivity|]].
    + subst numCores. destruct (Z.eqb_spec asked 0); lia.
    + intros H1. unfold CPUHogDataSource.runtime_GOMAXPROCS.
      destruct (Z.ltb_spec numCores 1); [lia|reflexivity].
  - eexists _, _. split; [reflexivity|]. rewrite HasError_AddError.
    split; [done|]. split; done.
Qed.

(** X12.  The CPU-hog data source has no default duration: without a
    [duration] in the configuration [Read] hands the empty string to
    [time.ParseDuration], which rejects it, and so returns with an error
    and the world untouched. *)
Theorem cpu_hog_duration_has_no_default :
  forall o fuel w (req : Request CPUHogDataSource.Model) resp e,
    diag.HasError (GetDiags (req_Config req)) = false ->
    types.IsNull (CPUHogDataSource.Duration (Raw (req_Config req))) = true ->
    time_ParseDuration o "" = Err e ->
    exists resp',
      CPUHogDataSource.Read o fuel w req resp = Some (w, resp')
      /\ HasError resp' = true
      /\ resp_State resp' = resp_State resp.
Proof.
  intros o fuel w req resp e Hcfg Hnull Hparse.
  unfold CPUHogDataSource.Read. rewrite (Get_clean _ _ Hcfg). cbv beta iota zeta.
  destruct (CPUHogDataSource.Duration (Raw (req_Config req))); try discriminate Hnull.
  cbn [types.ValueString]. rewrite Hparse.
  destruct (HasError (Append (GetDiags (req_Config req)) resp)) eqn:He.
  { eexists. split; [reflexivity|]. by rewrite He. }
  repeat break_match; eexists; (split; [reflexivity|]);
    by rewrite HasError_AddError.
Qed.

(** Two cores and no duration. *)
Lemma cpu_hog_duration_has_no_default_witness :
  exists resp',
    CPUHogDataSource.Read sample_oracle_ok 0 empty_world
      (request_of sample_hog_forever) fresh = Some (empty_world, resp')
    /\ HasError resp' = true.
Proof.
  destruct (cpu_hog_duration_has_no_default sample_oracle_ok 0 empty_world
              (request_of sample_hog_forever) fresh
              "time: invalid duration " eq_refl eq_refl eq_refl)
    as (resp' & Hread & Herr & _).
  exists resp'. split; [exact Hread|exact Herr].
Defined.

(** ** The sleep and failure data sources *)

(** X13.  [Read] of the sleep data source returns without an error
    exactly when its duration parses and the sleep is not interrupted; an
    empty duration is handed to the parser like any other.  It never
    writes the state, and [Read] of the failure data source always leaves
    an error and never writes the state. *)
Theorem sleep_and_failure_data_sources :
  forall o fuel w,
    (forall (req : Request SleepDataSource.Model) resp,
        exists resp',
          SleepDataSource.Read o fuel w req resp = Some (w, resp')
          /\ resp_State resp' = resp_State resp
          /\ (HasError resp' = false <->
              HasError resp = false
              /\ diag.HasError (GetDiags (req_Config req)) = false
              /\ exists duration,
                   time_ParseDuration o
                     (types.ValueString
                        (SleepDataSource.Duration (Raw (req_Config req))))
                   = Ok duration
                   /\ sleep o duration = None))
    /\ (forall (req : Request FailureDataSource.Model) resp,
          exists resp',
            FailureDataSource.Read o fuel w req resp = Some (w, resp')
            /\ resp_State resp' = resp_State resp
            /\ HasError resp' = true).
Proof.
  intros o fuel w. split.
  - intros req resp. unfold SleepDataSource.Read, Get.
    destruct (diag.HasError (GetDiags (req_Config req))) eqn:Hcfg; cbv beta iota zeta.
    { assert (He : HasError (Append (GetDiags (req_Config req)) resp) = true)
        by (by rewrite HasError_resp_Append, Hcfg, orb_true_r).
      rewrite He. eexists. split; [reflexivity|]. rewrite He.
      split; [done|]. split; [done|]. by intros (_ & ? & _). }
    pose proof (HasError_resp_Append (GetDiags (req_Config req)) resp) as Ha.
    rewrite Hcfg, orb_false_r in Ha.
    destruct (HasError (Append (GetDiags (req_Config req)) resp)) eqn:He.
    { eexists. split; [reflexivity|]. rewrite He. split; [done|].
      split; [done|]. intros (Hr & _). congruence. }
    destruct (time_ParseDuration o _) as [duration|e] eqn:Hparse.
    + destruct (sleep o duration) as [e|] eqn:Hsleep.
      * eexists. split; [reflexivity|]. rewrite HasError_AddError.
        split; [done|]. split; [done|]. intros (_ & _ & d & [= <-] & Hd). congruence.
      * eexists. split; [reflexivity|]. rewrite He. split; [done|].
        split; [|done]. intros _. split; [done|]. split; [done|]. by exists duration.
    + eexists. split; [reflexivity|]. rewrite HasError_AddError.
      split; [done|]. split; [done|]. by intros (_ & _ & d & ? & _).
  - intros req resp. unfold FailureDataSource.Read, Get.
    destruct (diag.HasError (GetDiags (req_Config req))) eqn:Hcfg; cbv beta iota zeta.
    + assert (He : HasError (Append (GetDiags (req_Config req)) resp) = true)
        by (by rewrite HasError_resp_Append, Hcfg, orb_true_r).
      rewrite He. eexists. split; [reflexivity|]. by rewrite He.
    + destruct (HasError (Append (GetDiags (req_Config req)) resp)) eqn:He.
      * eexists. split; [reflexivity|]. by rewrite He.
      * eexists. split; [reflexivity|]. by rewrite HasError_AddError.
Qed.

(** ** The DNS lookup, TCP probe and file-content data sources *)

(** X14.  [Read] of the DNS lookup data source, for a configuration that
    decoded: a failed lookup leaves an error and the state as it was; a
    lookup that succeeded writes the host name it was asked for and one
    string per address, in the order of the answer, an empty answer
    giving a known empty list. *)
Theorem dns_lookup_result_follows_the_answer :
  forall o fuel w (req : Request DNSLookupDataSource.Model) resp,
    HasError resp = false ->
    diag.HasError (GetDiags (req_Config req)) = false ->
    diag.HasError (ListValueFromDiags o) = false ->
    diag.HasError (StateSetDiags o) = false ->
    exists resp',
      DNSLookupDataSource.Read o fuel w req resp = Some (w, resp')
      /\ match net_LookupIP o
                 (types.ValueString
                    (DNSLookupDataSource.Hostname (Raw (req_Config req)))) with
         | Err _ => HasError resp' = true /\ resp_State resp' = resp_State resp
         | Ok ips =>
             HasError resp' = false
             /\ exists data,
                  resp_State resp' = Some data
                  /\ DNSLookupDataSource.Hostname data
                     = DNSLookupDataSource.Hostname (Raw (req_Config req))
                  /\ types.IsNull (DNSLookupDataSource.Result data) = false
                  /\ map types.ValueString
                       (types.Elements (DNSLookupDataSource.Result data))
                     = map (IP_String o) ips
         end.
Proof.
  intros o fuel w req resp Hresp Hcfg Hlist Hset.
  pose proof (Append_clean _ _ Hresp Hcfg) as Hc.
  unfold DNSLookupDataSource.Read. rewrite (Get_clean _ _ Hcfg). cbv beta iota zeta.
  destruct (net_LookupIP o _) as [ips|e].
  - rewrite Hlist. eexists. split; [reflexivity|].
    rewrite HasError_State_Set, State_State_Set, Hc, Hset.
    split; [done|]. eexists. split; [reflexivity|].
    cbn [DNSLookupDataSource.Hostname DNSLookupDataSource.Result types.IsNull
         types.Elements].
    split; [done|]. split; [done|].
    generalize (map (IP_String o) ips). intros l.
    induction l as [|x l IH]; [done|]. cbn [map types.ValueString]. by f_equal.
  - eexists. split; [reflexivity|]. by rewrite HasError_AddError.
Qed.

(** The sample resolver answers with two addresses. *)
Lemma dns_lookup_result_follows_the_answer_witness :
  exists resp',
    DNSLookupDataSource.Read sample_oracle_ok 0 empty_world
      (request_of sample_dns) fresh = Some (empty_world, resp')
    /\ HasError resp' = false.
Proof.
  destruct (dns_lookup_result_follows_the_answer sample_oracle_ok 0 empty_world
              (request_of sample_dns) fresh eq_refl eq_refl eq_refl eq_refl)
    as (resp' & Hread & Hres).
  exists resp'. split; [exact Hread|]. exact (proj1 Hres).
Defined.

(** X15.  [Read] of the TCP probe always writes the state, and
    [reachable] is true exactly when the response holds no error, which
    is exactly when the dial succeeded.  The dial is made with a timeout
    of 5 seconds unless a positive one is configured, and on the network
    [tcp] followed by [4] when [use_ipv4] is set and by [6] when
    [use_ipv6] is set. *)
Theorem tcp_probe_reachable_iff_dial_succeeds :
  forall o fuel w (req : Request TCPProbeDataSource.Model) resp,
    HasError resp = false ->
    diag.HasError (GetDiags (req_Config req)) = false ->
    diag.HasError (StateSetDiags o) = false ->
    let cfg := Raw (req_Config req) in
    let timeout :=
      if types.ValueInt32 (TCPProbeDataSource.Timeout cfg) <=? 0 then 5
      else types.ValueInt32 (TCPProbeDataSource.Timeout cfg) in
    let network :=
      "tcp" +:+ (if types.ValueBool (TCPProbeDataSource.UseIPv4 cfg) then "4" else "")
            +:+ (if types.ValueBool (TCPProbeDataSource.UseIP6 cfg) then "6" else "") in
    let dial :=
      net_Dial o (wrap64 (timeout * TCPProbeDataSource.Second)) network
        (net_JoinHostPort o (types.ValueString (TCPProbeDataSource.Host cfg))
           (strconv_Itoa o (types.ValueInt32 (TCPProbeDataSource.Port cfg)))) in
    exists resp' data,
      TCPProbeDataSource.Read o fuel w req resp = Some (w, resp')
      /\ resp_State resp' = Some data
      /\ data = TCPProbeDataSource.set_Reachable
                  (types.Known (negb (HasError resp'))) cfg
      /\ (HasError resp' = false <-> dial = None).
Proof.
  intros o fuel w req resp Hresp Hcfg Hset cfg timeout network dial.
  pose proof (Append_clean _ _ Hresp Hcfg) as Hc.
  unfold TCPProbeDataSource.Read. rewrite (Get_clean _ _ Hcfg). cbv beta iota zeta.
  rewrite Hc. fold cfg.
  assert (Hnet : (let network := "tcp" in
                  let network :=
                    if types.ValueBool (TCPProbeDataSource.UseIPv4 cfg)
                    then network +:+ "4" else network in
                  if types.ValueBool (TCPProbeDataSource.UseIP6 cfg)
                  then network +:+ "6" else network) = network).
  { subst network. cbv zeta.
    destruct (types.ValueBool (TCPProbeDataSource.UseIPv4 cfg)),
      (types.ValueBool (TCPProbeDataSource.UseIP6 cfg)); reflexivity. }
  cbv zeta in Hnet. rewrite Hnet. fold timeout.
  cbn [TCPProbeDataSource.set_Reachable TCPProbeDataSource.Host
       TCPProbeDataSource.Port TCPProbeDataSource.Timeout TCPProbeDataSource.UseIPv4
       TCPProbeDataSource.UseIP6].
  fold dial. destruct dial as [e|].
  - eexists _, _. split; [reflexivity|].
    rewrite HasError_State_Set, State_State_Set, HasError_AddError, Hset.
    split; [reflexivity|]. split; [reflexivity|]. done.
  - eexists _, _. split; [reflexivity|].
    rewrite HasError_State_Set, State_State_Set, Hc, Hset.
    split; [reflexivity|]. split; [reflexivity|]. done.
Qed.

(** A dial that is refused. *)
Lemma tcp_probe_reachable_iff_dial_succeeds_witness :
  exists resp' data,
    TCPProbeDataSource.Read (sample_oracle (Some "connection refused")) 0 empty_world
      (request_of sample_probe) fresh = Some (empty_world, resp')
    /\ resp_State resp' = Some data
    /\ TCPProbeDataSource.Reachable data = types.Known (negb (HasError resp')).
Proof.
  destruct (tcp_probe_reachable_iff_dial_succeeds
              (sample_oracle (Some "connection refused")) 0 empty_world
              (request_of sample_probe) fresh eq_refl eq_refl eq_refl)
    as (resp' & data & Hread & Hstate & Hdata & _).
  exists resp', data. split; [exact Hread|]. split; [exact Hstate|].
  rewrite Hdata. reflexivity.
Defined.

(** X16.  [Read] of the file-content data source, when [os.Stat] and
    [os.ReadFile] report no error of their own, succeeds exactly on a
    regular file: a name that leads nowhere gives the error
    [File Not Found], a directory the error [Invalid File Type], and in
    neither case is the state written. *)
Theorem file_content_succeeds_on_regular_files_only :
  forall o fuel w (req : Request FileContentDataSource.Model) resp name,
    HasError resp = false ->
    diag.HasError (GetDiags (req_Config req)) = false ->
    diag.HasError (StateSetDiags o) = false ->
    types.ValueString (FileContentDataSource.Filename (Raw (req_Config req))) = name ->
    os_Stat_err o name = None ->
    os_ReadFile_err o name = None ->
    exists resp',
      FileContentDataSource.Read o fuel w req resp = Some (w, resp')
      /\ match fs w !! name with
         | Some (File content) =>
             HasError resp' = false /\ is_Some (resp_State resp')
         | Some Dir =>
             resp_State resp' = resp_State resp
             /\ In (diag.NewErrorDiagnostic "Invalid File Type"
                      ("The specified path is a directory, not a file: " +:+ name))
                  (resp_Diagnostics resp')
         | None =>
             resp_State resp' = resp_State resp
             /\ In (diag.NewErrorDiagnostic "File Not Found"
                      ("The file specified does not exist: " +:+ name))
                  (resp_Diagnostics resp')
         end.
Proof.
  intros o fuel w req resp name Hresp Hcfg Hset Hname Hstat Hread.
  pose proof (Append_clean _ _ Hresp Hcfg) as Hc.
  unfold FileContentDataSource.Read. rewrite (Get_clean _ _ Hcfg). cbv beta iota zeta.
  rewrite Hc, Hname. unfold os_Stat, os_ReadFile. rewrite Hstat, Hread.
  destruct (fs w !! name) as [[content|]|].
  - eexists. split; [reflexivity|].
    rewrite HasError_State_Set, State_State_Set, Hc, Hset. split; [done|]. by eexists.
  - eexists. split; [reflexivity|]. split; [reflexivity|].
    apply In_Append_new. by left.
  - eexists. split; [reflexivity|]. split; [reflexivity|].
    apply In_Append_new. by left.
Qed.

(** The sample world holds [motd] and nothing else. *)
Lemma file_content_succeeds_on_regular_files_only_witness :
  exists resp',
    FileContentDataSource.Read sample_oracle_ok 0 empty_world
      (request_of sample_file) fresh = Some (empty_world, resp')
    /\ In (diag.NewErrorDiagnostic "File Not Found"
             "The file specified does not exist: motd")
         (resp_Diagnostics resp').
Proof.
  destruct (file_content_succeeds_on_regular_files_only sample_oracle_ok 0
              empty_world (request_of sample_file) fresh "motd"
              eq_refl eq_refl eq_refl eq_refl eq_refl eq_refl)
    as (resp' & Hread & Hres).
  exists resp'. split; [exact Hread|]. exact (proj2 Hres).
Defined.

(** ** The plan-artifact data source *)

(** X17.  When the named file exists, [Read] of the plan artifact changes
    nothing and ignores the [file_size] asked for: the size in the state
    is the one [os.Stat] reported.  The file it then opens and hashes is
    the one the base name of [file_name] leads to, so [id] is the digest
    of that file, and [Read] fails when the base name leads nowhere or to
    a directory. *)
Theorem plan_artifact_hashes_the_base_name :
  forall o fuel w (req : Request PlanArtifactDataSource.Model) resp name n,
    HasError resp = false ->
    diag.HasError (GetDiags (req_Config req)) = false ->
    diag.HasError (StateSetDiags o) = false ->
    types.ValueString (PlanArtifactDataSource.FileName (Raw (req_Config req))) = name ->
    os_Stat_err o name = None ->
    fs w !! name = Some n ->
    os_Open_err o (os_basename o name) = None ->
    io_Copy_err o = None ->
    exists resp',
      PlanArtifactDataSource.Read o fuel w req resp = Some (w, resp')
      /\ match fs w !! os_basename o name with
         | Some (File content) =>
             HasError resp' = false
             /\ resp_State resp'
                = Some {| PlanArtifactDataSource.FileSize :=
                            types.Known
                              match n with
                              | File c => Z.of_nat (length c)
                              | Dir => dir_Size o name
                              end;
                          PlanArtifactDataSource.FileName :=
                            types.Known (filepath_Base o (os_basename o name));
                          PlanArtifactDataSource.Id :=
                            types.Known
                              (hex_EncodeToString (sha256_Sum256 o content)) |}
         | _ => HasError resp' = true /\ resp_State resp' = resp_State resp
         end.
Proof.
  intros o fuel w req resp name n Hresp Hcfg Hset Hname Hstat Hn Hopen Hcopy.
  pose proof (Append_clean _ _ Hresp Hcfg) as Hc.
  unfold PlanArtifactDataSource.Read. rewrite (Get_clean _ _ Hcfg). cbv beta iota zeta.
  rewrite Hc, Hname. unfold os_Stat. rewrite Hstat, Hn.
  unfold os_Open, hashFile. rewrite Hcopy.
  destruct n as [c|]; rewrite Hopen;
    destruct (fs w !! os_basename o name) as [[content|]|];
    eexists; (split; [reflexivity|]);
    rewrite ?HasError_AddError, ?HasError_State_Set, ?State_State_Set, ?Hc, ?Hset;
    done.
Qed.

(** The file [motd] exists; a size of 7 is asked for and 5 is found. *)
Lemma plan_artifact_hashes_the_base_name_witness :
  exists resp' data,
    PlanArtifactDataSource.Read sample_oracle_ok 0 world_with_motd
      (request_of sample_existing) fresh = Some (world_with_motd, resp')
    /\ resp_State resp' = Some data
    /\ PlanArtifactDataSource.FileSize data = types.Known 5.
Proof.
  destruct (plan_artifact_hashes_the_base_name sample_oracle_ok 0 world_with_motd
              (request_of sample_existing) fresh "motd"
              (File (bytes_of_string "hello"))
              eq_refl eq_refl eq_refl eq_refl eq_refl eq_refl eq_refl eq_refl)
    as (resp' & Hread & Hres).
  change (fs world_with_motd !! os_basename sample_oracle_ok "motd")
    with (Some (File (bytes_of_string "hello"))) in Hres.
  eexists resp', _. split; [exact Hread|]. split; [exact (proj2 Hres)|reflexivity].
Defined.

Lemma write_loop_keeps_file o name fileSize :
  fileSize < 2 ^ 63 ->
  forall fuel k written w w' e,
    0 <= written <= fileSize ->
    fs w !! name = Some (File (PlanArtifactDataSource.file_content w name)) ->
    PlanArtifactDataSource.write_loop o name fileSize fuel k written w = Some (w', e) ->
    fs w' !! name = Some (File (PlanArtifactDataSource.file_content w' name))
    /\ Z.of_nat (length (PlanArtifactDataSource.file_content w' name))
       <= Z.of_nat (length (PlanArtifactDataSource.file_content w name))
          + (fileSize - written).
Proof.
  intros Hsize. induction fuel as [|fuel IH]; intros k written w w' e Hw Hfile;
    cbn [PlanArtifactDataSource.write_loop]; [done|].
  destruct (Z.ltb_spec written fileSize) as [Hlt|Hge].
  - rewrite (wrap64_small (fileSize - written)) by (unfold int64_range; lia).
    set (bytes := if fileSize - written <? PlanArtifactDataSource.chunkSize
                  then fileSize - written else PlanArtifactDataSource.chunkSize).
    assert (Hbytes : 0 < bytes <= fileSize - written).
    { subst bytes. unfold PlanArtifactDataSource.chunkSize.
      destruct (Z.ltb_spec (fileSize - written) (64 * 1024)); lia. }
    destruct (rand_Read_err o k).
    { intros [= <- <-]. split; [exact Hfile|lia]. }
    set (chunk := map (rand_byte o k) (seq 0 (Z.to_nat bytes))).
    assert (Hchunk : Z.of_nat (length chunk) = bytes).
    { subst chunk. rewrite length_map, length_seq. lia. }
    destruct (fh_Write o k chunk) as [|n err].
    + rewrite Hchunk, (wrap64_small (written + bytes)) by (unfold int64_range; lia).
      intros Hrec. apply IH in Hrec as [Hfile' Hlen]; [|lia|apply is_file_write_file].
      split; [exact Hfile'|].
      rewrite file_content_write_file, firstn_all, length_app in Hlen. lia.
    + intros [= <- <-]. split; [apply is_file_write_file|].
      rewrite file_content_write_file, length_app, length_take. lia.
  - intros [= <- <-]. split; [exact Hfile|lia].
Qed.

(** X18.  Once [os.Create] has succeeded the plan artifact never removes
    the file: whatever happens afterwards, a failed write included, [Read]
    returns with the file in place, holding at most the bytes asked for.
    When it returns without an error, [id] is the lowercase hexadecimal
    SHA-256 digest of the bytes the file holds and [file_name] the base
    name of the file. *)
Theorem plan_artifact_keeps_the_file_it_created :
  forall o w (req : Request PlanArtifactDataSource.Model) resp n name,
    0 < n < 2 ^ 63 ->
    PlanArtifactDataSource.FileSize (Raw (req_Config req)) = types.Known n ->
    PlanArtifactDataSource.FileName (Raw (req_Config req)) = types.Known name ->
    fs w !! name = None ->
    HasError resp = false ->
    diag.HasError (GetDiags (req_Config req)) = false ->
    os_Stat_err o name = None ->
    os_Create_err o name = None ->
    exists fuel0, forall fuel, (fuel0 <= fuel)%nat ->
      exists w' resp' content,
        PlanArtifactDataSource.Read o fuel w req resp = Some (w', resp')
        /\ fs w' !! name = Some (File content)
        /\ Z.of_nat (length content) <= n
        /\ (HasError resp' = false ->
            exists data,
              resp_State resp' = Some data
              /\ PlanArtifactDataSource.Id data
                 = types.Known (hex_EncodeToString (sha256_Sum256 o content))
              /\ PlanArtifactDataSource.FileName data
                 = types.Known (filepath_Base o name)).
Proof.
  intros o w req resp n name Hn Hsize Hname Hnone Hresp Hcfg Hstat Hcreate.
  pose proof (Append_clean _ _ Hresp Hcfg) as Hc.
  exists (S (Z.to_nat n)). intros fuel Hfuel.
  unfold PlanArtifactDataSource.Read. rewrite (Get_clean _ _ Hcfg). cbv beta iota zeta.
  rewrite Hc, Hsize, Hname. cbn [types.ValueString types.ValueInt64].
  unfold os_Stat. rewrite Hstat, Hnone. destruct (Z.leb_spec n 0); [lia|].
  rewrite Hcreate.
  set (w0 := PlanArtifactDataSource.os_Create name w).
  assert (Hfile0 : fs w0 !! name
                   = Some (File (PlanArtifactDataSource.file_content w0 name))).
  { unfold PlanArtifactDataSource.file_content, w0, PlanArtifactDataSource.os_Create.
    cbn [fs]. by rewrite lookup_insert_eq. }
  assert (Hempty : PlanArtifactDataSource.file_content w0 name = []).
  { unfold PlanArtifactDataSource.file_content, w0, PlanArtifactDataSource.os_Create.
    cbn [fs]. by rewrite lookup_insert_eq. }
  destruct (write_loop_terminates o name n (proj2 Hn) fuel 0%nat 0 w0) as [[w1 e] Hloop];
    [lia|lia|].
  rewrite Hloop.
  apply write_loop_keeps_file in Hloop as [Hfile1 Hlen]; [|lia|lia|exact Hfile0].
  rewrite Hempty in Hlen. cbn [length] in Hlen.
  destruct e as [written|summary detail].
  2:{ eexists _, _, _. split; [reflexivity|]. split; [exact Hfile1|]. split; [lia|].
      by rewrite HasError_AddError. }
  destruct (fh_Seek_err o).
  { eexists _, _, _. split; [reflexivity|]. split; [exact Hfile1|]. split; [lia|].
    by rewrite HasError_AddError. }
  unfold hashFile. destruct (io_Copy_err o).
  { eexists _, _, _. split; [reflexivity|]. split; [exact Hfile1|]. split; [lia|].
    by rewrite HasError_AddError. }
  eexists _, _, _. split; [reflexivity|]. split; [exact Hfile1|]. split; [lia|].
  intros Hok. rewrite HasError_State_Set, Hc in Hok. cbn [orb] in Hok.
  rewrite State_State_Set, Hok. eexists. split; [reflexivity|]. split; reflexivity.
Qed.

(** Under the sample oracle the second [Write] fails after 2 bytes: the
    file stays. *)
Lemma plan_artifact_keeps_the_file_it_created_witness :
  exists fuel w' resp' content,
    PlanArtifactDataSource.Read sample_oracle_ok fuel empty_world
      (request_of (sample_artifact 70000)) fresh = Some (w', resp')
    /\ fs w' !! "artifact" = Some (File content).
Proof.
  destruct (plan_artifact_keeps_the_file_it_created sample_oracle_ok empty_world
              (request_of (sample_artifact 70000)) fresh 70000 "artifact"
              ltac:(lia) eq_refl eq_refl eq_refl eq_refl eq_refl eq_refl eq_refl)
    as [fuel0 H].
  destruct (H fuel0 (le_n fuel0)) as (w' & resp' & content & Hread & Hfile & _).
  exists fuel0, w', resp', content. split; [exact Hread|exact Hfile].
Defined.

(** ** The system-info data source *)

(** X19.  [Read] of the system-info data source succeeds exactly when
    every probe does: the host information, the CPU count, the memory,
    the working directory, the disk usage of that working directory, the
    variable [PATH] and the home directory.  On success every attribute
    of the state is known; on failure the state is not written. *)
Theorem system_info_succeeds_iff_every_probe_does :
  forall o fuel w (req : Request SystemInfoDataSource.Model) resp,
    HasError resp = false ->
    diag.HasError (GetDiags (req_Config req)) = false ->
    diag.HasError (StateSetDiags o) = false ->
    (forall i, diag.HasError (ObjectValueFromDiags o i) = false) ->
    exists resp',
      SystemInfoDataSource.Read o fuel w req resp = Some (w, resp')
      /\ (HasError resp' = false <->
          exists info counts memTotal workingDir usage path homeDir,
            host_Info o = Ok info /\ cpu_Counts o = Ok counts
            /\ mem_Total o = Ok memTotal /\ os_Getwd o = Ok workingDir
            /\ disk_Usage o workingDir = Ok usage
            /\ os_LookupEnv o "PATH" = Some path
            /\ os_UserHomeDir o = Ok homeDir)
      /\ (HasError resp' = true -> resp_State resp' = resp_State resp)
      /\ (HasError resp' = false ->
          exists data,
            resp_State resp' = Some data
            /\ types.IsNull (SystemInfoDataSource.Hostname data) = false
            /\ types.IsNull (SystemInfoDataSource.OS data) = false
            /\ types.IsNull (SystemInfoDataSource.PlatformInfo_ data) = false
            /\ types.IsNull (SystemInfoDataSource.NumCPUs data) = false
            /\ types.IsNull (SystemInfoDataSource.MemoryTotal data) = false
            /\ types.IsNull (SystemInfoDataSource.DiskInfo_ data) = false
            /\ types.IsNull (SystemInfoDataSource.ProcInfo_ data) = false
            /\ types.IsNull (SystemInfoDataSource.Home data) = false
            /\ types.IsNull (SystemInfoDataSource.Path data) = false
            /\ types.IsNull (SystemInfoDataSource.WorkingDir data) = false).
Proof.
  intros o fuel w req resp Hresp Hcfg Hset Hobj.
  pose proof (Append_clean _ _ Hresp Hcfg) as Hc.
  unfold SystemInfoDataSource.Read. rewrite (Get_clean _ _ Hcfg). cbv beta iota zeta.
  rewrite Hc, !Hobj.
  destruct (host_Info o) as [info|e] eqn:Hinfo.
  2:{ eexists. split; [reflexivity|]. rewrite HasError_AddError.
      split; [|done]. split; [done|]. by intros (?&?&?&?&?&?&?&?&_). }
  destruct (cpu_Counts o) as [counts|e] eqn:Hcounts.
  2:{ eexists. split; [reflexivity|]. rewrite HasError_AddError.
      split; [|done]. split; [done|]. by intros (?&?&?&?&?&?&?&_&?&_). }
  destruct (mem_Total o) as [memTotal|e] eqn:Hmem.
  2:{ eexists. split; [reflexivity|]. rewrite HasError_AddError.
      split; [|done]. split; [done|]. by intros (?&?&?&?&?&?&?&_&_&?&_). }
  destruct (os_Getwd o) as [workingDir|e] eqn:Hwd.
  2:{ eexists. split; [reflexivity|]. rewrite HasError_AddError.
      split; [|done]. split; [done|]. by intros (?&?&?&?&?&?&?&_&_&_&?&_). }
  destruct (disk_Usage o workingDir) as [usage|e] eqn:Hdisk.
  2:{ eexists. split; [reflexivity|]. rewrite HasError_AddError.
      split; [|done]. split; [done|].
      intros (?&?&?&?&?&?&?&_&_&_&[= <-]&Hd&_). congruence. }
  destruct (os_LookupEnv o "PATH") as [path|] eqn:Hpath.
  2:{ eexists. split; [reflexivity|]. rewrite HasError_AddError.
      split; [|done]. split; [done|]. by intros (?&?&?&?&?&?&?&_&_&_&_&_&?&_). }
  destruct (os_UserHomeDir o) as [homeDir|e] eqn:Hhome.
  2:{ eexists. split; [reflexivity|]. rewrite HasError_AddError.
      split; [|done]. split; [done|]. by intros (?&?&?&?&?&?&?&_&_&_&_&_&_&?). }
  eexists. split; [reflexivity|].
  rewrite HasError_State_Set, State_State_Set, Hc, Hset. cbn [orb].
  split; [|split; [done|]].
  - split; [|done]. intros _. by eexists _, _, _, _, _, _, _.
  - intros _. eexists. split; [reflexivity|]. by repeat split.
Qed.

(** Every probe of the sample oracle answers but [PATH], which is not
    set. *)
Lemma system_info_succeeds_iff_every_probe_does_witness :
  exists resp',
    SystemInfoDataSource.Read sample_oracle_ok 0 empty_world
      (request_of SystemInfoDataSource.zero) fresh = Some (empty_world, resp')
    /\ HasError resp' = true.
Proof.
  destruct (system_info_succeeds_iff_every_probe_does sample_oracle_ok 0 empty_world
              (request_of SystemInfoDataSource.zero) fresh
              eq_refl eq_refl eq_refl (fun _ => eq_refl))
    as (resp' & Hread & Hiff & _).
  exists resp'. split; [exact Hread|].
  destruct (HasError resp') eqn:He; [reflexivity|].
  destruct (proj1 Hiff eq_refl) as (?&?&?&?&?&?&?&_&_&_&_&_&Hpath&_).
  discriminate Hpath.
Defined.

(** ** Type names, schemas and model structs *)

Lemma append_inj_l (p a b : string) : p +:+ a = p +:+ b -> a = b.
Proof.
  induction p as [|c p IH]; [done|].
  change (String c p +:+ a) with (String c (p +:+ a)).
  change (String c p +:+ b) with (String c (p +:+ b)).
  intros [= H]. by apply IH.
Qed.

(** X20.  Within each kind the type name determines the component, for
    every provider type name: no two resources and no two data sources
    set the same type name.  The lists the provider registers hold no
    constructor twice, and the sleep data source, which the repository
    declares, is not among them. *)
Theorem type_names_are_distinct_within_a_kind :
  forall p,
    (forall r1 r2, Metadata (AResource r1) p = Metadata (AResource r2) p -> r1 = r2)
    /\ (forall d1 d2,
          Metadata (ADataSource d1) p = Metadata (ADataSource d2) p -> d1 = d2)
    /\ NoDup (map (fun r => Metadata (AResource r) p) Resources)
    /\ NoDup (map (fun d => Metadata (ADataSource d) p) DataSources)
    /\ NewSleepDataSource ∉ DataSources.
Proof.
  intros p.
  assert (Hr : forall r1 r2,
             Metadata (AResource r1) p = Metadata (AResource r2) p -> r1 = r2).
  { intros [] []; cbn [Metadata]; intros H; try reflexivity;
      apply append_inj_l in H; discriminate H. }
  assert (Hd : forall d1 d2,
             Metadata (ADataSource d1) p = Metadata (ADataSource d2) p -> d1 = d2).
  { intros [] []; cbn [Metadata]; intros H; try reflexivity;
      apply append_inj_l in H; discriminate H. }
  split; [exact Hr|]. split; [exact Hd|]. split; [|split].
  - apply NoDup_fmap_2; [intros r1 r2; apply Hr|]. apply (bool_decide_unpack _); by vm_compute.
  - apply NoDup_fmap_2; [intros d1 d2; apply Hd|]. apply (bool_decide_unpack _); by vm_compute.
  - apply (bool_decide_unpack _); by vm_compute.
Qed.

(** X21.  Schema and model struct agree, for every resource and data
    source: the attributes the schema declares and the [tfsdk] tags of
    the model struct are the same names, each once, and a field holds an
    object exactly when its attribute is nested. *)
Theorem schema_attributes_match_model_fields :
  forall c,
    NoDup (map fst (Schema_of c))
    /\ NoDup (map fst (Model_fields c))
    /\ (forall name, name ∈ map fst (Schema_of c) <-> name ∈ map fst (Model_fields c))
    /\ (forall name a t,
          (name, a) ∈ Schema_of c -> (name, t) ∈ Model_fields c ->
          flat_attribute a = flat_field t).
Proof.
  intros c. split; [|split; [|split]].
  - destruct c as [[]|[]]; apply (bool_decide_unpack _); by vm_compute.
  - destruct c as [[]|[]]; apply (bool_decide_unpack _); by vm_compute.
  - intros name. destruct c as [[]|[]]; cbn [Schema_of Model_fields map fst];
      rewrite ?elem_of_cons, ?elem_of_nil; tauto.
  - intros name a t Ha Ht.
    destruct c as [[]|[]]; cbn [Schema_of Model_fields] in Ha, Ht;
      repeat (apply elem_of_cons in Ha as [Ha|Ha];
              [simplify_eq;
               repeat (apply elem_of_cons in Ht as [Ht|Ht]; [by simplify_eq|]);
               by apply elem_of_nil in Ht|]);
      by apply elem_of_nil in Ha.
Qed.

(** ** The CPU-hog fan-out: the wait group and liveness *)

Section FanOutLiveness.

Import CPUHogFanOut.

Context (numCores : nat).

Lemma sum_live_le (ws : list WorkerPC) :
  (sum_list (map live ws) <= length ws)%nat.
Proof.
  induction ws as [|p ws IH]; [done|].
  cbn [map length]. rewrite sum_list_cons. destruct p; cbn [live]; lia.
Qed.

Lemma exec_app (sched1 sched2 : list Action) (s : State) :
  exec numCores (sched1 ++ sched2) s
  = match exec numCores sched1 s with
    | Some s' => exec numCores sched2 s'
    | None => None
    end.
Proof.
  revert s. induction sched1 as [|a sched1 IH]; intros s; [done|].
  cbn [app exec]. destruct (step numCores a s); [apply IH|done].
Qed.

(** Before [quit] is closed [Read] runs on to its [select]. *)
Lemma open_reaches_select (k : nat) (s : State) :
  Inv numCores s -> quit_closed s = false ->
  (match main s with
   | MLoop i => 2 * (numCores - i) + 1
   | MGo i => 2 * (numCores - i)
   | _ => 0
   end <= k)%nat ->
  exists sched s', exec numCores sched s = Some s' /\ main s' = MSelect.
Proof.
  revert s. induction k as [|k IH]; intros s HI Hopen Hk;
    pose proof (inv_closed _ _ HI) as Hc; pose proof (inv_index _ _ HI) as Hi;
    rewrite Hopen in Hc.
  - destruct (main s) as [i|i| | |] eqn:Hm; try done; try lia.
    by exists [], s.
  - destruct (main s) as [i|i| | |] eqn:Hm; try done.
    + destruct (step_main numCores s) as [s1|] eqn:Hstep.
      2:{ unfold step_main in Hstep. rewrite Hm in Hstep. by destruct (i <? numCores)%nat. }
      pose proof (step_main_Inv _ _ _ HI Hstep) as HI1.
      assert (Hopen1 : quit_closed s1 = false).
      { unfold step_main in Hstep. rewrite Hm in Hstep.
        destruct (i <? numCores)%nat; injection Hstep as <-; exact Hopen. }
      destruct (IH s1 HI1 Hopen1) as (sched & s' & Hexec & Hsel).
      { unfold step_main in Hstep. rewrite Hm in Hstep.
        destruct (Nat.ltb_spec i numCores); injection Hstep as <-; cbn [main]; lia. }
      exists (AMain :: sched), s'. cbn [exec step]. by rewrite Hstep.
    + destruct (step_main numCores s) as [s1|] eqn:Hstep.
      2:{ unfold step_main in Hstep. by rewrite Hm in Hstep. }
      pose proof (step_main_Inv _ _ _ HI Hstep) as HI1.
      assert (Hopen1 : quit_closed s1 = false).
      { unfold step_main in Hstep. rewrite Hm in Hstep.
        injection Hstep as <-; exact Hopen. }
      destruct (IH s1 HI1 Hopen1) as (sched & s' & Hexec & Hsel).
      { unfold step_main in Hstep. rewrite Hm in Hstep.
        injection Hstep as <-; cbn [main]; lia. }
      exists (AMain :: sched), s'. cbn [exec step]. by rewrite Hstep.
    + by exists [], s.
Qed.

(** Once [quit] is closed every run ends with [Read] returned. *)
Lemma closed_reaches_return (k : nat) (s : State) :
  Inv numCores s -> quit_closed s = true -> (steps_left s <= k)%nat ->
  exists sched s', exec numCores sched s = Some s' /\ main s' = MReturned.
Proof.
  revert s. induction k as [|k IH]; intros s HI Hclosed Hk;
    (destruct (decide (main s = MReturned)) as [Hm|Hm]; [by exists [], s|]);
    destruct (closed_progress _ _ HI Hclosed Hm) as (a & s1 & Hstep);
    pose proof (step_closed_decreases _ _ _ _ HI Hclosed Hstep) as Hdec; [lia|].
  destruct (IH s1) as (sched & s' & Hexec & Hret).
  - by eapply step_Inv.
  - by rewrite (step_closed _ _ _ _ HI Hstep), Hclosed.
  - lia.
  - exists (a :: sched), s'. cbn [exec]. by rewrite Hstep.
Qed.

(** X22.  The fan-out cannot get stuck: from every state a schedule
    reaches, some schedule leads on to the return of [Read], with every
    worker started and ended. *)
Theorem fan_out_can_always_return :
  forall sched s,
    exec numCores sched init = Some s ->
    exists sched' s',
      exec numCores sched' s = Some s'
      /\ main s' = MReturned
      /\ length (workers s') = numCores
      /\ Forall (fun p => p = WDone) (workers s').
Proof.
  intros sched s Hexec.
  destruct (exec_Inv _ _ _ _ (init_Inv numCores) Hexec) as [HI _].
  assert (Hreach : exists sched' s',
             exec numCores sched' s = Some s' /\ main s' = MReturned).
  { destruct (quit_closed s) eqn:Hclosed.
    - by apply (closed_reaches_return (steps_left s)).
    - destruct (open_reaches_select _ s HI Hclosed (le_n _))
        as (sched1 & s1 & Hexec1 & Hsel).
      destruct (exec_Inv _ _ _ _ HI Hexec1) as [HI1 _].
      destruct (step_receive TimerFired s1) as [s2|] eqn:Hstep.
      2:{ unfold step_receive in Hstep. by rewrite Hsel in Hstep. }
      destruct (step_receive_Inv _ _ _ _ HI1 Hstep) as (HI2 & _ & Hclosed2).
      destruct (closed_reaches_return (steps_left s2) s2 HI2 Hclosed2 (le_n _))
        as (sched2 & s' & Hexec2 & Hret).
      exists (sched1 ++ AReceive TimerFired :: sched2), s'.
      rewrite exec_app, Hexec1. cbn [exec step]. by rewrite Hstep. }
  destruct Hreach as (sched' & s' & Hexec' & Hret).
  destruct (exec_Inv _ _ _ _ HI Hexec') as [HI' _].
  exists sched', s'. split; [exact Hexec'|]. split; [exact Hret|]. split.
  - pose proof (inv_started _ _ HI') as Hs. by rewrite Hret in Hs.
  - by apply (inv_done _ _ HI').
Qed.

(** X23.  The wait group counts the workers that have not ended, plus
    the one [Read] has added and not yet started: in every state a
    schedule reaches the counter lies between 0 and the number of cores,
    so [wg.Done] never makes it negative, no more goroutines run than
    cores were asked for, and the counter is 0 when [Read] has
    returned. *)
Theorem fan_out_wait_group_counts_live_workers :
  forall sched s,
    exec numCores sched init = Some s ->
    wg s = Z.of_nat (sum_list (map live (workers s)))
           + match main s with MGo _ => 1 | _ => 0 end
    /\ 0 <= wg s <= Z.of_nat numCores
    /\ (length (workers s) <= numCores)%nat
    /\ (main s = MReturned -> wg s = 0).
Proof.
  intros sched s Hexec.
  destruct (exec_Inv _ _ _ _ (init_Inv numCores) Hexec) as [HI _].
  pose proof (inv_wg _ _ HI) as Hwg. pose proof (inv_started _ _ HI) as Hs.
  pose proof (inv_index _ _ HI) as Hi. pose proof (sum_live_le (workers s)) as Hle.
  split; [exact Hwg|]. split; [|split].
  - destruct (main s); lia.
  - destruct (main s); lia.
  - intros Hret. pose proof (inv_done _ _ HI Hret) as Hdone. rewrite Hwg, Hret.
    assert (Hz : sum_list (map live (workers s)) = 0%nat).
    { clear -Hdone. induction Hdone as [|p ws -> _ IH]; [done|].
      cbn [map]. by rewrite sum_list_cons, IH. }
    lia.
Qed.

End FanOutLiveness.

(** On two cores, after the first worker was started. *)
Lemma fan_out_can_always_return_witness :
  exists sched' s',
    CPUHogFanOut.exec 2 sched'
      {| CPUHogFanOut.main := CPUHogFanOut.MLoop 1;
         CPUHogFanOut.quit_closed := false; CPUHogFanOut.wg := 1;
         CPUHogFanOut.workers := [CPUHogFanOut.WHog] |} = Some s'
    /\ CPUHogFanOut.main s' = CPUHogFanOut.MReturned.
Proof.
  destruct (fan_out_can_always_return 2
              [CPUHogFanOut.AMain; CPUHogFanOut.AMain; CPUHogFanOut.AWorker 0]
              _ eq_refl) as (sched' & s' & Hexec & Hret & _).
  exists sched', s'. split; [exact Hexec|exact Hret].
Defined.

(** The same state: one worker runs, the counter is 1. *)
Lemma fan_out_wait_group_counts_live_workers_witness :
  0 <= CPUHogFanOut.wg
         {| CPUHogFanOut.main := CPUHogFanOut.MLoop 1;
            CPUHogFanOut.quit_closed := false; CPUHogFanOut.wg := 1;
            CPUHogFanOut.workers := [CPUHogFanOut.WHog] |} <= 2.
Proof.
  exact (proj1 (proj2 (fan_out_wait_group_counts_live_workers 2
                         [CPUHogFanOut.AMain; CPUHogFanOut.AMain;
                          CPUHogFanOut.AWorker 0] _ eq_refl))).
Defined.

(** ** Refreshing a resource *)

(** X24.  [Read] of a resource never changes what Terraform holds: with
    the prior state decoded and the encoding free of errors, [Read] of the
    failure and of the HTTP GET resource writes the prior state back as
    it is, and [Read] of the sleep and of the command resource leaves the
    response untouched.  None of them leaves an error, and no request is
    sent and no command run again. *)
Theorem resource_read_keeps_the_prior_state :
  forall r o (req : Request (res_Model r)) resp,
    HasError resp = false ->
    diag.HasError (GetDiags (req_State req)) = false ->
    diag.HasError (StateSetDiags o) = false ->
    exists resp',
      res_call r Read o req resp = Some resp'
      /\ HasError resp' = false
      /\ resp_State resp'
         = match r with
           | NewFailureResource | NewHTTPGetResource => Some (Raw (req_State req))
           | NewSleepResource | NewCommandResource => resp_State resp
           end.
Proof.
  intros r o req resp Hresp Hstate Hset.
  pose proof (Append_clean _ _ Hresp Hstate) as Hs.
  destruct r; cbn [res_Model] in *; cbn [res_call]; eexists; (split; [reflexivity|]).
  - unfold FailureResource.Read. rewrite (Get_clean _ _ Hstate). cbv beta iota zeta.
    by rewrite Hs, HasError_State_Set, State_State_Set, Hs, Hset.
  - done.
  - done.
  - unfold HTTPGetResource.Read. rewrite (Get_clean _ _ Hstate). cbv beta iota zeta.
    by rewrite Hs, HasError_State_Set, State_State_Set, Hs, Hset.
Qed.

(** The HTTP GET resource, refreshed under an oracle whose client would
    answer. *)
Lemma resource_read_keeps_the_prior_state_witness :
  exists resp',
    res_call NewHTTPGetResource Read sample_oracle_ok (request_of sample_http) fresh
    = Some resp'
    /\ resp_State resp' = Some sample_http.
Proof.
  destruct (resource_read_keeps_the_prior_state NewHTTPGetResource sample_oracle_ok
              (request_of sample_http) fresh eq_refl eq_refl eq_refl)
    as (resp' & Hread & _ & Hstate).
  exists resp'. split; [exact Hread|exact Hstate].
Defined.
